(** * The x402 Solana facilitator (real-facilitator.js): model and properties

    The facilitator is an Express application with three handlers that do
    real work: [/create-sponsored-transaction], [/verify] and [/settle].
    They are modelled here as programs of a small state-and-exception
    monad over an abstract ledger, next to the pure payload normaliser
    [extractTransactionData]. *)

From Stdlib Require Import ZArith List String Ascii Bool Lia Permutation.
From Stdlib Require Import DecimalString.
Import ListNotations.
Local Open Scope string_scope.
Local Open Scope Z_scope.
Set Warnings "-register-all".

(** ** JavaScript values as they arrive through [express.json()] *)

(** A request body is parsed JSON; property reads add [undefined].  A
    number is a double: [JNum n] is the number the parser makes of the
    integer [n], which is the double nearest to [n] ([to_double] below), and
    [JFrac text] is a finite number that is not an integer, given by the
    text [ToString] prints for it.  A string is held as the bytes of its
    UTF-8 encoding.  An object is the list of its own properties in
    [Object.keys] order. *)
Inductive JValue : Type :=
| JUndefined
| JNull
| JBool (b : bool)
| JNum (n : Z)
| JFrac (text : string)
| JStr (s : string)
| JArr (items : list JValue)
| JObj (props : list (string * JValue)).

(** What a [throw] carries: the handlers only ever read [error.message]. *)
Definition Error := string.

Inductive Result (A : Type) : Type :=
| Ok (a : A)
| Throw (e : Error).
Arguments Ok {A} a.
Arguments Throw {A} e.

Definition rbind {A B} (r : Result A) (k : A -> Result B) : Result B :=
  match r with
  | Ok a => k a
  | Throw e => Throw e
  end.

(** ToBoolean. *)
Definition truthy (v : JValue) : bool :=
  match v with
  | JUndefined | JNull => false
  | JBool b => b
  | JNum n => negb (n =? 0)
  | JFrac _ => true
  | JStr s => negb (String.eqb s EmptyString)
  | JArr _ | JObj _ => true
  end.

Fixpoint assoc {A} (k : string) (l : list (string * A)) : option A :=
  match l with
  | [] => None
  | (k', v) :: rest => if String.eqb k k' then Some v else assoc k rest
  end.

(** [v.k] for a receiver that is not [undefined] or [null], at the property
    names the source spells out (payload, network, signature, ...).  None of
    them is a member of a built-in prototype, so only an object's own
    properties can answer. *)
Definition field (v : JValue) (k : string) : JValue :=
  match v with
  | JObj props => match assoc k props with Some x => x | None => JUndefined end
  | _ => JUndefined
  end.

Definition type_name (v : JValue) : string :=
  match v with
  | JNull => "null"
  | _ => "undefined"
  end.

(** [v.k] in general: reading a property of [undefined] or [null] throws a
    TypeError. *)
Definition member (v : JValue) (k : string) : Result JValue :=
  match v with
  | JUndefined | JNull =>
      Throw ("Cannot read properties of " ++ type_name v ++ " (reading '" ++ k ++ "')")
  | _ => Ok (field v k)
  end.

(** [const { k } = req.body]. *)
Definition destructure (req_body : JValue) (k : string) : Result JValue :=
  match req_body with
  | JUndefined | JNull =>
      Throw ("Cannot destructure property '" ++ k ++ "' of 'req.body' as it is "
               ++ type_name req_body ++ ".")
  | _ => Ok (field req_body k)
  end.

(** [v?.k]. *)
Definition opt_field (v : JValue) (k : string) : JValue :=
  match v with
  | JUndefined | JNull => JUndefined
  | _ => field v k
  end.

Definition nat_to_string (n : nat) : string :=
  NilEmpty.string_of_uint (Nat.to_uint n).

Definition index_keys (n : nat) : list string :=
  map nat_to_string (seq 0 n).

(** The UTF-16 code units a byte of UTF-8 text stands for: none for a
    continuation byte, two for the first byte of a four-byte sequence (a
    character beyond the basic plane, a surrogate pair in JavaScript), one
    for any other first byte. *)
Definition utf16_units (c : ascii) : nat :=
  let b := nat_of_ascii c in
  if (128 <=? b)%nat && (b <? 192)%nat then 0%nat
  else if (240 <=? b)%nat then 2%nat
  else 1%nat.

(** [s.length]: the length of a string in UTF-16 code units. *)
Fixpoint utf16_length (s : string) : nat :=
  match s with
  | EmptyString => 0%nat
  | String c rest => (utf16_units c + utf16_length rest)%nat
  end.

(** [Object.keys(v)] for a truthy [v]: own property names of an object,
    the indices of an array or of the code units of a string, nothing for
    other primitives. *)
Definition Object_keys (v : JValue) : list string :=
  match v with
  | JObj props => map fst props
  | JArr items => index_keys (List.length items)
  | JStr s => index_keys (utf16_length s)
  | _ => []
  end.

(** [a || b] on values. *)
Definition js_or (a b : JValue) : JValue := if truthy a then a else b.

(** ** The payload normaliser *)

Inductive Format : Type :=
| facilitator_sponsored
| minimal
| full
| authorization_only.

Definition Format_eqb (a b : Format) : bool :=
  match a, b with
  | facilitator_sponsored, facilitator_sponsored
  | minimal, minimal
  | full, full
  | authorization_only, authorization_only => true
  | _, _ => false
  end.

(** The four object literals [extractTransactionData] can return. *)
Inductive TransactionData : Type :=
| SponsoredData (userSignature facilitatorTransaction userPublicKey : JValue)
| MinimalData (signature transaction : JValue)
| FullData (signature transaction payer amount mint recipient blockhash memo : JValue)
| AuthorizationData (signature payer recipient amount memo : JValue).

Definition td_format (d : TransactionData) : Format :=
  match d with
  | SponsoredData _ _ _ => facilitator_sponsored
  | MinimalData _ _ => minimal
  | FullData _ _ _ _ _ _ _ _ => full
  | AuthorizationData _ _ _ _ _ => authorization_only
  end.

(** [transactionData.signature], [.transaction], [.payer] and
    [.facilitatorTransaction]: [undefined] where the literal has no such
    key. *)
Definition td_signature (d : TransactionData) : JValue :=
  match d with
  | SponsoredData _ _ _ => JUndefined
  | MinimalData s _ => s
  | FullData s _ _ _ _ _ _ _ => s
  | AuthorizationData s _ _ _ _ => s
  end.

Definition td_transaction (d : TransactionData) : JValue :=
  match d with
  | MinimalData _ t => t
  | FullData _ t _ _ _ _ _ _ => t
  | _ => JUndefined
  end.

Definition td_payer (d : TransactionData) : JValue :=
  match d with
  | FullData _ _ p _ _ _ _ _ => p
  | AuthorizationData _ p _ _ _ => p
  | _ => JUndefined
  end.

Definition td_facilitatorTransaction (d : TransactionData) : JValue :=
  match d with
  | SponsoredData _ t _ => t
  | _ => JUndefined
  end.

Definition unrecognized_message (payload : JValue) : string :=
  "Unrecognized payload format. Available fields: "
    ++ String.concat ", " (Object_keys payload)
    ++ ". Expected: signature + transaction (+ optional payer, amount, etc.)".

Definition extractTransactionData (paymentPayload : JValue) : Result TransactionData :=
  rbind (member paymentPayload "payload") (fun payload =>
  if negb (truthy payload) then
    Throw "Missing payload in payment"
  else if truthy (field payload "userSignature")
          && truthy (field payload "facilitatorTransaction")
          && truthy (field payload "userPublicKey") then
    Ok (SponsoredData (field payload "userSignature")
                      (field payload "facilitatorTransaction")
                      (field payload "userPublicKey"))
  else if truthy (field payload "signature")
          && truthy (field payload "transaction")
          && negb (truthy (field payload "payer")) then
    Ok (MinimalData (field payload "signature") (field payload "transaction"))
  else if truthy (field payload "signature")
          && truthy (field payload "transaction")
          && truthy (field payload "payer") then
    Ok (FullData (field payload "signature") (field payload "transaction")
                 (field payload "payer") (field payload "amount")
                 (field payload "mint") (field payload "recipient")
                 (field payload "blockhash") (field payload "memo"))
  else if truthy (field payload "signature")
          && truthy (field payload "authorization")
          && negb (truthy (field payload "transaction")) then
    Ok (AuthorizationData (field payload "signature")
                          (field (field payload "authorization") "from")
                          (field (field payload "authorization") "to")
                          (field (field payload "authorization") "value")
                          (field (field payload "authorization") "nonce"))
  else
    Throw (unrecognized_message payload)).


(** ** Keys, transactions and messages of @solana/web3.js

    The source calls the legacy [Transaction] class of @solana/web3.js and
    the token helpers of @solana/spl-token.  Their code is not part of the
    repository; the definitions below follow the behaviour of those library
    routines that the handlers rely on. *)

(** A public key, identified with its base58 text ([toBase58]). *)
Definition PublicKey := string.
Definition PublicKey_equals (a b : PublicKey) : bool := String.eqb a b.

Definition Blockhash := string.

(** A transaction signature as the RPC reports it (base58 text). *)
Definition Signature := string.

(** The 64 signature bytes stored in a transaction. *)
Definition SigBytes := string.

Definition SecretKey := string.

Record Keypair : Type := mkKeypair {
  publicKey : PublicKey;
  secretKey : SecretKey
}.

Record AccountMeta : Type := mkMeta {
  pubkey : PublicKey;
  isSigner : bool;
  isWritable : bool
}.

Inductive InstructionData : Type :=
| TokenTransfer (amount : Z)
| RawData (bytes : string).

Record TransactionInstruction : Type := mkInstruction {
  keys : list AccountMeta;
  programId : PublicKey;
  data : InstructionData
}.

Record SignaturePubkeyPair : Type := mkSigPair {
  sp_signature : option SigBytes;
  sp_publicKey : PublicKey
}.

Record CompiledInstruction : Type := mkCompiled {
  programIdIndex : option nat;
  accounts : list (option nat);
  ci_data : InstructionData
}.

Record Message : Type := mkMessage {
  numRequiredSignatures : nat;
  numReadonlySignedAccounts : nat;
  numReadonlyUnsignedAccounts : nat;
  accountKeys : list PublicKey;
  msg_recentBlockhash : Blockhash;
  msg_instructions : list CompiledInstruction
}.

(** [cached] is the message a transaction decoded from the wire keeps
    ([_message]); [compileMessage] returns it as long as the transaction is
    not modified, which holds for every decoded transaction here. *)
Record Transaction : Type := mkTransaction {
  signatures : list SignaturePubkeyPair;
  feePayer : option PublicKey;
  instructions : list TransactionInstruction;
  recentBlockhash : option Blockhash;
  cached : option Message
}.

(** What [serialize] produces: one signature slot per required signer
    (an unsigned slot is sent as zero bytes) and the message. *)
Record WireTransaction : Type := mkWire {
  wire_signatures : list (option SigBytes);
  wire_message : Message
}.

Definition TOKEN_PROGRAM_ID : PublicKey :=
  "TokenkegQfeZyiNwAJbNbGKPFXCWuBvf9Ss623VQ5DA".

(** Library routines whose results are taken as given: text encodings, key
    parsing, address derivation and the ed25519 primitives. *)
Record Lib : Type := mkLib {
  JSON_stringify : JValue -> string;
  (** [new PublicKey(x)] *)
  PublicKey_new : JValue -> Result PublicKey;
  (** [Transaction.from(Buffer.from(x, 'base64'))] *)
  Transaction_from : JValue -> Result Transaction;
  (** [getAssociatedTokenAddress(mint, owner)] *)
  getAssociatedTokenAddress : PublicKey -> PublicKey -> Result PublicKey;
  (** StringToBigInt; [None] is a SyntaxError *)
  StringToBigInt : string -> option Z;
  (** [serialize(...).toString('base64')] of the wire bytes *)
  base64_of_wire : WireTransaction -> string;
  nacl_sign : Message -> SecretKey -> SigBytes;
  nacl_verify : SigBytes -> Message -> PublicKey -> bool;
  (** [a.toBase58().localeCompare(b.toBase58(), 'en', ...) <= 0] *)
  pubkey_leb : PublicKey -> PublicKey -> bool
}.

(** *** [Transaction.compileMessage], [partialSign] and [serialize] *)

Section Web3.
Variable lib : Lib.

Definition push_unique (ids : list PublicKey) (p : PublicKey) : list PublicKey :=
  if existsb (PublicKey_equals p) ids then ids else (ids ++ [p])%list.

Definition programIds (ixs : list TransactionInstruction) : list PublicKey :=
  fold_left push_unique (map programId ixs) [].

(** Every account of every instruction, then the programs. *)
Definition accountMetas (ixs : list TransactionInstruction) : list AccountMeta :=
  (flat_map keys ixs ++ map (fun p => mkMeta p false false) (programIds ixs))%list.

(** Cull duplicate account metas: a repeated key keeps its first place
    and gathers the signer and writable flags. *)
Fixpoint merge_meta (unique : list AccountMeta) (m : AccountMeta) : list AccountMeta :=
  match unique with
  | [] => [m]
  | x :: rest =>
      if PublicKey_equals (pubkey x) (pubkey m)
      then mkMeta (pubkey x) (isSigner x || isSigner m) (isWritable x || isWritable m) :: rest
      else x :: merge_meta rest m
  end.

Definition uniqueMetas (metas : list AccountMeta) : list AccountMeta :=
  fold_left merge_meta metas [].

(** The sort order: signers first, then writable accounts, then by key. *)
Definition meta_leb (x y : AccountMeta) : bool :=
  if Bool.eqb (isSigner x) (isSigner y) then
    if Bool.eqb (isWritable x) (isWritable y)
    then pubkey_leb lib (pubkey x) (pubkey y)
    else isWritable x
  else isSigner x.

Fixpoint insert_meta (m : AccountMeta) (sorted : list AccountMeta) : list AccountMeta :=
  match sorted with
  | [] => [m]
  | x :: rest => if meta_leb x m then x :: insert_meta m rest else m :: x :: rest
  end.

Definition sort_metas (metas : list AccountMeta) : list AccountMeta :=
  fold_left (fun sorted m => insert_meta m sorted) metas [].

Fixpoint remove_key (pk : PublicKey) (metas : list AccountMeta) : list AccountMeta :=
  match metas with
  | [] => []
  | x :: rest => if PublicKey_equals (pubkey x) pk then rest else x :: remove_key pk rest
  end.

(** Move the fee payer to the front, as a writable signer. *)
Definition fee_payer_first (payer : PublicKey) (metas : list AccountMeta) : list AccountMeta :=
  mkMeta payer true true :: remove_key payer metas.

Fixpoint mark_signer (pk : PublicKey) (metas : list AccountMeta) : option (list AccountMeta) :=
  match metas with
  | [] => None
  | x :: rest =>
      if PublicKey_equals (pubkey x) pk
      then Some (mkMeta (pubkey x) true (isWritable x) :: rest)
      else option_map (cons x) (mark_signer pk rest)
  end.

(** Disallow unknown signers. *)
Fixpoint known_signers (sigs : list SignaturePubkeyPair) (metas : list AccountMeta)
  : Result (list AccountMeta) :=
  match sigs with
  | [] => Ok metas
  | s :: rest =>
      match mark_signer (sp_publicKey s) metas with
      | Some metas' => known_signers rest metas'
      | None => Throw ("unknown signer: " ++ sp_publicKey s)
      end
  end.

Fixpoint indexOf (pk : PublicKey) (l : list PublicKey) : option nat :=
  match l with
  | [] => None
  | x :: rest => if PublicKey_equals x pk then Some O else option_map S (indexOf pk rest)
  end.

Definition compile_instruction (accountKeys : list PublicKey) (ix : TransactionInstruction)
  : CompiledInstruction :=
  mkCompiled (indexOf (programId ix) accountKeys)
             (map (fun m => indexOf (pubkey m) accountKeys) (keys ix))
             (data ix).

Definition signed_metas (metas : list AccountMeta) : list AccountMeta :=
  filter isSigner metas.

Definition unsigned_metas (metas : list AccountMeta) : list AccountMeta :=
  filter (fun m => negb (isSigner m)) metas.

Definition readonly_count (metas : list AccountMeta) : nat :=
  List.length (filter (fun m => negb (isWritable m)) metas).

Definition build_message (metas : list AccountMeta) (bh : Blockhash)
           (ixs : list TransactionInstruction) : Message :=
  let accountKeys :=
    (map pubkey (signed_metas metas) ++ map pubkey (unsigned_metas metas))%list in
  mkMessage (List.length (signed_metas metas))
            (readonly_count (signed_metas metas))
            (readonly_count (unsigned_metas metas))
            accountKeys bh
            (map (compile_instruction accountKeys) ixs).

Definition compileMessage (tx : Transaction) : Result Message :=
  match cached tx with
  | Some m => Ok m
  | None =>
      match recentBlockhash tx with
      | None => Throw "Transaction recentBlockhash required"
      | Some bh =>
          rbind (match feePayer tx, signatures tx with
                 | Some payer, _ => Ok payer
                 | None, s :: _ => Ok (sp_publicKey s)
                 | None, [] => Throw "Transaction fee payer required"
                 end) (fun payer =>
          let metas := sort_metas (uniqueMetas (accountMetas (instructions tx))) in
          rbind (known_signers (signatures tx) (fee_payer_first payer metas)) (fun metas' =>
          Ok (build_message metas' bh (instructions tx))))
      end
  end.

Fixpoint same_keys (sigs : list SignaturePubkeyPair) (signedKeys : list PublicKey) : bool :=
  match sigs, signedKeys with
  | [], [] => true
  | s :: sigs', k :: keys' => PublicKey_equals k (sp_publicKey s) && same_keys sigs' keys'
  | _, _ => false
  end.

(** [_compile]: the signature slots are kept when they already are the
    message's signers in order, and replaced by empty slots otherwise. *)
Definition compile (tx : Transaction) : Result (Message * Transaction) :=
  rbind (compileMessage tx) (fun message =>
  let signedKeys := firstn (numRequiredSignatures message) (accountKeys message) in
  if same_keys (signatures tx) signedKeys then Ok (message, tx)
  else Ok (message,
           mkTransaction (map (fun k => mkSigPair None k) signedKeys)
                         (feePayer tx) (instructions tx) (recentBlockhash tx) (cached tx))).

Fixpoint addSignature (pk : PublicKey) (sig : SigBytes) (sigs : list SignaturePubkeyPair)
  : option (list SignaturePubkeyPair) :=
  match sigs with
  | [] => None
  | s :: rest =>
      if PublicKey_equals pk (sp_publicKey s)
      then Some (mkSigPair (Some sig) (sp_publicKey s) :: rest)
      else option_map (cons s) (addSignature pk sig rest)
  end.

Definition partialSign (tx : Transaction) (signer : Keypair) : Result Transaction :=
  rbind (compile tx) (fun '(message, tx') =>
  match addSignature (publicKey signer) (nacl_sign lib message (secretKey signer))
                     (signatures tx') with
  | Some sigs =>
      Ok (mkTransaction sigs (feePayer tx') (instructions tx') (recentBlockhash tx') (cached tx'))
  | None => Throw ("unknown signer: " ++ publicKey signer)
  end).

Definition signature_ok (requireAllSignatures : bool) (message : Message)
           (s : SignaturePubkeyPair) : bool :=
  match sp_signature s with
  | None => negb requireAllSignatures
  | Some sig => nacl_verify lib sig message (sp_publicKey s)
  end.

(** [serialize({requireAllSignatures})] with signature verification on;
    the error is given by the first line of its message. *)
Definition serialize (requireAllSignatures : bool) (tx : Transaction) : Result WireTransaction :=
  rbind (compile tx) (fun '(message, tx') =>
  if forallb (signature_ok requireAllSignatures message) (signatures tx')
  then Ok (mkWire (map sp_signature (signatures tx')) message)
  else Throw "Signature verification failed.").

(** The amount of a transfer is written as a u64, through [toBufferLE]
    of bigint-buffer in its JavaScript form: the hexadecimal digits of the
    value, padded to sixteen and cut after the sixteenth, become the eight
    bytes.  A value below [2^64] is written as it is; of a larger one only
    the leading sixteen digits are kept; the sign of a negative one is no
    hexadecimal digit, the bytes come out short and the layout refuses
    them.  The result is the amount the eight bytes hold. *)
Definition u64_encode (amount : Z) : Result Z :=
  if amount <? 0 then
    Throw "Blob.encode[amount] requires (length 8) Uint8Array as src"
  else if amount <? 2 ^ 64 then Ok amount
  else Ok (Z.shiftr amount (4 * (Z.log2 amount / 4 + 1 - 16))).

(** The transfer instruction for an amount as its data bytes hold it:
    with no multi-signers the owner is the one signer. *)
Definition transfer_instruction (source destination owner : PublicKey) (encoded : Z)
           (program : PublicKey) : TransactionInstruction :=
  mkInstruction [mkMeta source false true; mkMeta destination false true;
                 mkMeta owner true false]
                program (TokenTransfer encoded).

(** [createTransferInstruction(source, destination, owner, amount, [], programId)] *)
Definition createTransferInstruction (source destination owner : PublicKey) (amount : Z)
           (program : PublicKey) : Result TransactionInstruction :=
  rbind (u64_encode amount) (fun encoded =>
  Ok (transfer_instruction source destination owner encoded program)).

Example u64_encode_beyond_range :
  u64_encode (2 ^ 64 - 1) = Ok (2 ^ 64 - 1)
  /\ u64_encode (2 ^ 64) = Ok (2 ^ 60)
  /\ u64_encode (-1) = Throw "Blob.encode[amount] requires (length 8) Uint8Array as src".
Proof. repeat split. Qed.

Definition new_Transaction : Transaction := mkTransaction [] None [] None None.

Definition Transaction_add (tx : Transaction) (ix : TransactionInstruction) : Transaction :=
  mkTransaction (signatures tx) (feePayer tx) (instructions tx ++ [ix])%list
                (recentBlockhash tx) (cached tx).
End Web3.

(** ** Conversions the handlers trigger implicitly *)

(** The decimal digits of an integer: [BigInt.prototype.toString]. *)
Definition Z_to_string (n : Z) : string := NilEmpty.string_of_int (Z.to_int n).

(** *** Numbers

    The double nearest to an integer, ties to the even mantissa: what
    parsing the digits of [n] gives.  [None] is an integer beyond the range
    of doubles, which parses to [Infinity]. *)
Definition to_double (n : Z) : option Z :=
  let a := Z.abs n in
  if a <? 2 ^ 53 then Some n
  else
    let e := Z.log2 a - 52 in
    let q := Z.shiftr a e in
    let r := a mod 2 ^ e in
    let half := 2 ^ (e - 1) in
    let q' := if (half <? r) || ((r =? half) && Z.odd q) then q + 1 else q in
    let v := q' * 2 ^ e in
    if v <? 2 ^ 1024 then Some (Z.sgn n * v) else None.

Definition is_double (x v : Z) : bool :=
  match to_double x with
  | Some y => y =? v
  | None => false
  end.

(** Number::toString, the choice of digits: the integer with the fewest
    significant digits whose double is [v], the one closest to [v] when
    two have as few.  [k] counts the digits tried, [nd] is the number of
    digits of [v]. *)
Fixpoint shortest (fuel : nat) (k nd v : Z) : Z :=
  match fuel with
  | O => v
  | S fuel' =>
      let p := nd - k in
      if p <=? 0 then v
      else
        let s := v / 10 ^ p in
        let x1 := s * 10 ^ p in
        let x2 := x1 + 10 ^ p in
        match is_double x1 v, is_double x2 v with
        | true, true =>
            if v - x1 <? x2 - v then x1
            else if x2 - v <? v - x1 then x2
            else if Z.even s then x1 else x2
        | true, false => x1
        | false, true => x2
        | false, false => shortest fuel' (k + 1) nd v
        end
  end.

(** The digits of [s] without its trailing zeros. *)
Fixpoint strip_zeros (s : string) : string :=
  match s with
  | EmptyString => EmptyString
  | String c rest =>
      match strip_zeros rest with
      | EmptyString => if Ascii.eqb c "0" then EmptyString else String c EmptyString
      | r => String c r
      end
  end.

(** The exponent form of Number::toString, used from [1e21] on:
    [d.ddd] followed by [e+] and the decimal exponent. *)
Definition exponent_form (x : Z) : string :=
  let digits := Z_to_string x in
  let exponent := nat_to_string (String.length digits - 1) in
  match strip_zeros digits with
  | String d EmptyString => String d ("e+" ++ exponent)
  | String d rest => String d ("." ++ rest ++ "e+" ++ exponent)
  | EmptyString => "0"
  end.

(** Number::toString of a non-negative integer-valued double. *)
Definition double_to_string (v : Z) : string :=
  let x := if v <? 2 ^ 53 then v
           else shortest 17 1 (Z.of_nat (String.length (Z_to_string v))) v in
  if x <? 10 ^ 21 then Z_to_string x else exponent_form x.

(** ToString of the number [JNum n]. *)
Definition Number_toString (n : Z) : string :=
  match to_double n with
  | Some v => if v <? 0 then "-" ++ double_to_string (- v) else double_to_string v
  | None => if n <? 0 then "-Infinity" else "Infinity"
  end.

Example numbers_print_as_doubles :
  Number_toString 10000 = "10000"
  /\ Number_toString (2 ^ 53 + 1) = "9007199254740992"
  /\ Number_toString (2 ^ 64) = "18446744073709552000"
  /\ Number_toString (10 ^ 21) = "1e+21"
  /\ Number_toString (2 ^ 70) = "1.1805916207174113e+21"
  /\ Number_toString (- 123456789012345678901234567890) = "-1.2345678901234568e+29"
  /\ to_double (2 ^ 64 - 1) = Some (2 ^ 64).
Proof. repeat split; vm_compute; reflexivity. Qed.

(** ToString, as used for a computed property key and in template
    literals.  A parsed JSON object has no callable own members, so an own
    [toString] property makes the conversion fail. *)
Fixpoint ToString (v : JValue) : Result string :=
  match v with
  | JUndefined => Ok "undefined"
  | JNull => Ok "null"
  | JBool true => Ok "true"
  | JBool false => Ok "false"
  | JNum n => Ok (Number_toString n)
  | JFrac text => Ok text
  | JStr s => Ok s
  | JArr items =>
      (fix join (l : list JValue) : Result string :=
         match l with
         | [] => Ok EmptyString
         | x :: rest =>
             rbind (match x with
                    | JUndefined | JNull => Ok EmptyString
                    | _ => ToString x
                    end) (fun s =>
             match rest with
             | [] => Ok s
             | _ => rbind (join rest) (fun r => Ok (s ++ "," ++ r))
             end)
         end) items
  | JObj props =>
      match assoc "toString" props with
      | Some _ => Throw "Cannot convert object to primitive value"
      | None => Ok "[object Object]"
      end
  end.

Definition not_an_integer (text : string) : Error :=
  "The number " ++ text ++ " cannot be converted to a BigInt because it is not an integer".

(** [BigInt(v)]: a number converts when it is an integer, and then to
    the exact value of the double. *)
Definition BigInt (lib : Lib) (v : JValue) : Result Z :=
  match v with
  | JUndefined => Throw "Cannot convert undefined to a BigInt"
  | JNull => Throw "Cannot convert null to a BigInt"
  | JBool b => Ok (if b then 1 else 0)
  | JNum n =>
      match to_double n with
      | Some value => Ok value
      | None => Throw (not_an_integer (Number_toString n))
      end
  | JFrac text => Throw (not_an_integer text)
  | _ =>
      rbind (ToString v) (fun s =>
      match StringToBigInt lib s with
      | Some n => Ok n
      | None => Throw ("Cannot convert " ++ s ++ " to a BigInt")
      end)
  end.

(** [s.startsWith(prefix)] on a value: only a string has the method. *)
Definition startsWith (v : JValue) (p : string) : Result bool :=
  match v with
  | JStr s => Ok (String.prefix p s)
  | JUndefined | JNull =>
      Throw ("Cannot read properties of " ++ type_name v ++ " (reading 'startsWith')")
  | _ => Throw "network.startsWith is not a function"
  end.

(** ** The ledger behind a [Connection] *)

Inductive Network : Type := solana_devnet | solana_mainnet | solana_testnet.

(** What [connections[key]] can be: one of the three connections, or a
    member the object literal inherits from [Object.prototype]. *)
Inductive Connection : Type :=
| Conn (n : Network)
| Inherited (name : string).

Definition Object_prototype_names : list string :=
  ["constructor"; "__defineGetter__"; "__defineSetter__"; "hasOwnProperty";
   "__lookupGetter__"; "__lookupSetter__"; "isPrototypeOf"; "propertyIsEnumerable";
   "toString"; "valueOf"; "__proto__"; "toLocaleString"].

Definition connections (key : string) : option Connection :=
  if String.eqb key "solana-devnet" then Some (Conn solana_devnet)
  else if String.eqb key "solana-mainnet" then Some (Conn solana_mainnet)
  else if String.eqb key "solana-testnet" then Some (Conn solana_testnet)
  else if existsb (String.eqb key) Object_prototype_names then Some (Inherited key)
  else None.

Inductive ConfirmationStatus : Type := processed | confirmed | finalized.

Definition status_name (s : ConfirmationStatus) : string :=
  match s with
  | processed => "processed"
  | confirmed => "confirmed"
  | finalized => "finalized"
  end.

(** [confirmationStatus === 'confirmed' || confirmationStatus === 'finalized'] *)
Definition is_terminal (s : ConfirmationStatus) : bool :=
  match s with
  | processed => false
  | confirmed | finalized => true
  end.

(** [status.value] of [getSignatureStatus]. *)
Record SignatureStatus : Type := mkStatus {
  ss_confirmationStatus : option ConfirmationStatus;
  ss_err : JValue
}.

(** [status.value.confirmationStatus || 'processed'] *)
Definition reported (value : SignatureStatus) : ConfirmationStatus :=
  match ss_confirmationStatus value with
  | Some s => s
  | None => processed
  end.

Record TransactionMeta : Type := mkTxMeta {
  meta_err : JValue;
  meta_fee : Z
}.

(** What [getTransaction] resolves to when the signature is known. *)
Record TransactionResponse : Type := mkTxResponse {
  tr_slot : Z;
  tr_blockTime : option Z;
  tr_meta : option TransactionMeta
}.

Record SendOptions : Type := mkSendOptions {
  so_skipPreflight : bool;
  so_maxRetries : Z
}.

(** The RPC node and the clock, as state transformers of an abstract world.
    Every call may fail (a rejected promise) and may change the world. *)
Record Ledger (World : Type) : Type := mkLedger {
  Date_now : World -> Z;
  setTimeout : Z -> World -> World;
  rpc_getLatestBlockhash : Network -> World -> Result Blockhash * World;
  (** resolves to [simulation.value.err] *)
  rpc_simulateTransaction : Network -> Transaction -> World -> Result JValue * World;
  rpc_getTransaction : Network -> JValue -> World -> Result (option TransactionResponse) * World;
  rpc_sendRawTransaction :
    Network -> WireTransaction -> SendOptions -> World -> Result Signature * World;
  (** resolves to [status.value] *)
  rpc_getSignatureStatus :
    Network -> Signature -> World -> Result (option SignatureStatus) * World
}.
Arguments Date_now {World} _ _.
Arguments setTimeout {World} _ _ _.
Arguments rpc_getLatestBlockhash {World} _ _ _.
Arguments rpc_simulateTransaction {World} _ _ _ _.
Arguments rpc_getTransaction {World} _ _ _ _.
Arguments rpc_sendRawTransaction {World} _ _ _ _ _.
Arguments rpc_getSignatureStatus {World} _ _ _ _.

(** What a handler did to the outside, newest first. *)
Inductive Event : Type :=
| EvNow (t : Z)
| EvSleep (ms : Z)
| EvLatestBlockhash (n : Network) (answer : Result Blockhash)
| EvSimulate (n : Network) (tx : Transaction) (answer : Result JValue)
| EvGetTransaction (n : Network) (sig : JValue) (answer : Result (option TransactionResponse))
| EvBroadcast (n : Network) (raw : WireTransaction) (opts : SendOptions)
              (answer : Result Signature)
| EvSignatureStatus (n : Network) (sig : Signature)
                    (answer : Result (option SignatureStatus)).

Definition is_broadcast (e : Event) : bool :=
  match e with
  | EvBroadcast _ _ _ _ => true
  | _ => false
  end.

(** ** The monad of the handlers *)

Record St (World : Type) : Type := mkSt {
  world : World;
  trace : list Event
}.
Arguments mkSt {World} _ _.
Arguments world {World} _.
Arguments trace {World} _.

(** A computation returns, throws, or is cut off when the fuel given to a
    loop runs out. *)
Inductive Outcome (A : Type) : Type :=
| Returns (a : A)
| Throws (e : Error)
| OutOfFuel.
Arguments Returns {A} a.
Arguments Throws {A} e.
Arguments OutOfFuel {A}.

Definition M (World A : Type) : Type := St World -> Outcome A * St World.

Definition ret {World A} (a : A) : M World A := fun st => (Returns a, st).

Definition throw {World A} (e : Error) : M World A := fun st => (Throws e, st).

Definition out_of_fuel {World A} : M World A := fun st => (OutOfFuel, st).

Definition bind {World A B} (m : M World A) (k : A -> M World B) : M World B :=
  fun st =>
    match m st with
    | (Returns a, st') => k a st'
    | (Throws e, st') => (Throws e, st')
    | (OutOfFuel, st') => (OutOfFuel, st')
    end.

Definition lift {World A} (r : Result A) : M World A :=
  match r with
  | Ok a => ret a
  | Throw e => throw e
  end.

(** [try { m } catch (e) { handler e }] *)
Definition try_catch {World A} (m : M World A) (handler : Error -> M World A) : M World A :=
  fun st =>
    match m st with
    | (Throws e, st') => handler e st'
    | other => other
    end.

(** Run [m] and hand back how it ended, for a [try] whose [catch] needs the
    variables assigned before the throw. *)
Definition attempt {World A} (m : M World A) : M World (Result A) :=
  fun st =>
    match m st with
    | (Returns a, st') => (Returns (Ok a), st')
    | (Throws e, st') => (Returns (Throw e), st')
    | (OutOfFuel, st') => (OutOfFuel, st')
    end.

Declare Scope js_scope.
Delimit Scope js_scope with js.
Notation "x <- m ;; k" := (bind m (fun x => k))
  (at level 61, m at next level, right associativity) : js_scope.
Local Open Scope js_scope.

(** An awaited call on the ledger: the answer is logged. *)
Definition await {World A} (op : World -> Result A * World) (log : Result A -> Event)
  : M World A :=
  fun st =>
    let (answer, w) := op (world st) in
    lift answer (mkSt w (log answer :: trace st)).

(** ** The facilitator *)

Record Response : Type := mkResponse {
  status : Z;
  body : JValue
}.

(** The record [settleSolanaTransaction] returns, and the [result] of the
    settle handler. *)
Record Receipt : Type := mkReceipt {
  r_signature : JValue;
  r_confirmed : bool;
  r_confirmationStatus : ConfirmationStatus;
  r_slot : JValue;
  r_blockTime : JValue;
  r_fees : JValue
}.

Record SettleOptions : Type := mkSettleOptions {
  skipPreflight : bool;
  maxRetries : Z;
  timeout : Z
}.

(** The local variables of the confirmation loop. *)
Record PollVars : Type := mkPollVars {
  pv_confirmed : bool;
  pv_confirmationStatus : ConfirmationStatus;
  pv_slot : JValue;
  pv_blockTime : JValue;
  pv_fees : JValue
}.

(** The body of the confirmation loop assigns these variables inside a
    [try]: a computation of the body takes their values and gives them
    back, also when it throws. *)
Definition Body (World A : Type) : Type := PollVars -> M World (Result A * PollVars).

Definition body_ret {World A} (a : A) : Body World A := fun v => ret (Ok a, v).

Definition body_throw {World A} (e : Error) : Body World A := fun v => ret (Throw e, v).

Definition body_bind {World A B} (b : Body World A) (k : A -> Body World B)
  : Body World B :=
  fun v =>
    r <- b v ;;
    match fst r with
    | Ok a => k a (snd r)
    | Throw e => ret (Throw e, snd r)
    end.

Definition body_try_catch {World A} (b : Body World A) (handler : Error -> Body World A)
  : Body World A :=
  fun v =>
    r <- b v ;;
    match fst r with
    | Ok a => ret (Ok a, snd r)
    | Throw e => handler e (snd r)
    end.

(** An awaited call made from the body. *)
Definition awaited {World A} (m : M World A) : Body World A :=
  fun v => r <- attempt m ;; ret (r, v).

Definition assign {World} (f : PollVars -> PollVars) : Body World unit :=
  fun v => ret (Ok tt, f v).

Definition read {World A} (f : PollVars -> A) : Body World A :=
  fun v => ret (Ok (f v), v).

Notation "x <~ b ;; k" := (body_bind b (fun x => k))
  (at level 61, b at next level, right associativity) : js_scope.

Definition set_confirmationStatus (s : ConfirmationStatus) (v : PollVars) : PollVars :=
  mkPollVars (pv_confirmed v) s (pv_slot v) (pv_blockTime v) (pv_fees v).

Definition set_confirmed (b : bool) (v : PollVars) : PollVars :=
  mkPollVars b (pv_confirmationStatus v) (pv_slot v) (pv_blockTime v) (pv_fees v).

Definition set_details (slot blockTime fees : JValue) (v : PollVars) : PollVars :=
  mkPollVars (pv_confirmed v) (pv_confirmationStatus v) slot blockTime fees.

Definition js_number (o : option Z) : JValue :=
  match o with
  | Some n => JNum n
  | None => JNull
  end.

(** [txInfo?.slot], [txInfo?.blockTime], [txInfo?.meta?.fee] and
    [existingTx.meta?.err]. *)
Definition slot_of (t : option TransactionResponse) : JValue :=
  match t with
  | Some r => JNum (tr_slot r)
  | None => JUndefined
  end.

Definition blockTime_of (t : option TransactionResponse) : JValue :=
  match t with
  | Some r => js_number (tr_blockTime r)
  | None => JUndefined
  end.

Definition fee_of (t : option TransactionResponse) : JValue :=
  match t with
  | Some r => match tr_meta r with Some m => JNum (meta_fee m) | None => JUndefined end
  | None => JUndefined
  end.

Definition err_of (r : TransactionResponse) : JValue :=
  match tr_meta r with
  | Some m => meta_err m
  | None => JUndefined
  end.

Section Facilitator.
Context {World : Type}.
Variable lib : Lib.
Variable L : Ledger World.
Variable facilitatorKeypair : Keypair.

Local Abbreviation M := (M World).

(** *** Calls on a connection *)

Definition not_a_function {A} (method : string) : M A :=
  throw ("connection." ++ method ++ " is not a function").

Definition Date_now_ : M Z :=
  fun st => (Returns (Date_now L (world st)),
             mkSt (world st) (EvNow (Date_now L (world st)) :: trace st)).

(** [await new Promise(resolve => setTimeout(resolve, ms))] *)
Definition sleep (ms : Z) : M unit :=
  fun st => (Returns tt, mkSt (setTimeout L ms (world st)) (EvSleep ms :: trace st)).

Definition getLatestBlockhash (c : Connection) : M Blockhash :=
  match c with
  | Conn n => await (rpc_getLatestBlockhash L n) (EvLatestBlockhash n)
  | Inherited _ => not_a_function "getLatestBlockhash"
  end.

Definition simulateTransaction (c : Connection) (tx : Transaction) : M JValue :=
  match c with
  | Conn n => await (rpc_simulateTransaction L n tx) (EvSimulate n tx)
  | Inherited _ => not_a_function "simulateTransaction"
  end.

Definition getTransaction (c : Connection) (sig : JValue)
  : M (option TransactionResponse) :=
  match c with
  | Conn n => await (rpc_getTransaction L n sig) (EvGetTransaction n sig)
  | Inherited _ => not_a_function "getTransaction"
  end.

Definition sendRawTransaction (c : Connection) (raw : WireTransaction) (opts : SendOptions)
  : M Signature :=
  match c with
  | Conn n => await (rpc_sendRawTransaction L n raw opts) (EvBroadcast n raw opts)
  | Inherited _ => not_a_function "sendRawTransaction"
  end.

Definition getSignatureStatus (c : Connection) (sig : Signature)
  : M (option SignatureStatus) :=
  match c with
  | Conn n => await (rpc_getSignatureStatus L n sig) (EvSignatureStatus n sig)
  | Inherited _ => not_a_function "getSignatureStatus"
  end.

(** *** createFacilitatorPaidTransaction *)

Definition createFacilitatorPaidTransaction (connection : Connection)
           (userPublicKey paymentRequirements : JValue) : M Transaction :=
  blockhash <- getLatestBlockhash connection ;;
  mint <- lift (PublicKey_new lib (field paymentRequirements "asset")) ;;
  user <- lift (PublicKey_new lib userPublicKey) ;;
  userTokenAccount <- lift (getAssociatedTokenAddress lib mint user) ;;
  mint' <- lift (PublicKey_new lib (field paymentRequirements "asset")) ;;
  payTo <- lift (PublicKey_new lib (field paymentRequirements "payTo")) ;;
  recipientTokenAccount <- lift (getAssociatedTokenAddress lib mint' payTo) ;;
  owner <- lift (PublicKey_new lib userPublicKey) ;;
  amount <- lift (BigInt lib (field paymentRequirements "maxAmountRequired")) ;;
  transferInstruction <-
    lift (createTransferInstruction userTokenAccount recipientTokenAccount owner amount
                                    TOKEN_PROGRAM_ID) ;;
  let transaction := Transaction_add new_Transaction transferInstruction in
  let transaction :=
    mkTransaction (signatures transaction) (Some (publicKey facilitatorKeypair))
                  (instructions transaction) (Some blockhash) (cached transaction) in
  userPubKey <- lift (PublicKey_new lib userPublicKey) ;;
  let transaction :=
    if existsb (fun sig => PublicKey_equals (sp_publicKey sig) userPubKey)
               (signatures transaction)
    then transaction
    else mkTransaction (signatures transaction ++ [mkSigPair None userPubKey])%list
                       (feePayer transaction) (instructions transaction)
                       (recentBlockhash transaction) (cached transaction) in
  lift (partialSign lib transaction facilitatorKeypair).

Definition build_error (message : string) : Response :=
  mkResponse 400 (JObj [("success", JBool false); ("error", JStr message)]).

(** [app.post('/create-sponsored-transaction')] *)
Definition create_sponsored_transaction (req_body : JValue) : M Response :=
  userPublicKey <- lift (destructure req_body "userPublicKey") ;;
  paymentRequirements <- lift (destructure req_body "paymentRequirements") ;;
  try_catch
    (if negb (truthy userPublicKey) then ret (build_error "Missing userPublicKey")
     else if negb (truthy paymentRequirements) then
       ret (build_error "Missing paymentRequirements")
     else
       let network := field paymentRequirements "network" in
       key <- lift (ToString network) ;;
       match connections key with
       | None => ret (build_error ("Unsupported network: " ++ key))
       | Some connection =>
           transaction <-
             createFacilitatorPaidTransaction connection userPublicKey paymentRequirements ;;
           wire <- lift (serialize lib false transaction) ;;
           ret (mkResponse 200
                  (JObj [("success", JBool true);
                         ("transaction", JStr (base64_of_wire lib wire));
                         ("facilitatorPublicKey", JStr (publicKey facilitatorKeypair));
                         ("message", JStr "Transaction created with facilitator as fee payer. User needs to sign for token transfer authority.");
                         ("blockhash", match recentBlockhash transaction with
                                       | Some b => JStr b
                                       | None => JUndefined
                                       end);
                         ("feePaidBy", JStr "facilitator")]))
       end)
    (fun error =>
       ret (build_error ("Failed to create sponsored transaction: " ++ error))).

(** *** The verify handler *)

Definition reject (reason : string) : Response :=
  mkResponse 400 (JObj [("isValid", JBool false); ("invalidReason", JStr reason)]).

(** [transactionData.payer || paymentPayload.payload?.authorization?.from || 'unknown'],
    or the facilitator for a sponsored payload. *)
Definition payer_of (d : TransactionData) (paymentPayload : JValue) : JValue :=
  if Format_eqb (td_format d) facilitator_sponsored
  then JStr (publicKey facilitatorKeypair)
  else js_or (js_or (td_payer d)
                    (opt_field (opt_field (field paymentPayload "payload") "authorization")
                               "from"))
             (JStr "unknown").

Definition accept (d : TransactionData) (paymentPayload : JValue) : Response :=
  mkResponse 200
    (JObj [("isValid", JBool true);
           ("invalidReason", JNull);
           ("payer", payer_of d paymentPayload);
           ("gasSponsoredByFacilitator",
            JBool (Format_eqb (td_format d) facilitator_sponsored))]).

Definition feePayer_for (method : string) (tx : Transaction) : Result PublicKey :=
  match feePayer tx with
  | Some k => Ok k
  | None => Throw ("Cannot read properties of undefined (reading '" ++ method ++ "')")
  end.

(** The per-format checks of [/verify]; [Some r] is an early
    [return res.status(400).json(...)], [None] falls through to the
    accepting response. *)
Definition verify_checks (connection : Connection) (d : TransactionData)
  : M (option Response) :=
  match td_format d with
  | facilitator_sponsored =>
      tx <- lift (Transaction_from lib (td_facilitatorTransaction d)) ;;
      payer <- lift (feePayer_for "equals" tx) ;;
      if negb (PublicKey_equals payer (publicKey facilitatorKeypair)) then
        ret (Some (reject "Transaction fee payer is not the facilitator"))
      else
        err <- simulateTransaction connection tx ;;
        if truthy err then
          ret (Some (reject ("Transaction simulation failed: " ++ JSON_stringify lib err)))
        else ret None
  | authorization_only =>
      try_catch
        (existingTx <- getTransaction connection (td_signature d) ;;
         match existingTx with
         | None =>
             ret (Some (reject "Transaction not found on blockchain - payment may not have been submitted yet"))
         | Some t =>
             if truthy (err_of t) then
               ret (Some (reject ("Transaction failed on blockchain: "
                                    ++ JSON_stringify lib (err_of t))))
             else ret None
         end)
        (fun _ => ret (Some (reject "Unable to verify transaction on blockchain")))
  | _ =>
      if negb (truthy (td_transaction d)) then
        ret (Some (reject "Missing transaction data for full verification"))
      else
        tx <- lift (Transaction_from lib (td_transaction d)) ;;
        err <- simulateTransaction connection tx ;;
        if truthy err then
          ret (Some (reject ("Transaction simulation failed: " ++ JSON_stringify lib err)))
        else
          try_catch
            (existingTx <- getTransaction connection (td_signature d) ;;
             match existingTx with
             | Some _ => ret (Some (reject "Transaction already executed on blockchain"))
             | None => ret None
             end)
            (fun _ => ret None)
  end.

(** [app.post('/verify')] *)
Definition verify (req_body : JValue) : M Response :=
  paymentPayload <- lift (destructure req_body "paymentPayload") ;;
  paymentRequirements <- lift (destructure req_body "paymentRequirements") ;;
  try_catch
    (if negb (truthy paymentPayload) || negb (truthy paymentRequirements) then
       ret (reject "Missing paymentPayload or paymentRequirements")
     else
       let network := field paymentPayload "network" in
       unsupported <-
         (if negb (truthy network) then ret true
          else (solana <- lift (startsWith network "solana-") ;; ret (negb solana))) ;;
       if (unsupported : bool) then
         ret (reject "Unsupported network - only Solana networks supported")
       else
         key <- lift (ToString network) ;;
         match connections key with
         | None => ret (reject ("Unsupported network: " ++ key))
         | Some connection =>
             match extractTransactionData paymentPayload with
             | Throw extractError =>
                 ret (reject ("Invalid payload format: " ++ extractError))
             | Ok transactionData =>
                 try_catch
                   (early <- verify_checks connection transactionData ;;
                    match early with
                    | Some response => ret response
                    | None => ret (accept transactionData paymentPayload)
                    end)
                   (fun validationError =>
                      ret (reject ("Transaction validation failed: " ++ validationError)))
             end
         end)
    (fun error => ret (reject ("Verification failed: " ++ error))).

(** *** settleSolanaTransaction *)

Definition initial_vars : PollVars := mkPollVars false processed JNull JNull JNull.

(** One turn of the [while] body: the [try] block with its [catch], which
    only logs.  The result says whether the loop was left through [break];
    the two-second wait is skipped when the block throws. *)
Definition poll_turn (connection : Connection) (signature : Signature) : Body World bool :=
  body_try_catch
    (status <~ awaited (getSignatureStatus connection signature) ;;
     left <~ match status with
             | Some value =>
                 _ <~ assign (set_confirmationStatus (reported value)) ;;
                 _ <~ (if truthy (ss_err value) then
                         body_throw ("Transaction failed: " ++ JSON_stringify lib (ss_err value))
                       else body_ret tt) ;;
                 confirmationStatus <~ read pv_confirmationStatus ;;
                 if is_terminal confirmationStatus then
                   _ <~ assign (set_confirmed true) ;;
                   _ <~ body_try_catch
                          (txInfo <~ awaited (getTransaction connection (JStr signature)) ;;
                           assign (set_details (slot_of txInfo) (blockTime_of txInfo)
                                               (fee_of txInfo)))
                          (fun detailError => body_ret tt) ;;
                   body_ret true
                 else body_ret false
             | None => body_ret false
             end ;;
     if (left : bool) then body_ret true
     else (_ <~ awaited (sleep 2000) ;; body_ret false))
    (fun statusError => body_ret false).

(** [while (Date.now() - startTime < timeout && !confirmed) { ... }] *)
Fixpoint poll (fuel : nat) (connection : Connection) (signature : Signature)
         (startTime timeout : Z) (v : PollVars) : M PollVars :=
  match fuel with
  | O => out_of_fuel
  | S fuel' =>
      now <- Date_now_ ;;
      if (now - startTime <? timeout) && negb (pv_confirmed v) then
        turn <- poll_turn connection signature v ;;
        match fst turn with
        | Ok true => ret (snd turn)
        | Ok false => poll fuel' connection signature startTime timeout (snd turn)
        | Throw e => throw e
        end
      else ret v
  end.

Definition settleSolanaTransaction (fuel : nat) (connection : Connection)
           (transactionBase64 : JValue) (options : SettleOptions) : M Receipt :=
  transaction <- lift (Transaction_from lib transactionBase64) ;;
  _ <- lift (feePayer_for "toBase58" transaction) ;;
  raw <- lift (serialize lib true transaction) ;;
  signature <- sendRawTransaction connection raw
                 (mkSendOptions (skipPreflight options) (maxRetries options)) ;;
  startTime <- Date_now_ ;;
  v <- poll fuel connection signature startTime (timeout options) initial_vars ;;
  ret (mkReceipt (JStr signature) (pv_confirmed v) (pv_confirmationStatus v)
                 (pv_slot v) (pv_blockTime v) (pv_fees v)).

(** *** The settle handler *)

Definition settle_options : SettleOptions := mkSettleOptions false 3 30000.

Definition settle_result (fuel : nat) (connection : Connection) (d : TransactionData)
  : M Receipt :=
  match td_format d with
  | facilitator_sponsored =>
      result <- settleSolanaTransaction fuel connection (td_facilitatorTransaction d)
                  settle_options ;;
      if negb (r_confirmed result) then
        throw ("Facilitator-sponsored transaction not confirmed within timeout. Status: "
                 ++ status_name (r_confirmationStatus result))
      else ret result
  | authorization_only =>
      try_catch
        (existingTx <- getTransaction connection (td_signature d) ;;
         match existingTx with
         | None => throw "Transaction not found on blockchain"
         | Some t =>
             if truthy (err_of t) then
               throw ("Transaction failed: " ++ JSON_stringify lib (err_of t))
             else
               ret (mkReceipt (td_signature d) true confirmed
                              (slot_of existingTx) (blockTime_of existingTx)
                              (fee_of existingTx))
         end)
        (fun error => throw ("Failed to verify existing transaction: " ++ error))
  | _ =>
      if negb (truthy (td_transaction d)) then
        throw "Missing transaction data for settlement"
      else
        result <- settleSolanaTransaction fuel connection (td_transaction d)
                    settle_options ;;
        if negb (r_confirmed result) then
          throw ("Transaction not confirmed within timeout. Status: "
                   ++ status_name (r_confirmationStatus result))
        else ret result
  end.

Definition settled (network : JValue) (d : TransactionData) (paymentPayload : JValue)
           (result : Receipt) : Response :=
  mkResponse 200
    (JObj [("success", JBool true);
           ("errorReason", JNull);
           ("transaction", r_signature result);
           ("network", network);
           ("payer", payer_of d paymentPayload);
           ("confirmationStatus", JStr (status_name (r_confirmationStatus result)));
           ("slot", r_slot result);
           ("blockTime", r_blockTime result);
           ("fees", r_fees result);
           ("gasSponsoredByFacilitator",
            JBool (Format_eqb (td_format d) facilitator_sponsored));
           ("userPaidGas", JBool (negb (Format_eqb (td_format d) facilitator_sponsored)))]).

Definition settle_failed (message : string) (network : JValue) : Response :=
  mkResponse 400
    (JObj [("success", JBool false);
           ("errorReason", JStr ("Settlement failed: " ++ message));
           ("transaction", JNull);
           ("network", network);
           ("payer", JNull)]).

(** [app.post('/settle')] *)
Definition settle (fuel : nat) (req_body : JValue) : M Response :=
  paymentPayload <- lift (destructure req_body "paymentPayload") ;;
  paymentRequirements <- lift (destructure req_body "paymentRequirements") ;;
  try_catch
    (network <- lift (member paymentPayload "network") ;;
     key <- lift (ToString network) ;;
     match connections key with
     | None => throw "Invalid settlement request: unsupported network"
     | Some connection =>
         transactionData <-
           match extractTransactionData paymentPayload with
           | Throw extractError => throw ("Invalid payload format: " ++ extractError)
           | Ok d => ret d
           end ;;
         result <- settle_result fuel connection transactionData ;;
         ret (settled network transactionData paymentPayload result)
     end)
    (fun error =>
       network <- lift (member paymentPayload "network") ;;
       ret (settle_failed error network)).
End Facilitator.

(** ** A scripted ledger and library for concrete runs *)

Definition test_secret (pk : PublicKey) : SecretKey := "secret-of-" ++ pk.

Definition test_keypair (pk : PublicKey) : Keypair := mkKeypair pk (test_secret pk).

Definition test_decimal (s : string) : option Z :=
  option_map Z.of_int (NilEmpty.int_of_string s).

(** [txs] lists the base64 texts that decode, with what they decode to. *)
Definition test_lib (txs : list (string * Transaction)) : Lib :=
  {| JSON_stringify := fun v => match v with JStr s => s | _ => "{...}" end;
     PublicKey_new := fun v =>
       match v with
       | JStr (String c s) => Ok (String c s)
       | _ => Throw "Invalid public key input"
       end;
     Transaction_from := fun v =>
       match v with
       | JStr s => match assoc s txs with
                   | Some tx => Ok tx
                   | None => Throw "Reached end of buffer unexpectedly"
                   end
       | _ => Throw "The first argument must be of type string"
       end;
     getAssociatedTokenAddress := fun mint owner => Ok ("ata(" ++ mint ++ "," ++ owner ++ ")");
     StringToBigInt := test_decimal;
     base64_of_wire := fun w => String.concat "|" (accountKeys (wire_message w));
     nacl_sign := fun _ sk => "signed-with-" ++ sk;
     nacl_verify := fun sig _ pk => String.eqb sig ("signed-with-" ++ test_secret pk);
     pubkey_leb := String.leb |}.

Record TestWorld : Type := mkTestWorld {
  clock : Z;
  (** milliseconds every RPC takes *)
  latency : Z;
  simulation : Result JValue;
  lookup : Result (option TransactionResponse);
  submission : Result Signature;
  (** successive answers of getSignatureStatus; the last one repeats *)
  statuses : list (Result (option SignatureStatus))
}.

(** An RPC takes its latency, and at least a millisecond. *)
Definition tick (w : TestWorld) : TestWorld :=
  mkTestWorld (clock w + Z.max 1 (latency w)) (latency w) (simulation w) (lookup w)
              (submission w) (statuses w).

Definition test_ledger : Ledger TestWorld :=
  {| Date_now := clock;
     setTimeout := fun ms w =>
       mkTestWorld (clock w + Z.max 0 ms) (latency w) (simulation w) (lookup w)
                   (submission w) (statuses w);
     rpc_getLatestBlockhash := fun _ w => (Ok "blockhash-1", tick w);
     rpc_simulateTransaction := fun _ _ w => (simulation w, tick w);
     rpc_getTransaction := fun _ _ w => (lookup w, tick w);
     rpc_sendRawTransaction := fun _ _ _ w => (submission w, tick w);
     rpc_getSignatureStatus := fun _ _ w =>
       match statuses w with
       | [] => (Ok None, tick w)
       | [a] => (a, tick w)
       | a :: rest =>
           (a, mkTestWorld (clock w + Z.max 1 (latency w)) (latency w) (simulation w)
                           (lookup w) (submission w) rest)
       end |}.

Definition quiet_world : TestWorld :=
  mkTestWorld 1000 50 (Ok JNull) (Ok None) (Ok "5igNature") [].

(** The transaction is on the ledger, executed without error. *)
Definition landed : TransactionResponse :=
  mkTxResponse 4242 (Some 1700000000) (Some (mkTxMeta JNull 5000)).

Definition landed_world : TestWorld :=
  mkTestWorld 1000 50 (Ok JNull) (Ok (Some landed)) (Ok "5igNature") [].

(** The lookup itself fails. *)
Definition unreachable_world : TestWorld :=
  mkTestWorld 1000 50 (Ok JNull) (Throw "fetch failed") (Ok "5igNature") [].

(** The status is processed at first and finalized at the second poll. *)
Definition confirming_world : TestWorld :=
  mkTestWorld 1000 50 (Ok JNull) (Ok (Some landed)) (Ok "5igNature")
              [Ok (Some (mkStatus (Some processed) JNull));
               Ok (Some (mkStatus (Some finalized) JNull))].

(** The transaction reached confirmed, and failed on chain. *)
Definition failed_on_chain_world : TestWorld :=
  mkTestWorld 1000 5000 (Ok JNull) (Ok None) (Ok "5igNature")
              [Ok (Some (mkStatus (Some confirmed) (JStr "InstructionError")))].

Definition start_of (w : TestWorld) : St TestWorld := mkSt w [].

Definition FACILITATOR : PublicKey := "FaciLitator1111".

(** A transaction as it comes off the wire, fee payer first, fully signed
    by the test keys of [signers]. *)
Definition wire_tx (signers : list PublicKey) : Transaction :=
  let message := mkMessage (List.length signers) 0 1
                           (signers ++ [TOKEN_PROGRAM_ID])%list "blockhash-0" [] in
  mkTransaction (map (fun pk => mkSigPair (Some ("signed-with-" ++ test_secret pk)) pk) signers)
                (hd_error signers) [] (Some "blockhash-0") (Some message).

Definition test_txs : list (string * Transaction) :=
  [("c3BvbnNvcmVk", wire_tx [FACILITATOR; "User1"]);
   ("c2VsZnBhaWQ=", wire_tx ["User1"]);
   ("bm9zaWduZXI=", wire_tx [])].

Definition request (network : string) (payload : list (string * JValue)) : JValue :=
  JObj [("paymentPayload", JObj [("network", JStr network); ("payload", JObj payload)]);
        ("paymentRequirements", JObj [("network", JStr network)])].

(** * Properties *)

(** ** The normaliser *)

(** The test the source makes of a field: reading it gives a truthy
    value.  A field that is there and holds [null], [false], [0] or the
    empty string fails it. *)
Definition filled (payload : JValue) (k : string) : bool := truthy (field payload k).

(** The conditions of the four [if] statements of the normaliser. *)
Definition sponsored_shape (p : JValue) : bool :=
  filled p "userSignature" && filled p "facilitatorTransaction" && filled p "userPublicKey".

Definition minimal_shape (p : JValue) : bool :=
  filled p "signature" && filled p "transaction" && negb (filled p "payer").

Definition full_shape (p : JValue) : bool :=
  filled p "signature" && filled p "transaction" && filled p "payer".

Definition authorization_shape (p : JValue) : bool :=
  filled p "signature" && filled p "authorization" && negb (filled p "transaction").

Lemma member_truthy (v : JValue) (k : string) :
  truthy v = true -> member v k = Ok (field v k).
Proof. destruct v; simpl; intros H; try reflexivity; discriminate. Qed.

(** Field presence as the specification has it: the inner document has
    a property of that name, whatever its value. *)
Definition present (payload : JValue) (k : string) : bool :=
  match payload with
  | JObj props => existsb (String.eqb k) (map fst props)
  | _ => false
  end.

(** The classification in the words of the specification: by presence
    and absence of fields, in the order facilitator_sponsored, minimal,
    full, authorization_only, the first match winning; [None] is the format
    error. *)
Definition classify_by_presence (p : JValue) : option Format :=
  if present p "userSignature" && present p "facilitatorTransaction"
     && present p "userPublicKey" then Some facilitator_sponsored
  else if present p "signature" && present p "transaction"
          && negb (present p "payer") then Some minimal
  else if present p "signature" && present p "transaction"
          && present p "payer" then Some full
  else if present p "signature" && present p "authorization"
          && negb (present p "transaction") then Some authorization_only
  else None.

(** C1, as the code has it: a payment payload whose inner document is
    truthy gets exactly one of the four tags, chosen in the order
    facilitator_sponsored, minimal, full, authorization_only with the first
    match winning, where the test of a field is that its value is truthy,
    not that it is present; when no condition holds the normaliser throws
    the format error whose message lists [Object.keys] of the inner
    document, the names of all its properties, filled or not. *)
Theorem extract_classifies_by_priority (paymentPayload payload : JValue) :
  member paymentPayload "payload" = Ok payload ->
  truthy payload = true ->
  (exists d,
      extractTransactionData paymentPayload = Ok d
      /\ (td_format d = facilitator_sponsored <-> sponsored_shape payload = true)
      /\ (td_format d = minimal <->
          sponsored_shape payload = false /\ minimal_shape payload = true)
      /\ (td_format d = full <->
          sponsored_shape payload = false /\ minimal_shape payload = false
          /\ full_shape payload = true)
      /\ (td_format d = authorization_only <->
          sponsored_shape payload = false /\ minimal_shape payload = false
          /\ full_shape payload = false /\ authorization_shape payload = true))
  \/ (sponsored_shape payload = false /\ minimal_shape payload = false
      /\ full_shape payload = false /\ authorization_shape payload = false
      /\ extractTransactionData paymentPayload
         = Throw ("Unrecognized payload format. Available fields: "
                    ++ String.concat ", " (Object_keys payload)
                    ++ ". Expected: signature + transaction (+ optional payer, amount, etc.)")).
Proof.
  intros Hmember Htruthy.
  unfold extractTransactionData. rewrite Hmember. cbn [rbind]. rewrite Htruthy. cbn [negb].
  fold (filled payload "userSignature") (filled payload "facilitatorTransaction")
       (filled payload "userPublicKey") (filled payload "signature")
       (filled payload "transaction") (filled payload "payer")
       (filled payload "authorization").
  fold (sponsored_shape payload) (minimal_shape payload) (full_shape payload)
       (authorization_shape payload).
  destruct (sponsored_shape payload) eqn:Hs.
  { left. eexists. split; [reflexivity|]. cbn [td_format].
    repeat split; intros; try tauto; try discriminate;
      repeat match goal with H : _ /\ _ |- _ => destruct H end; discriminate. }
  destruct (minimal_shape payload) eqn:Hm.
  { left. eexists. split; [reflexivity|]. cbn [td_format].
    repeat split; intros; try tauto; try discriminate;
      repeat match goal with H : _ /\ _ |- _ => destruct H end; discriminate. }
  destruct (full_shape payload) eqn:Hf.
  { left. eexists. split; [reflexivity|]. cbn [td_format].
    repeat split; intros; try tauto; try discriminate;
      repeat match goal with H : _ /\ _ |- _ => destruct H end; discriminate. }
  destruct (authorization_shape payload) eqn:Ha.
  { left. eexists. split; [reflexivity|]. cbn [td_format].
    repeat split; intros; try tauto; try discriminate;
      repeat match goal with H : _ /\ _ |- _ => destruct H end; discriminate. }
  right. repeat split; reflexivity.
Qed.

(** The shapes that name [signature] exclude one another; only the
    sponsored shape can hold together with one of them, which is where the
    order decides. *)
Lemma later_shapes_exclusive (p : JValue) :
  (minimal_shape p && full_shape p = false)
  /\ (minimal_shape p && authorization_shape p = false)
  /\ (full_shape p && authorization_shape p = false).
Proof.
  unfold minimal_shape, full_shape, authorization_shape.
  destruct (filled p "signature"), (filled p "transaction"), (filled p "payer"),
    (filled p "authorization"); repeat split; reflexivity.
Qed.

Example sponsored_wins_over_minimal :
  let payload := JObj [("signature", JStr "S1"); ("transaction", JStr "dHg=");
                       ("userSignature", JStr "U5"); ("facilitatorTransaction", JStr "dHgy");
                       ("userPublicKey", JStr "User1")] in
  minimal_shape payload = true
  /\ option_map td_format
       (match extractTransactionData (JObj [("payload", payload)]) with
        | Ok d => Some d
        | Throw _ => None
        end) = Some facilitator_sponsored.
Proof. split; reflexivity. Qed.

(** C1 as stated fails: a payload with [signature], [transaction] and
    [payer] all present is tagged minimal, not full, when the payer is the
    empty string; and a payload with every field of the sponsored shape
    present gets the format error, which lists those very fields, when
    [userSignature] is [false]. *)
Lemma present_but_falsy_counterexample :
  let with_payer := JObj [("signature", JStr "S1"); ("transaction", JStr "dHg=");
                          ("payer", JStr EmptyString)] in
  let sponsored := JObj [("userSignature", JBool false);
                         ("facilitatorTransaction", JStr "dHgy");
                         ("userPublicKey", JStr "User1")] in
  (classify_by_presence with_payer = Some full
   /\ extractTransactionData (JObj [("payload", with_payer)])
      = Ok (MinimalData (JStr "S1") (JStr "dHg=")))
  /\ (classify_by_presence sponsored = Some facilitator_sponsored
      /\ extractTransactionData (JObj [("payload", sponsored)])
         = Throw "Unrecognized payload format. Available fields: userSignature, facilitatorTransaction, userPublicKey. Expected: signature + transaction (+ optional payer, amount, etc.)").
Proof. repeat split. Qed.

(** The two tests agree on a document none of whose properties holds a
    falsy value. *)
Lemma present_filled (props : list (string * JValue)) (k : string) :
  Forall (fun kv => truthy (snd kv) = true) props ->
  present (JObj props) k = filled (JObj props) k.
Proof.
  unfold present, filled, field.
  induction props as [| [k' v] rest IH]; intros Hall; [reflexivity |].
  inversion Hall as [| ? ? Hv Hrest]; subst. cbn [map fst existsb assoc snd] in *.
  destruct (String.eqb k k'); [cbn; symmetry; exact Hv |].
  cbn [orb]. apply IH. exact Hrest.
Qed.

(** On such a document the normaliser classifies as the specification
    says. *)
Lemma extract_classifies_filled_document (props : list (string * JValue)) :
  Forall (fun kv => truthy (snd kv) = true) props ->
  match extractTransactionData (JObj [("payload", JObj props)]) with
  | Ok d => classify_by_presence (JObj props) = Some (td_format d)
  | Throw _ => classify_by_presence (JObj props) = None
  end.
Proof.
  intros Hall. unfold classify_by_presence.
  rewrite !(present_filled props _ Hall).
  unfold extractTransactionData, filled. cbn [member rbind].
  change (field (JObj [("payload", JObj props)]) "payload") with (JObj props).
  cbn [truthy negb].
  destruct (truthy (field (JObj props) "userSignature")),
    (truthy (field (JObj props) "facilitatorTransaction")),
    (truthy (field (JObj props) "userPublicKey")),
    (truthy (field (JObj props) "signature")),
    (truthy (field (JObj props) "transaction")),
    (truthy (field (JObj props) "payer")),
    (truthy (field (JObj props) "authorization")); reflexivity.
Qed.

Lemma extract_classifies_by_priority_witness :
  let pp := JObj [("payload", JObj [("foo", JStr "bar")])] in
  extractTransactionData pp
  = Throw "Unrecognized payload format. Available fields: foo. Expected: signature + transaction (+ optional payer, amount, etc.)".
Proof.
  intros pp.
  destruct (extract_classifies_by_priority pp (JObj [("foo", JStr "bar")])
              eq_refl eq_refl) as [[d [Hd _]] | (_ & _ & _ & _ & H)].
  - discriminate Hd.
  - exact H.
Defined.

(** ** The verify handler *)

Definition network_key (n : Network) : string :=
  match n with
  | solana_devnet => "solana-devnet"
  | solana_mainnet => "solana-mainnet"
  | solana_testnet => "solana-testnet"
  end.

(** A verify request that passes the checks made before the payload is
    looked at: requirements present, a supported network, a payload the
    normaliser accepts. *)
Record verify_request (req_body : JValue) (n : Network) (d : TransactionData) : Prop := {
  vr_requirements : truthy (field req_body "paymentRequirements") = true;
  vr_network : field (field req_body "paymentPayload") "network" = JStr (network_key n);
  vr_payload : extractTransactionData (field req_body "paymentPayload") = Ok d
}.

Definition read_event (e : Event) : Prop :=
  match e with
  | EvSimulate _ _ _ | EvGetTransaction _ _ _ => True
  | _ => False
  end.

Lemma connections_network_key (n : Network) : connections (network_key n) = Some (Conn n).
Proof. destruct n; reflexivity. Qed.

Lemma extract_ok_object (pp : JValue) (d : TransactionData) :
  extractTransactionData pp = Ok d ->
  truthy pp = true /\ truthy (field pp "payload") = true.
Proof.
  unfold extractTransactionData. intros H.
  destruct pp; try discriminate H; cbn [member rbind] in H.
  all: destruct (truthy (field _ "payload")) eqn:Ht; try discriminate H.
  all: try (cbn in Ht; discriminate Ht).
  split; auto.
Qed.

Lemma destructure_field (req_body : JValue) (k k' : string) :
  truthy (field req_body k') = true ->
  destructure req_body k = Ok (field req_body k).
Proof. destruct req_body; cbn; intros H; try discriminate H; reflexivity. Qed.

(** ** Reading a trace

    The traces below are in order of occurrence (the reverse of how the
    state keeps them). *)

Definition StatusAnswer : Type := Result (option SignatureStatus).

(** The answers of the status polls, in order. *)
Fixpoint polls (chron : list Event) : list StatusAnswer :=
  match chron with
  | [] => []
  | EvSignatureStatus _ _ answer :: rest => answer :: polls rest
  | _ :: rest => polls rest
  end.

(** Every status poll is started right after a reading of the clock that
    is less than [timeout] past [startTime].  Nothing is said of when its
    answer arrives. *)
Fixpoint started_in_time (startTime timeout : Z) (chron : list Event) : bool :=
  match chron with
  | [] => true
  | EvNow t :: rest =>
      match rest with
      | EvSignatureStatus _ _ _ :: rest' =>
          (t - startTime <? timeout) && started_in_time startTime timeout rest'
      | _ => started_in_time startTime timeout rest
      end
  | EvSignatureStatus _ _ _ :: _ => false
  | _ :: rest => started_in_time startTime timeout rest
  end.

(** The status known after one more answer: an answer that carries a
    status replaces it, any other answer leaves it. *)
Definition observe (known : ConfirmationStatus) (answer : StatusAnswer) : ConfirmationStatus :=
  match answer with
  | Ok (Some value) => reported value
  | _ => known
  end.

(** An answer that shows the transaction confirmed or finalized. *)
Definition shows_terminal (answer : StatusAnswer) : bool :=
  match answer with
  | Ok (Some value) => is_terminal (reported value)
  | _ => false
  end.

(** An answer that shows it confirmed or finalized and without an
    execution error. *)
Definition confirms (answer : StatusAnswer) : bool :=
  match answer with
  | Ok (Some value) => negb (truthy (ss_err value)) && is_terminal (reported value)
  | _ => false
  end.

Fixpoint contains (needle s : string) : bool :=
  String.prefix needle s
  || match s with
     | EmptyString => false
     | String _ rest => contains needle rest
     end.

(** Whether a text occurs in any string of a value. *)
Fixpoint mentions (needle : string) (v : JValue) : bool :=
  match v with
  | JStr s => contains needle s
  | JArr items => existsb (mentions needle) items
  | JObj props => existsb (fun kv => mentions needle (snd kv)) props
  | _ => false
  end.

(** The transaction a payload asks to broadcast, and the message of the
    settle handler when its receipt is not confirmed. *)
Definition embedded_transaction (d : TransactionData) : JValue :=
  match td_format d with
  | facilitator_sponsored => td_facilitatorTransaction d
  | _ => td_transaction d
  end.

Definition not_confirmed_message (d : TransactionData) (s : ConfirmationStatus) : string :=
  match td_format d with
  | facilitator_sponsored =>
      "Facilitator-sponsored transaction not confirmed within timeout. Status: "
        ++ status_name s
  | _ => "Transaction not confirmed within timeout. Status: " ++ status_name s
  end.

(** The answers of the verify handler, read off the response: a
    rejection has status 400, [isValid: false] and the reason; an acceptance
    has status 200, [isValid: true] and no reason. *)
Definition rejects_with (r : Response) (reason : string) : Prop :=
  status r = 400
  /\ field (body r) "isValid" = JBool false
  /\ field (body r) "invalidReason" = JStr reason.

Definition accepts (r : Response) : Prop :=
  status r = 200
  /\ field (body r) "isValid" = JBool true
  /\ field (body r) "invalidReason" = JNull.

(** A failure answer of the settle handler, read off the response:
    status 400, [success: false], the reason after the handler's prefix and
    no transaction. *)
Definition settle_fails_with (r : Response) (reason : string) : Prop :=
  status r = 400
  /\ field (body r) "success" = JBool false
  /\ field (body r) "errorReason" = JStr ("Settlement failed: " ++ reason)
  /\ field (body r) "transaction" = JNull.

(** A settle request whose network resolves to a connection and whose
    payload the normaliser accepts. *)
Record settle_request (req_body : JValue) (n : Network) (d : TransactionData) : Prop := {
  sr_network :
    ToString (field (field req_body "paymentPayload") "network") = Ok (network_key n);
  sr_payload : extractTransactionData (field req_body "paymentPayload") = Ok d
}.

Section HandlerProperties.
Context {World : Type}.
Variable lib : Lib.
Variable L : Ledger World.
Variable facilitatorKeypair : Keypair.

Local Abbreviation verify_ := (verify lib L facilitatorKeypair).
Local Abbreviation verify_checks_ := (verify_checks lib L facilitatorKeypair).
Local Abbreviation accept_ := (accept facilitatorKeypair).

(** Past the gates, the handler is the per-format checks inside the
    inner [try]. *)
Lemma verify_after_gates (req_body : JValue) (n : Network) (d : TransactionData)
      (st : St World) :
  verify_request req_body n d ->
  verify_ req_body st =
  match verify_checks_ (Conn n) d st with
  | (Returns (Some response), st') => (Returns response, st')
  | (Returns None, st') => (Returns (accept_ d (field req_body "paymentPayload")), st')
  | (Throws e, st') => (Returns (reject ("Transaction validation failed: " ++ e)), st')
  | (OutOfFuel, st') => (OutOfFuel, st')
  end.
Proof.
  intros [Hreq Hnet Hpay].
  destruct (extract_ok_object _ _ Hpay) as [Hpp _].
  unfold verify.
  rewrite (destructure_field req_body "paymentPayload" "paymentPayload" Hpp).
  rewrite (destructure_field req_body "paymentRequirements" "paymentPayload" Hpp).
  unfold bind, lift, try_catch, ret, throw.
  rewrite Hpp, Hreq, Hnet. cbn [negb orb].
  replace (truthy (JStr (network_key n))) with true by (destruct n; reflexivity).
  replace (startsWith (JStr (network_key n)) "solana-") with (Ok true)
    by (destruct n; reflexivity).
  cbn [negb ToString]. rewrite connections_network_key, Hpay.
  destruct (verify_checks_ (Conn n) d st) as [[[r|]|e|] st']; reflexivity.
Qed.

(** C2: a facilitator_sponsored payload whose decoded transaction does
    not have the facilitator as fee payer is answered with status 400 and
    [isValid: false]; the ledger is not touched at all, so no simulation
    runs and none of its possible answers matters.  For a request that
    passes the earlier gates the reason is the fee-payer one. *)
Theorem sponsored_wrong_fee_payer_rejected
        (req_body : JValue) (d : TransactionData) (tx : Transaction) (st : St World) :
  extractTransactionData (field req_body "paymentPayload") = Ok d ->
  td_format d = facilitator_sponsored ->
  Transaction_from lib (td_facilitatorTransaction d) = Ok tx ->
  feePayer tx <> Some (publicKey facilitatorKeypair) ->
  exists reason,
    verify_ req_body st = (Returns (reject reason), st)
    /\ field (body (reject reason)) "isValid" = JBool false
    /\ (forall n payer,
           verify_request req_body n d ->
           feePayer tx = Some payer ->
           reason = "Transaction fee payer is not the facilitator").
Proof.
  intros He Hf Htx Hfee.
  assert (Hchecks :
            exists reason,
              (forall c, verify_checks_ c d st = (Returns (Some (reject reason)), st)
                         \/ exists e, verify_checks_ c d st = (Throws e, st))
              /\ (forall payer, feePayer tx = Some payer ->
                                reason = "Transaction fee payer is not the facilitator"
                                /\ forall c, verify_checks_ c d st
                                             = (Returns (Some (reject reason)), st))).
  { exists "Transaction fee payer is not the facilitator".
    unfold verify_checks. rewrite Hf, Htx.
    unfold feePayer_for, bind, lift, ret, throw.
    destruct (feePayer tx) as [p|] eqn:Hp.
    - assert (Hneq : PublicKey_equals p (publicKey facilitatorKeypair) = false).
      { destruct (PublicKey_equals p (publicKey facilitatorKeypair)) eqn:Heq; auto.
        apply String.eqb_eq in Heq. subst. congruence. }
      rewrite Hneq. cbn [negb]. split; [intros; left; reflexivity|].
      intros; split; [reflexivity | intros; reflexivity].
    - split; [intros; right; eexists; reflexivity | intros; discriminate]. }
  destruct Hchecks as (reason0 & Hany & Hpayer).
  destruct (extract_ok_object _ _ He) as [Hpp _].
  assert (Hrejects : exists reason, verify_ req_body st = (Returns (reject reason), st)).
  { unfold verify.
    rewrite (destructure_field req_body "paymentPayload" "paymentPayload" Hpp).
    rewrite (destructure_field req_body "paymentRequirements" "paymentPayload" Hpp).
    unfold bind, lift, try_catch, ret, throw. rewrite Hpp. cbn [negb orb].
    destruct (truthy (field req_body "paymentRequirements")); cbn [negb];
      [| eexists; reflexivity].
    destruct (truthy (field (field req_body "paymentPayload") "network")); cbn [negb];
      [| eexists; reflexivity].
    destruct (startsWith _ _) as [[|]|]; cbn [negb]; try (eexists; reflexivity).
    destruct (ToString _) as [key|]; [| eexists; reflexivity].
    destruct (connections key) as [c|]; [| eexists; reflexivity].
    rewrite He.
    destruct (Hany c) as [Hr | [e Hr]]; rewrite Hr; eexists; reflexivity. }
  destruct Hrejects as [reason Hreason].
  exists reason. split; [exact Hreason | split; [reflexivity |]].
  intros n payer Hgates Hp.
  destruct (Hpayer payer Hp) as [Hr0 Hc].
  rewrite (verify_after_gates _ _ _ _ Hgates), (Hc (Conn n)) in Hreason.
  inversion Hreason. congruence.
Qed.

(** The steps of the handler for a minimal or full payload, in terms of
    the normalised record. *)
Lemma verify_embedded_steps
      (req_body : JValue) (n : Network) (d : TransactionData) (st : St World) :
  verify_request req_body n d ->
  td_format d = minimal \/ td_format d = full ->
  (forall e,
      Transaction_from lib (td_transaction d) = Throw e ->
      verify_ req_body st
      = (Returns (reject ("Transaction validation failed: " ++ e)), st))
  /\ (forall tx,
         Transaction_from lib (td_transaction d) = Ok tx ->
         let sim := rpc_simulateTransaction L n tx (world st) in
         let simulated := EvSimulate n tx (fst sim) :: trace st in
         let look := rpc_getTransaction L n (td_signature d) (snd sim) in
         let looked := EvGetTransaction n (td_signature d) (fst look) :: simulated in
         (forall e,
             fst sim = Throw e ->
             verify_ req_body st
             = (Returns (reject ("Transaction validation failed: " ++ e)),
                mkSt (snd sim) simulated))
         /\ (forall err,
                fst sim = Ok err -> truthy err = true ->
                verify_ req_body st
                = (Returns (reject ("Transaction simulation failed: "
                                      ++ JSON_stringify lib err)),
                   mkSt (snd sim) simulated))
         /\ (forall err found,
                fst sim = Ok err -> truthy err = false ->
                fst look = Ok (Some found) ->
                verify_ req_body st
                = (Returns (reject "Transaction already executed on blockchain"),
                   mkSt (snd look) looked))
         /\ (forall err,
                fst sim = Ok err -> truthy err = false ->
                fst look = Ok None ->
                verify_ req_body st
                = (Returns (accept_ d (field req_body "paymentPayload")),
                   mkSt (snd look) looked)
                /\ field (body (accept_ d (field req_body "paymentPayload"))) "isValid"
                   = JBool true)).
Proof.
  intros Hgates Hfmt.
  assert (Htruthy : truthy (td_transaction d) = true).
  { destruct Hgates as [_ _ Hpay]. unfold extractTransactionData in Hpay.
    destruct (member _ "payload") as [payload|]; [|discriminate]. cbn [rbind] in Hpay.
    repeat match type of Hpay with
           | (if ?c then _ else _) = _ => destruct c eqn:?; try discriminate Hpay
           end;
      inversion Hpay; subst d; cbn in Hfmt; destruct Hfmt; try discriminate;
      cbn [td_transaction];
      repeat match goal with
             | H : _ && _ = true |- _ => apply andb_prop in H; destruct H
             end; assumption. }
  assert (Hchecks :
            verify_checks_ (Conn n) d st =
            (tx <- lift (Transaction_from lib (td_transaction d)) ;;
             err <- simulateTransaction L (Conn n) tx ;;
             if truthy err then
               ret (Some (reject ("Transaction simulation failed: "
                                    ++ JSON_stringify lib err)))
             else
               try_catch
                 (existingTx <- getTransaction L (Conn n) (td_signature d) ;;
                  match existingTx with
                  | Some _ => ret (Some (reject "Transaction already executed on blockchain"))
                  | None => ret None
                  end)
                 (fun _ => ret None))%js st).
  { unfold verify_checks. destruct Hfmt as [Hm | Hm]; rewrite Hm, Htruthy; reflexivity. }
  rewrite (verify_after_gates _ _ _ _ Hgates), Hchecks.
  split.
  - intros e He. unfold bind, lift, throw. rewrite He. reflexivity.
  - intros tx Htx sim simulated look looked.
    unfold bind, lift, try_catch, ret, throw, simulateTransaction, getTransaction, await.
    rewrite Htx. subst simulated looked look sim.
    destruct (rpc_simulateTransaction L n tx (world st)) as [[err|e] w1] eqn:Hsim;
      cbn [fst snd lift ret throw world trace].
    + destruct (truthy err) eqn:Herr.
      * repeat split; intros; try discriminate; try congruence.
      * cbn [fst snd lift ret throw world trace].
        destruct (rpc_getTransaction L n (td_signature d) w1) as [[[found|]|e] w2] eqn:Hlook;
          cbn [fst snd lift ret throw world trace];
          repeat split; intros; try discriminate; try congruence.
    + repeat split; intros; try discriminate.
      inversion H; subst. reflexivity.
Qed.

(** What a minimal or full record holds: the [signature] and the
    [transaction] of the inner document of the payload. *)
Lemma extract_embedded_fields (pp : JValue) (d : TransactionData) :
  extractTransactionData pp = Ok d ->
  td_format d = minimal \/ td_format d = full ->
  td_signature d = field (field pp "payload") "signature"
  /\ td_transaction d = field (field pp "payload") "transaction".
Proof.
  intros Hpay Hfmt.
  destruct (extract_ok_object _ _ Hpay) as [Hpp _].
  unfold extractTransactionData in Hpay.
  rewrite (member_truthy _ "payload" Hpp) in Hpay. cbn [rbind] in Hpay.
  repeat match type of Hpay with
         | (if ?c then _ else _) = _ => destruct c; try discriminate Hpay
         end;
    inversion Hpay; subst d; cbn in Hfmt; destruct Hfmt; try discriminate;
    split; reflexivity.
Qed.

(** C6: for a minimal or full payload the handler decodes the
    [transaction] of the payload and simulates it; a decoding failure, a
    failed simulation call or a simulation error is answered with status
    400 and [isValid: false]; after a clean simulation the [signature] of
    the payload is looked up, a transaction found on the ledger is answered
    with status 400, [isValid: false] and the reason that it is already
    executed, and an absent one with status 200 and [isValid: true]. *)
Theorem verify_embedded_transaction
        (req_body : JValue) (n : Network) (d : TransactionData) (st : St World) :
  verify_request req_body n d ->
  td_format d = minimal \/ td_format d = full ->
  let payload := field (field req_body "paymentPayload") "payload" in
  (forall e,
      Transaction_from lib (field payload "transaction") = Throw e ->
      exists r,
        verify_ req_body st = (Returns r, st)
        /\ rejects_with r ("Transaction validation failed: " ++ e))
  /\ (forall tx,
         Transaction_from lib (field payload "transaction") = Ok tx ->
         let sim := rpc_simulateTransaction L n tx (world st) in
         let simulated := EvSimulate n tx (fst sim) :: trace st in
         let look := rpc_getTransaction L n (field payload "signature") (snd sim) in
         let looked :=
           EvGetTransaction n (field payload "signature") (fst look) :: simulated in
         (forall e,
             fst sim = Throw e ->
             exists r,
               verify_ req_body st = (Returns r, mkSt (snd sim) simulated)
               /\ rejects_with r ("Transaction validation failed: " ++ e))
         /\ (forall err,
                fst sim = Ok err -> truthy err = true ->
                exists r,
                  verify_ req_body st = (Returns r, mkSt (snd sim) simulated)
                  /\ rejects_with r ("Transaction simulation failed: "
                                       ++ JSON_stringify lib err))
         /\ (forall err found,
                fst sim = Ok err -> truthy err = false ->
                fst look = Ok (Some found) ->
                exists r,
                  verify_ req_body st = (Returns r, mkSt (snd look) looked)
                  /\ rejects_with r "Transaction already executed on blockchain")
         /\ (forall err,
                fst sim = Ok err -> truthy err = false ->
                fst look = Ok None ->
                exists r,
                  verify_ req_body st = (Returns r, mkSt (snd look) looked)
                  /\ accepts r)).
Proof.
  intros Hgates Hfmt payload. subst payload.
  destruct (extract_embedded_fields _ _ (vr_payload _ _ _ Hgates) Hfmt) as [Hsig Htx].
  rewrite <- Hsig, <- Htx.
  destruct (verify_embedded_steps req_body n d st Hgates Hfmt) as [Hdecode Hdecoded].
  split.
  - intros e He. eexists. split; [exact (Hdecode e He) |]. repeat split.
  - intros tx Htx' sim simulated look looked.
    destruct (Hdecoded tx Htx') as (Hcall & Herror & Hfound & Habsent).
    repeat split.
    + intros e He. eexists. split; [exact (Hcall e He) |]. repeat split.
    + intros err Hsim Herr. eexists. split; [exact (Herror err Hsim Herr) |]. repeat split.
    + intros err found Hsim Herr Hlook.
      eexists. split; [exact (Hfound err found Hsim Herr Hlook) |]. repeat split.
    + intros err Hsim Herr Hlook.
      eexists. split; [exact (proj1 (Habsent err Hsim Herr Hlook)) |]. repeat split.
Qed.

(** C10: when the simulation is clean and the lookup made for replay
    protection itself fails, the failure is swallowed and the payload is
    accepted, exactly as if the signature were absent. *)
Theorem replay_lookup_failure_accepts
        (req_body : JValue) (n : Network) (d : TransactionData) (tx : Transaction)
        (st : St World) (err : JValue) (e : Error) :
  verify_request req_body n d ->
  td_format d = minimal \/ td_format d = full ->
  Transaction_from lib (td_transaction d) = Ok tx ->
  let sim := rpc_simulateTransaction L n tx (world st) in
  let look := rpc_getTransaction L n (td_signature d) (snd sim) in
  fst sim = Ok err -> truthy err = false ->
  fst look = Throw e ->
  verify_ req_body st
  = (Returns (accept_ d (field req_body "paymentPayload")),
     mkSt (snd look)
          (EvGetTransaction n (td_signature d) (Throw e)
             :: EvSimulate n tx (Ok err) :: trace st))
  /\ status (accept_ d (field req_body "paymentPayload")) = 200
  /\ field (body (accept_ d (field req_body "paymentPayload"))) "isValid" = JBool true.
Proof.
  intros Hgates Hfmt Htx sim look Hsim Herr Hlook.
  assert (Htruthy : truthy (td_transaction d) = true).
  { destruct Hgates as [_ _ Hpay]. unfold extractTransactionData in Hpay.
    destruct (member _ "payload") as [payload|]; [|discriminate]. cbn [rbind] in Hpay.
    repeat match type of Hpay with
           | (if ?c then _ else _) = _ => destruct c eqn:?; try discriminate Hpay
           end;
      inversion Hpay; subst d; cbn in Hfmt; destruct Hfmt; try discriminate;
      cbn [td_transaction];
      repeat match goal with
             | H : _ && _ = true |- _ => apply andb_prop in H; destruct H
             end; assumption. }
  rewrite (verify_after_gates _ _ _ _ Hgates).
  split; [| split; reflexivity].
  assert (Hchecks :
            verify_checks_ (Conn n) d st
            = (Returns None,
               mkSt (snd look)
                    (EvGetTransaction n (td_signature d) (Throw e)
                       :: EvSimulate n tx (Ok err) :: trace st))).
  { subst look sim. unfold verify_checks.
    destruct Hfmt as [Hm | Hm]; rewrite Hm, Htruthy; cbn [negb];
      unfold bind, lift, try_catch, ret, throw, simulateTransaction, getTransaction, await;
      rewrite Htx;
      destruct (rpc_simulateTransaction L n tx (world st)) as [a w1];
      cbn [fst snd] in *; subst a; cbn [lift ret world trace]; rewrite Herr;
      cbn [world trace];
      destruct (rpc_getTransaction L n (td_signature d) w1) as [b w2];
      cbn [fst snd] in *; subst b; reflexivity. }
  rewrite Hchecks. reflexivity.
Qed.

(** *** What verification does to the ledger *)

(** A computation that only adds simulations and lookups to the trace. *)
Definition only_reads {A} (m : M World A) : Prop :=
  forall st, exists new,
    trace (snd (m st)) = (new ++ trace st)%list /\ Forall read_event new.

Lemma only_reads_ret {A} (a : A) : only_reads (ret a).
Proof. intros st. exists []. split; [reflexivity | constructor]. Qed.

Lemma only_reads_throw {A} (e : Error) : only_reads (@throw World A e).
Proof. intros st. exists []. split; [reflexivity | constructor]. Qed.

Lemma only_reads_lift {A} (r : Result A) : only_reads (@lift World A r).
Proof. destruct r; [apply only_reads_ret | apply only_reads_throw]. Qed.

Lemma only_reads_bind {A B} (m : M World A) (k : A -> M World B) :
  only_reads m -> (forall a, only_reads (k a)) -> only_reads (bind m k).
Proof.
  intros Hm Hk st. unfold bind.
  destruct (Hm st) as (new1 & Htrace1 & Hread1).
  destruct (m st) as [[a|e|] st1]; cbn [snd] in *.
  - destruct (Hk a st1) as (new2 & Htrace2 & Hread2).
    exists (new2 ++ new1)%list. rewrite Htrace2, Htrace1, app_assoc.
    split; [reflexivity | apply Forall_app; split; assumption].
  - exists new1. split; assumption.
  - exists new1. split; assumption.
Qed.

Lemma only_reads_try_catch {A} (m : M World A) (handler : Error -> M World A) :
  only_reads m -> (forall e, only_reads (handler e)) -> only_reads (try_catch m handler).
Proof.
  intros Hm Hh st. unfold try_catch.
  destruct (Hm st) as (new1 & Htrace1 & Hread1).
  destruct (m st) as [[a|e|] st1]; cbn [snd] in *.
  - exists new1. split; assumption.
  - destruct (Hh e st1) as (new2 & Htrace2 & Hread2).
    exists (new2 ++ new1)%list. rewrite Htrace2, Htrace1, app_assoc.
    split; [reflexivity | apply Forall_app; split; assumption].
  - exists new1. split; assumption.
Qed.

Lemma only_reads_simulate (c : Connection) (tx : Transaction) :
  only_reads (simulateTransaction L c tx).
Proof.
  destruct c as [n | name]; [| apply only_reads_throw].
  intros st. cbn [simulateTransaction]. unfold await.
  destruct (rpc_simulateTransaction L n tx (world st)) as [answer w].
  exists [EvSimulate n tx answer].
  destruct answer; cbn; split; try reflexivity; repeat constructor.
Qed.

Lemma only_reads_getTransaction (c : Connection) (sig : JValue) :
  only_reads (getTransaction L c sig).
Proof.
  destruct c as [n | name]; [| apply only_reads_throw].
  intros st. cbn [getTransaction]. unfold await.
  destruct (rpc_getTransaction L n sig (world st)) as [answer w].
  exists [EvGetTransaction n sig answer].
  destruct answer; cbn; split; try reflexivity; repeat constructor.
Qed.

Ltac only_reads_steps :=
  repeat first
    [ apply only_reads_ret | apply only_reads_throw | apply only_reads_lift
    | apply only_reads_simulate | apply only_reads_getTransaction
    | apply only_reads_bind | apply only_reads_try_catch
    | match goal with
      | |- forall _, _ => intro
      | |- only_reads (if ?b then _ else _) => destruct b
      | |- only_reads (match ?x with _ => _ end) => destruct x
      end ].

Lemma verify_only_reads (req_body : JValue) : only_reads (verify_ req_body).
Proof. unfold verify, verify_checks. cbv zeta. only_reads_steps. Qed.

Lemma read_event_not_broadcast (new : list Event) :
  Forall read_event new -> forallb (fun e => negb (is_broadcast e)) new = true.
Proof.
  induction 1 as [| e rest He _ IH]; [reflexivity |].
  cbn [forallb]. rewrite IH. destruct e; cbn in *; try contradiction; reflexivity.
Qed.

(** Lookups that are read-only: what simulation and [getTransaction]
    answer depends only on a part [view] of the world, the ledger's
    contents, and neither of them changes that part. *)
Record ReadOnlyLookups {V : Type} (view : World -> V) : Prop := {
  simulate_reads : forall n tx w1 w2,
      view w1 = view w2 ->
      fst (rpc_simulateTransaction L n tx w1) = fst (rpc_simulateTransaction L n tx w2);
  simulate_keeps : forall n tx w,
      view (snd (rpc_simulateTransaction L n tx w)) = view w;
  lookup_reads : forall n sig w1 w2,
      view w1 = view w2 ->
      fst (rpc_getTransaction L n sig w1) = fst (rpc_getTransaction L n sig w2);
  lookup_keeps : forall n sig w,
      view (snd (rpc_getTransaction L n sig w)) = view w
}.

Section Stable.
Context {V : Type} (view : World -> V).
Hypothesis read_only : ReadOnlyLookups view.

(** The outcome depends on the view only, and the view is kept. *)
Definition stable {A} (m : M World A) : Prop :=
  forall st1 st2,
    view (world st1) = view (world st2) ->
    fst (m st1) = fst (m st2) /\ view (world (snd (m st1))) = view (world st1).

Lemma stable_ret {A} (a : A) : stable (ret a).
Proof. intros st1 st2 H. split; reflexivity. Qed.

Lemma stable_throw {A} (e : Error) : stable (@throw World A e).
Proof. intros st1 st2 H. split; reflexivity. Qed.

Lemma stable_lift {A} (r : Result A) : stable (@lift World A r).
Proof. destruct r; [apply stable_ret | apply stable_throw]. Qed.

Lemma stable_bind {A B} (m : M World A) (k : A -> M World B) :
  stable m -> (forall a, stable (k a)) -> stable (bind m k).
Proof.
  intros Hm Hk st1 st2 Hview. unfold bind.
  destruct (Hm st1 st2 Hview) as [Hout Hkeep1].
  destruct (Hm st2 st2 eq_refl) as [_ Hkeep2].
  destruct (m st1) as [o1 s1], (m st2) as [o2 s2]; cbn [fst snd] in *. subst o2.
  destruct o1 as [a|e|]; cbn [fst snd]; try (split; [reflexivity | assumption]).
  assert (Hs : view (world s1) = view (world s2)) by congruence.
  destruct (Hk a s1 s2 Hs) as [Hout' Hkeep']. split; congruence.
Qed.

Lemma stable_try_catch {A} (m : M World A) (handler : Error -> M World A) :
  stable m -> (forall e, stable (handler e)) -> stable (try_catch m handler).
Proof.
  intros Hm Hh st1 st2 Hview. unfold try_catch.
  destruct (Hm st1 st2 Hview) as [Hout Hkeep1].
  destruct (Hm st2 st2 eq_refl) as [_ Hkeep2].
  destruct (m st1) as [o1 s1], (m st2) as [o2 s2]; cbn [fst snd] in *. subst o2.
  destruct o1 as [a|e|]; cbn [fst snd]; try (split; [reflexivity | assumption]).
  assert (Hs : view (world s1) = view (world s2)) by congruence.
  destruct (Hh e s1 s2 Hs) as [Hout' Hkeep']. split; congruence.
Qed.

Lemma stable_simulate (c : Connection) (tx : Transaction) :
  stable (simulateTransaction L c tx).
Proof.
  destruct c as [n | name]; [| apply stable_throw].
  intros st1 st2 Hview. cbn [simulateTransaction]. unfold await.
  pose proof (simulate_reads view read_only n tx _ _ Hview) as Hans.
  pose proof (simulate_keeps view read_only n tx (world st1)) as Hkeep.
  destruct (rpc_simulateTransaction L n tx (world st1)) as [a1 w1].
  destruct (rpc_simulateTransaction L n tx (world st2)) as [a2 w2].
  cbn [fst snd] in *. subst a2. destruct a1; cbn; split; auto.
Qed.

Lemma stable_getTransaction (c : Connection) (sig : JValue) :
  stable (getTransaction L c sig).
Proof.
  destruct c as [n | name]; [| apply stable_throw].
  intros st1 st2 Hview. cbn [getTransaction]. unfold await.
  pose proof (lookup_reads view read_only n sig _ _ Hview) as Hans.
  pose proof (lookup_keeps view read_only n sig (world st1)) as Hkeep.
  destruct (rpc_getTransaction L n sig (world st1)) as [a1 w1].
  destruct (rpc_getTransaction L n sig (world st2)) as [a2 w2].
  cbn [fst snd] in *. subst a2. destruct a1; cbn; split; auto.
Qed.

Lemma verify_stable (req_body : JValue) : stable (verify_ req_body).
Proof.
  unfold verify, verify_checks. cbv zeta.
  repeat first
    [ apply stable_ret | apply stable_throw | apply stable_lift
    | apply stable_simulate | apply stable_getTransaction
    | apply stable_bind | apply stable_try_catch
    | match goal with
      | |- forall _, _ => intro
      | |- stable (if ?b then _ else _) => destruct b
      | |- stable (match ?x with _ => _ end) => destruct x
      end ].
Qed.
End Stable.

(** C3: whatever the request, verification adds nothing but simulations
    and lookups to the trace, so it never broadcasts; and when those
    calls are read-only on the ledger, verifying leaves the ledger's
    contents as they were and verifying again gives the same verdict. *)
Theorem verify_never_broadcasts_and_repeats (req_body : JValue) (st : St World) :
  (exists new,
      trace (snd (verify_ req_body st)) = (new ++ trace st)%list
      /\ Forall read_event new
      /\ forallb (fun e => negb (is_broadcast e)) new = true)
  /\ (forall (V : Type) (view : World -> V),
         ReadOnlyLookups view ->
         view (world (snd (verify_ req_body st))) = view (world st)
         /\ fst (verify_ req_body (snd (verify_ req_body st)))
            = fst (verify_ req_body st)).
Proof.
  split.
  - destruct (verify_only_reads req_body st) as (new & Htrace & Hread).
    exists new. repeat split; auto using read_event_not_broadcast.
  - intros V view Hro.
    destruct (verify_stable view Hro req_body st st eq_refl) as [_ Hkeep].
    split; [exact Hkeep |].
    apply (verify_stable view Hro req_body). exact Hkeep.
Qed.

(** *** The confirmation loop *)

Local Abbreviation poll_ := (poll lib L).
Local Abbreviation settleSolanaTransaction_ := (settleSolanaTransaction lib L).

Lemma started_in_time_after_clock (startTime timeout t : Z) (chron : list Event) :
  started_in_time startTime timeout chron = true ->
  started_in_time startTime timeout (EvNow t :: chron) = true.
Proof.
  destruct chron as [| e rest]; [reflexivity |].
  destruct e; cbn; intros H; try assumption; discriminate.
Qed.

Lemma rev_cons_app {A} (x : A) (l tail : list A) :
  (rev l ++ x :: tail)%list = (rev (x :: l) ++ tail)%list.
Proof. cbn [rev]. rewrite <- app_assoc. reflexivity. Qed.

(** One turn against a connection, by the answers of the ledger. *)
Lemma poll_turn_conn (n : Network) (sig : Signature) (v : PollVars) (st : St World) :
  poll_turn lib L (Conn n) sig v st =
  let (answer, w1) := rpc_getSignatureStatus L n sig (world st) in
  let st1 := mkSt w1 (EvSignatureStatus n sig answer :: trace st) in
  let waited := mkSt (setTimeout L 2000 w1) (EvSleep 2000 :: trace st1) in
  match answer with
  | Throw _ => (Returns (Ok false, v), st1)
  | Ok None => (Returns (Ok false, v), waited)
  | Ok (Some value) =>
      let v1 := set_confirmationStatus (reported value) v in
      if truthy (ss_err value) then (Returns (Ok false, v1), st1)
      else if is_terminal (reported value) then
        let (details, w2) := rpc_getTransaction L n (JStr sig) w1 in
        let st2 := mkSt w2 (EvGetTransaction n (JStr sig) details :: trace st1) in
        match details with
        | Ok txInfo =>
            (Returns (Ok true,
                      set_details (slot_of txInfo) (blockTime_of txInfo) (fee_of txInfo)
                                  (set_confirmed true v1)), st2)
        | Throw _ => (Returns (Ok true, set_confirmed true v1), st2)
        end
      else (Returns (Ok false, v1), waited)
  end.
Proof.
  unfold poll_turn, body_try_catch, body_bind, awaited, assign, read, body_ret, body_throw,
    bind, attempt, ret, sleep.
  cbn [getSignatureStatus getTransaction]. unfold await.
  destruct (rpc_getSignatureStatus L n sig (world st)) as [[[value|]|e] w1];
    cbn [lift ret throw fst snd world trace]; try reflexivity.
  unfold ret, throw.
  destruct (truthy (ss_err value)); cbn [fst snd]; [reflexivity |].
  cbn [set_confirmationStatus pv_confirmationStatus].
  destruct (is_terminal (reported value)); cbn [fst snd world trace]; [| reflexivity].
  destruct (rpc_getTransaction L n (JStr sig) w1) as [[txInfo|e] w2];
    cbn [lift ret throw fst snd]; reflexivity.
Qed.

Lemma poll_turn_inherited (name : string) (sig : Signature) (v : PollVars) (st : St World) :
  poll_turn lib L (Inherited name) sig v st = (Returns (Ok false, v), st).
Proof. reflexivity. Qed.

(** What a returned loop leaves behind, for a loop entered with
    [confirmed] still false. *)
Lemma poll_returns (c : Connection) (sig : Signature) (startTime timeout : Z) :
  forall fuel v st v' st',
    poll_ fuel c sig startTime timeout v st = (Returns v', st') ->
    pv_confirmed v = false ->
    exists chron,
      trace st' = (rev chron ++ trace st)%list
      /\ started_in_time startTime timeout chron = true
      /\ pv_confirmed v' = existsb confirms (polls chron)
      /\ (pv_confirmed v' = true -> is_terminal (pv_confirmationStatus v') = true)
      /\ pv_confirmationStatus v'
         = fold_left observe (polls chron) (pv_confirmationStatus v).
Proof.
  induction fuel as [| fuel IH]; intros v st v' st' Hrun Hv.
  { discriminate Hrun. }
  cbn [poll] in Hrun. unfold bind at 1 in Hrun. unfold Date_now_ at 1 in Hrun.
  set (t := Date_now L (world st)) in *.
  rewrite Hv in Hrun. cbn [negb] in Hrun. rewrite andb_true_r in Hrun.
  destruct (t - startTime <? timeout) eqn:Hcond.
  2: { inversion Hrun; subst. exists [EvNow t]. cbn. rewrite Hv.
       repeat split; auto; discriminate. }
  (* one turn of the body *)
  unfold bind at 1 in Hrun.
  destruct c as [n | name].
  2: { (* a member inherited from Object.prototype is not callable *)
    rewrite poll_turn_inherited in Hrun. cbn [fst snd] in Hrun.
    destruct (IH _ _ _ _ Hrun Hv) as (chron & Htrace & Htimely & Hconf & Hterm & Hstat).
    exists (EvNow t :: chron). cbn [trace] in Htrace. rewrite rev_cons_app in Htrace.
    split; [exact Htrace |].
    split; [apply started_in_time_after_clock; exact Htimely |].
    cbn [polls]. auto. }
  rewrite poll_turn_conn in Hrun. cbn [world trace] in Hrun.
  destruct (rpc_getSignatureStatus L n sig (world st)) as [answer w1] eqn:Hanswer.
  destruct answer as [[value|]|e]; cbv zeta in Hrun.
  - (* a status *)
    destruct (truthy (ss_err value)) eqn:Herr.
    + cbn [fst snd] in Hrun.
      assert (Hv1 : pv_confirmed (set_confirmationStatus (reported value) v) = false)
        by exact Hv.
      destruct (IH _ _ _ _ Hrun Hv1) as (chron & Htrace & Htimely & Hconf & Hterm & Hstat).
      exists (EvNow t :: EvSignatureStatus n sig (Ok (Some value)) :: chron).
      cbn [trace] in Htrace. rewrite !rev_cons_app in Htrace.
      split; [exact Htrace |].
      cbn [started_in_time polls existsb fold_left confirms observe pv_confirmationStatus
                      set_confirmationStatus] in *.
      rewrite Hcond, Herr. cbn [negb andb orb]. auto.
    + destruct (is_terminal (reported value)) eqn:Hterminal.
      * destruct (rpc_getTransaction L n (JStr sig) w1) as [details w2].
        destruct details as [txInfo | detailError]; cbn [fst snd ret] in Hrun;
          inversion Hrun; subst;
          [ exists [EvNow t; EvSignatureStatus n sig (Ok (Some value));
                    EvGetTransaction n (JStr sig) (Ok txInfo)]
          | exists [EvNow t; EvSignatureStatus n sig (Ok (Some value));
                    EvGetTransaction n (JStr sig) (Throw detailError)] ];
          cbn [rev app started_in_time polls existsb fold_left confirms observe
                   pv_confirmed pv_confirmationStatus trace set_details set_confirmed
                   set_confirmationStatus];
          rewrite Hcond, Herr, Hterminal; cbn [negb andb orb]; auto.
      * cbn [fst snd] in Hrun.
        assert (Hv1 : pv_confirmed (set_confirmationStatus (reported value) v) = false)
          by exact Hv.
        destruct (IH _ _ _ _ Hrun Hv1) as (chron & Htrace & Htimely & Hconf & Hterm & Hstat).
        exists (EvNow t :: EvSignatureStatus n sig (Ok (Some value)) :: EvSleep 2000 :: chron).
        cbn [trace] in Htrace. rewrite !rev_cons_app in Htrace.
        split; [exact Htrace |].
        cbn [started_in_time polls existsb fold_left confirms observe pv_confirmationStatus
                        set_confirmationStatus] in *.
        rewrite Hcond, Herr, Hterminal. cbn [negb andb orb]. auto.
  - (* no status yet *)
    cbn [fst snd] in Hrun.
    destruct (IH _ _ _ _ Hrun Hv) as (chron & Htrace & Htimely & Hconf & Hterm & Hstat).
    exists (EvNow t :: EvSignatureStatus n sig (Ok None) :: EvSleep 2000 :: chron).
    cbn [trace] in Htrace. rewrite !rev_cons_app in Htrace.
    split; [exact Htrace |].
    cbn [started_in_time polls existsb fold_left confirms observe] in *.
    rewrite Hcond. cbn [negb andb orb]. auto.
  - (* the status call failed *)
    cbn [fst snd] in Hrun.
    destruct (IH _ _ _ _ Hrun Hv) as (chron & Htrace & Htimely & Hconf & Hterm & Hstat).
    exists (EvNow t :: EvSignatureStatus n sig (Throw e) :: chron).
    cbn [trace] in Htrace. rewrite !rev_cons_app in Htrace.
    split; [exact Htrace |].
    cbn [started_in_time polls existsb fold_left confirms observe] in *.
    rewrite Hcond. cbn [negb andb orb]. auto.
Qed.

(** The clock moves: a status call takes time, and neither waiting nor a
    lookup turns the clock back. *)
Record ClockAdvances : Prop := {
  status_takes_time : forall n sig w,
      Date_now L w < Date_now L (snd (rpc_getSignatureStatus L n sig w));
  lookup_not_backwards : forall n sig w,
      Date_now L w <= Date_now L (snd (rpc_getTransaction L n sig w));
  wait_not_backwards : forall ms w,
      Date_now L w <= Date_now L (setTimeout L ms w)
}.

Lemma poll_terminates (n : Network) (sig : Signature) (startTime timeout : Z) :
  ClockAdvances ->
  forall fuel v st,
    (Z.to_nat (startTime + timeout - Date_now L (world st)) < fuel)%nat ->
    exists v' st', poll_ fuel (Conn n) sig startTime timeout v st = (Returns v', st').
Proof.
  intros Hclock.
  induction fuel as [| fuel IH]; intros v st Hfuel; [lia |].
  cbn [poll]. unfold bind at 1. unfold Date_now_ at 1.
  set (t := Date_now L (world st)) in *.
  destruct ((t - startTime <? timeout) && negb (pv_confirmed v)) eqn:Hcond.
  2: { eexists _, _. reflexivity. }
  apply andb_prop in Hcond. destruct Hcond as [Hin _]. apply Z.ltb_lt in Hin.
  unfold bind at 1. rewrite poll_turn_conn. cbn [world trace].
  pose proof (status_takes_time Hclock n sig (world st)) as Hstep. fold t in Hstep.
  destruct (rpc_getSignatureStatus L n sig (world st)) as [answer w1].
  cbn [snd] in Hstep.
  pose proof (wait_not_backwards Hclock 2000 w1) as Hwait.
  destruct answer as [[value|]|e]; cbv zeta.
  - destruct (truthy (ss_err value)).
    + cbn [fst snd]. apply IH. cbn [world]. lia.
    + destruct (is_terminal _).
      * destruct (rpc_getTransaction L n (JStr sig) w1) as [[txInfo|detailError] w2];
          cbn [fst snd]; eexists _, _; reflexivity.
      * cbn [fst snd]. apply IH. cbn [world]. lia.
  - cbn [fst snd]. apply IH. cbn [world]. lia.
  - cbn [fst snd]. apply IH. cbn [world]. lia.
Qed.

Lemma settlement_terminates
      (n : Network) (transactionBase64 : JValue) (options : SettleOptions)
      (st : St World) :
  ClockAdvances ->
  forall fuel,
    (Z.to_nat (timeout options) < fuel)%nat ->
    fst (settleSolanaTransaction_ fuel (Conn n) transactionBase64 options st)
    <> OutOfFuel.
Proof.
    intros Hclock fuel Hfuel.
    unfold settleSolanaTransaction, bind, lift, ret, throw, sendRawTransaction, await.
    destruct (Transaction_from lib transactionBase64) as [tx|]; [| discriminate].
    destruct (feePayer_for "toBase58" tx); [| discriminate].
    destruct (serialize lib true tx) as [raw|]; [| discriminate].
    destruct (rpc_sendRawTransaction L n raw _ (world st)) as [[signature|] w1];
      cbn [lift ret throw]; [| discriminate].
    unfold Date_now_ at 1. cbn [world trace].
    match goal with
    | |- context [poll_ fuel (Conn n) signature ?s ?t ?v ?st0] =>
        destruct (poll_terminates n signature s t Hclock fuel v st0) as (v' & st' & Hp);
          [cbn [world]; lia | rewrite Hp; discriminate]
    end.
Qed.

Lemma settlement_returns
      (n : Network) (transactionBase64 : JValue) (options : SettleOptions)
      (st : St World) (fuel : nat) (receipt : Receipt) (st' : St World) :
  settleSolanaTransaction_ fuel (Conn n) transactionBase64 options st
  = (Returns receipt, st') ->
  exists raw signature startTime chron,
    trace st'
    = (rev chron
         ++ EvNow startTime
         :: EvBroadcast n raw
              (mkSendOptions (skipPreflight options) (maxRetries options))
              (Ok signature)
         :: trace st)%list
    /\ r_signature receipt = JStr signature
    /\ started_in_time startTime (timeout options) chron = true
    /\ r_confirmed receipt = existsb confirms (polls chron)
    /\ (r_confirmed receipt = true -> is_terminal (r_confirmationStatus receipt) = true)
    /\ r_confirmationStatus receipt = fold_left observe (polls chron) processed.
Proof.
    unfold settleSolanaTransaction.
    unfold bind at 1. unfold lift at 1.
    destruct (Transaction_from lib transactionBase64) as [tx|];
      [| cbn; discriminate]. cbn [ret].
    unfold bind at 1. unfold lift at 1.
    destruct (feePayer_for "toBase58" tx); [| cbn; discriminate]. cbn [ret].
    unfold bind at 1. unfold lift at 1.
    destruct (serialize lib true tx) as [raw|]; [| cbn; discriminate]. cbn [ret].
    unfold bind at 1. unfold sendRawTransaction, await.
    destruct (rpc_sendRawTransaction L n raw _ (world st)) as [[signature|] w1];
      [| cbn; discriminate]. cbn [lift ret].
    unfold bind at 1. unfold Date_now_ at 1. cbn [world trace].
    unfold bind at 1.
    match goal with
    | |- context [poll_ fuel (Conn n) signature ?s ?t ?v ?st0] =>
        destruct (poll_ fuel (Conn n) signature s t v st0) as [[v'|e|] st1] eqn:Hp;
          try discriminate
    end.
    cbn [ret]. intros Hrun. inversion Hrun; subst receipt st'. clear Hrun.
    destruct (poll_returns _ _ _ _ _ _ _ _ _ Hp eq_refl)
      as (chron & Htrace & Htimely & Hconf & Hterm & Hstat).
    exists raw, signature, (Date_now L w1), chron.
    cbn [r_signature r_confirmed r_confirmationStatus trace] in *.
    repeat split; auto.
Qed.

(** The record of a settlement attempt that broadcast and returned.
    Each poll was started right after a reading of the clock less than the
    timeout past the start; when its answer arrives is up to the ledger,
    and an answer that arrives later counts all the same.  The record has
    [confirmed = true] exactly when one of the polls answered with a status
    of confirmed or finalized that carries no execution error; its
    [confirmationStatus] is the last status observed, which for a confirmed
    record is confirmed or finalized; and its signature is the one the
    broadcast returned.  With a clock that advances the loop ends once the
    fuel exceeds the timeout. *)
Lemma settlement_record
        (n : Network) (transactionBase64 : JValue) (options : SettleOptions)
        (st : St World) :
  (ClockAdvances ->
   forall fuel,
     (Z.to_nat (timeout options) < fuel)%nat ->
     fst (settleSolanaTransaction_ fuel (Conn n) transactionBase64 options st)
     <> OutOfFuel)
  /\ (forall fuel receipt st',
         settleSolanaTransaction_ fuel (Conn n) transactionBase64 options st
         = (Returns receipt, st') ->
         exists raw signature startTime chron,
           trace st'
           = (rev chron
                ++ EvNow startTime
                :: EvBroadcast n raw
                     (mkSendOptions (skipPreflight options) (maxRetries options))
                     (Ok signature)
                :: trace st)%list
           /\ r_signature receipt = JStr signature
           /\ started_in_time startTime (timeout options) chron = true
           /\ (r_confirmed receipt = true <->
               exists answer, In answer (polls chron) /\ confirms answer = true)
           /\ (r_confirmed receipt = true ->
               is_terminal (r_confirmationStatus receipt) = true
               /\ r_signature receipt <> JNull)
           /\ r_confirmationStatus receipt = fold_left observe (polls chron) processed).
Proof.
  split.
  - apply settlement_terminates.
  - intros fuel receipt st' Hrun.
    destruct (settlement_returns _ _ _ _ _ _ _ Hrun)
      as (raw & signature & startTime & chron & Htrace & Hsig & Htimely & Hconf
          & Hterm & Hstat).
    exists raw, signature, startTime, chron.
    split; [exact Htrace |]. split; [exact Hsig |]. split; [exact Htimely |].
    split; [| split; [| exact Hstat]].
    + rewrite Hconf. apply existsb_exists.
    + intros Hc. split; [auto |]. rewrite Hsig. discriminate.
Qed.

(** *** The settle handler *)

Local Abbreviation settle_ := (settle lib L facilitatorKeypair).
Local Abbreviation settle_result_ := (settle_result lib L).
Local Abbreviation settled_ := (settled facilitatorKeypair).

Lemma extract_embedded_truthy (pp : JValue) (d : TransactionData) :
  extractTransactionData pp = Ok d ->
  td_format d = minimal \/ td_format d = full ->
  truthy (td_transaction d) = true.
Proof.
  intros Hpay Hfmt. unfold extractTransactionData in Hpay.
  destruct (member _ "payload") as [payload|]; [|discriminate]. cbn [rbind] in Hpay.
  repeat match type of Hpay with
         | (if ?c then _ else _) = _ => destruct c eqn:?; try discriminate Hpay
         end;
    inversion Hpay; subst d; cbn in Hfmt; destruct Hfmt; try discriminate;
    cbn [td_transaction];
    repeat match goal with
           | H : _ && _ = true |- _ => apply andb_prop in H; destruct H
           end; assumption.
Qed.

(** Past the gates, the handler is [settle_result] inside the [try]. *)
Lemma settle_after_gates (fuel : nat) (req_body : JValue) (n : Network)
      (d : TransactionData) (st : St World) :
  settle_request req_body n d ->
  settle_ fuel req_body st =
  match settle_result_ fuel (Conn n) d st with
  | (Returns result, st') =>
      (Returns (settled_ (field (field req_body "paymentPayload") "network") d
                         (field req_body "paymentPayload") result), st')
  | (Throws e, st') =>
      (Returns (settle_failed e (field (field req_body "paymentPayload") "network")), st')
  | (OutOfFuel, st') => (OutOfFuel, st')
  end.
Proof.
  intros [Hnet Hpay].
  destruct (extract_ok_object _ _ Hpay) as [Hpp _].
  unfold settle.
  rewrite (destructure_field req_body "paymentPayload" "paymentPayload" Hpp).
  rewrite (destructure_field req_body "paymentRequirements" "paymentPayload" Hpp).
  unfold bind, lift, try_catch, ret, throw.
  rewrite (member_truthy _ "network" Hpp).
  rewrite Hnet, connections_network_key, Hpay.
  destruct (settle_result_ fuel (Conn n) d st) as [[result|e|] st']; reflexivity.
Qed.

(** Whatever the gates decide, the handler either leaves the state
    alone or leaves it as [settle_result] does on some connection. *)
Lemma settle_reaches (fuel : nat) (req_body : JValue) (d : TransactionData)
      (st : St World) :
  extractTransactionData (field req_body "paymentPayload") = Ok d ->
  snd (settle_ fuel req_body st) = st
  \/ exists c, snd (settle_ fuel req_body st) = snd (settle_result_ fuel c d st).
Proof.
  intros Hpay.
  destruct (extract_ok_object _ _ Hpay) as [Hpp _].
  unfold settle.
  rewrite (destructure_field req_body "paymentPayload" "paymentPayload" Hpp).
  rewrite (destructure_field req_body "paymentRequirements" "paymentPayload" Hpp).
  unfold bind, lift, try_catch, ret, throw.
  rewrite (member_truthy _ "network" Hpp).
  destruct (ToString _) as [key|]; [| left; reflexivity].
  destruct (connections key) as [c|]; [| left; reflexivity].
  rewrite Hpay. right. exists c.
  destruct (settle_result_ fuel c d st) as [[result|e|] st']; reflexivity.
Qed.

Lemma settle_result_authorization_only_reads (fuel : nat) (c : Connection)
      (d : TransactionData) :
  td_format d = authorization_only -> only_reads (settle_result_ fuel c d).
Proof.
  intros Hf. unfold settle_result. rewrite Hf. only_reads_steps.
Qed.

(** The steps of the handler for an authorization_only payload, in terms
    of the normalised record. *)
Lemma settle_authorization_steps
      (fuel : nat) (req_body : JValue) (d : TransactionData) (st : St World) :
  extractTransactionData (field req_body "paymentPayload") = Ok d ->
  td_format d = authorization_only ->
  (exists new,
      trace (snd (settle_ fuel req_body st)) = (new ++ trace st)%list
      /\ forallb (fun e => negb (is_broadcast e)) new = true)
  /\ (forall n,
         settle_request req_body n d ->
         let paymentPayload := field req_body "paymentPayload" in
         let look := rpc_getTransaction L n (td_signature d) (world st) in
         let after :=
           mkSt (snd look) (EvGetTransaction n (td_signature d) (fst look) :: trace st) in
         (forall found,
             fst look = Ok (Some found) ->
             truthy (err_of found) = false ->
             settle_ fuel req_body st
             = (Returns
                  (settled_ (field paymentPayload "network") d paymentPayload
                     (mkReceipt (td_signature d) true confirmed
                                (JNum (tr_slot found)) (js_number (tr_blockTime found))
                                (fee_of (Some found)))),
                after))
         /\ (fst look = Ok None ->
             settle_ fuel req_body st
             = (Returns
                  (settle_failed
                     "Failed to verify existing transaction: Transaction not found on blockchain"
                     (field paymentPayload "network")),
                after))
         /\ (forall found,
                fst look = Ok (Some found) ->
                truthy (err_of found) = true ->
                settle_ fuel req_body st
                = (Returns
                     (settle_failed
                        ("Failed to verify existing transaction: Transaction failed: "
                           ++ JSON_stringify lib (err_of found))
                        (field paymentPayload "network")),
                   after))).
Proof.
  intros Hpay Hf. split.
  - destruct (settle_reaches fuel req_body d st Hpay) as [Hsame | [c Hc]].
    + exists []. rewrite Hsame. split; reflexivity.
    + destruct (settle_result_authorization_only_reads fuel c d Hf st)
        as (new & Htrace & Hread).
      exists new. rewrite Hc. split; [exact Htrace |].
      apply read_event_not_broadcast. exact Hread.
  - intros n Hgates paymentPayload look after. subst paymentPayload look after.
    rewrite (settle_after_gates _ _ _ _ _ Hgates).
    unfold settle_result. rewrite Hf.
    unfold try_catch, bind, getTransaction, await.
    destruct (rpc_getTransaction L n (td_signature d) (world st)) as [[[found|]|e] w1];
      cbn [fst snd lift ret throw];
      repeat split; intros; try discriminate;
      try (match goal with H : Ok _ = Ok _ |- _ => inversion H; subst end);
      try (match goal with H : truthy _ = _ |- _ => rewrite H end);
      reflexivity.
Qed.

(** What an authorization_only record holds as signature: the
    [signature] of the inner document of the payload. *)
Lemma extract_authorization_signature (pp : JValue) (d : TransactionData) :
  extractTransactionData pp = Ok d ->
  td_format d = authorization_only ->
  td_signature d = field (field pp "payload") "signature".
Proof.
  intros Hpay Hfmt.
  destruct (extract_ok_object _ _ Hpay) as [Hpp _].
  unfold extractTransactionData in Hpay.
  rewrite (member_truthy _ "payload" Hpp) in Hpay. cbn [rbind] in Hpay.
  repeat match type of Hpay with
         | (if ?c then _ else _) = _ => destruct c; try discriminate Hpay
         end;
    inversion Hpay; subst d; cbn in Hfmt; try discriminate; reflexivity.
Qed.

(** C7: settling an authorization_only payload never broadcasts.  On a
    supported network the handler looks the [signature] of the payload up
    once.  A transaction found without execution error is answered with
    status 200 and [success: true], that signature as [transaction],
    [confirmationStatus: 'confirmed'], and the slot, block time and fee of
    the transaction found; an absent one is answered with status 400,
    [success: false] and the reason that the transaction was not found; one
    found with an execution error with status 400 and that error. *)
Theorem settle_authorization_only
        (fuel : nat) (req_body : JValue) (d : TransactionData) (st : St World) :
  extractTransactionData (field req_body "paymentPayload") = Ok d ->
  td_format d = authorization_only ->
  (exists new,
      trace (snd (settle_ fuel req_body st)) = (new ++ trace st)%list
      /\ forallb (fun e => negb (is_broadcast e)) new = true)
  /\ (forall n,
         settle_request req_body n d ->
         let signature :=
           field (field (field req_body "paymentPayload") "payload") "signature" in
         let look := rpc_getTransaction L n signature (world st) in
         let after :=
           mkSt (snd look) (EvGetTransaction n signature (fst look) :: trace st) in
         (forall found,
             fst look = Ok (Some found) ->
             truthy (err_of found) = false ->
             exists r,
               settle_ fuel req_body st = (Returns r, after)
               /\ status r = 200
               /\ field (body r) "success" = JBool true
               /\ field (body r) "transaction" = signature
               /\ field (body r) "confirmationStatus" = JStr "confirmed"
               /\ field (body r) "slot" = JNum (tr_slot found)
               /\ field (body r) "blockTime"
                  = match tr_blockTime found with
                    | Some t => JNum t
                    | None => JNull
                    end
               /\ field (body r) "fees"
                  = match tr_meta found with
                    | Some m => JNum (meta_fee m)
                    | None => JUndefined
                    end)
         /\ (fst look = Ok None ->
             exists r,
               settle_ fuel req_body st = (Returns r, after)
               /\ settle_fails_with r
                    "Failed to verify existing transaction: Transaction not found on blockchain")
         /\ (forall found,
                fst look = Ok (Some found) ->
                truthy (err_of found) = true ->
                exists r,
                  settle_ fuel req_body st = (Returns r, after)
                  /\ settle_fails_with r
                       ("Failed to verify existing transaction: Transaction failed: "
                          ++ JSON_stringify lib (err_of found)))).
Proof.
  intros Hpay Hf.
  destruct (settle_authorization_steps fuel req_body d st Hpay Hf) as [Hquiet Hsteps].
  split; [exact Hquiet |].
  intros n Hgates signature look after. subst signature look after.
  rewrite <- (extract_authorization_signature _ _ Hpay Hf).
  destruct (Hsteps n Hgates) as (Hfound & Habsent & Hfailed).
  repeat split.
  - intros found Hlook Herr.
    eexists. split; [exact (Hfound found Hlook Herr) |].
    repeat split.
  - intros Hlook. eexists. split; [exact (Habsent Hlook) |]. repeat split.
  - intros found Hlook Herr.
    eexists. split; [exact (Hfailed found Hlook Herr) |]. repeat split.
Qed.

(** C5, as the code has it: when the broadcast went through and the
    returned record is not confirmed, the settle response is the failure
    response, status 400, whose reason names the timeout and the last
    status; its [transaction] and [payer] fields are null.  The signature
    the broadcast returned stays in the record of
    [settleSolanaTransaction]. *)
Theorem settle_unconfirmed_response
        (fuel : nat) (req_body : JValue) (n : Network) (d : TransactionData)
        (st st' : St World) (receipt : Receipt) :
  settle_request req_body n d ->
  td_format d <> authorization_only ->
  settleSolanaTransaction_ fuel (Conn n) (embedded_transaction d) settle_options st
  = (Returns receipt, st') ->
  r_confirmed receipt = false ->
  let response :=
    settle_failed (not_confirmed_message d (r_confirmationStatus receipt))
                  (field (field req_body "paymentPayload") "network") in
  settle_ fuel req_body st = (Returns response, st')
  /\ status response = 400
  /\ field (body response) "transaction" = JNull
  /\ field (body response) "payer" = JNull
  /\ exists raw signature,
      In (EvBroadcast n raw (mkSendOptions false 3) (Ok signature)) (trace st')
      /\ r_signature receipt = JStr signature.
Proof.
  intros Hgates Hf Hrun Hconf response. subst response.
  split; [| repeat split].
  - rewrite (settle_after_gates _ _ _ _ _ Hgates).
    unfold settle_result, embedded_transaction, not_confirmed_message in *.
    destruct (td_format d) eqn:Hfmt; try congruence.
    + unfold bind. rewrite Hrun, Hconf. reflexivity.
    + rewrite (extract_embedded_truthy _ _ (sr_payload _ _ _ Hgates) (or_introl Hfmt)).
      cbn [negb]. unfold bind. rewrite Hrun, Hconf. reflexivity.
    + rewrite (extract_embedded_truthy _ _ (sr_payload _ _ _ Hgates) (or_intror Hfmt)).
      cbn [negb]. unfold bind. rewrite Hrun, Hconf. reflexivity.
  - destruct (settlement_returns _ _ _ _ _ _ _ Hrun)
      as (raw & signature & startTime & chron & Htrace & Hsig & _).
    exists raw, signature. split; [| exact Hsig].
    rewrite Htrace. apply in_or_app. right. right. left. reflexivity.
Qed.

(** C9, where the code departs from it: a settle request whose body has
    no [paymentPayload] makes the handler throw out of its own [catch]
    block, which reads [paymentPayload.network] again; the verify handler
    answers the same body with a 400 response. *)
Theorem settle_without_payload_throws (fuel : nat) (st : St World) :
  settle_ fuel (JObj []) st
  = (Throws "Cannot read properties of undefined (reading 'network')", st)
  /\ settle_ fuel (JObj [("paymentPayload", JNull)]) st
     = (Throws "Cannot read properties of null (reading 'network')", st)
  /\ verify_ (JObj []) st
     = (Returns (reject "Missing paymentPayload or paymentRequirements"), st).
Proof. repeat split. Qed.

(** *** Errors stay inside the handlers *)

(** A computation that never runs out of fuel and whose result, when it
    returns one, satisfies [P]. *)
Definition answers_with {A} (P : A -> Prop) (m : M World A) : Prop :=
  forall st,
    match fst (m st) with
    | Returns a => P a
    | Throws _ => True
    | OutOfFuel => False
    end.

Lemma answers_ret {A} (P : A -> Prop) (a : A) : P a -> answers_with P (ret a).
Proof. intros H st. exact H. Qed.

Lemma answers_throw {A} (P : A -> Prop) (e : Error) : answers_with P (@throw World A e).
Proof. intros st. exact I. Qed.

Lemma answers_lift {A} (r : Result A) : answers_with (fun _ => True) (@lift World A r).
Proof. intros st. destruct r; exact I. Qed.

Lemma answers_bind {A B} (Q : A -> Prop) (P : B -> Prop)
      (m : M World A) (k : A -> M World B) :
  answers_with Q m -> (forall a, Q a -> answers_with P (k a)) ->
  answers_with P (bind m k).
Proof.
  intros Hm Hk st. unfold bind. specialize (Hm st).
  destruct (m st) as [[a|e|] st1]; cbn [fst] in *; auto.
  apply (Hk a Hm st1).
Qed.

Lemma answers_try_catch {A} (P : A -> Prop) (m : M World A) (handler : Error -> M World A) :
  answers_with P m -> (forall e, answers_with P (handler e)) ->
  answers_with P (try_catch m handler).
Proof.
  intros Hm Hh st. unfold try_catch. specialize (Hm st).
  destruct (m st) as [[a|e|] st1]; cbn [fst] in *; auto.
  apply (Hh e st1).
Qed.

Lemma answers_simulate (c : Connection) (tx : Transaction) :
  answers_with (fun _ => True) (simulateTransaction L c tx).
Proof.
  intros st. destruct c; cbn; [| exact I]. unfold await.
  destruct (rpc_simulateTransaction L n tx (world st)) as [[|] w]; exact I.
Qed.

Lemma answers_getTransaction (c : Connection) (sig : JValue) :
  answers_with (fun _ => True) (getTransaction L c sig).
Proof.
  intros st. destruct c; cbn; [| exact I]. unfold await.
  destruct (rpc_getTransaction L n sig (world st)) as [[|] w]; exact I.
Qed.

(** The responses of the verify handler. *)
Definition rejection (r : Response) : Prop := exists reason, r = reject reason.

Definition verdict (r : Response) : Prop :=
  rejection r \/ exists d paymentPayload, r = accept_ d paymentPayload.

Lemma verify_checks_answers (c : Connection) (d : TransactionData) :
  answers_with (fun early => forall r, early = Some r -> rejection r)
               (verify_checks_ c d).
Proof.
  unfold verify_checks, rejection.
  repeat first
    [ apply answers_throw
    | apply answers_lift | apply answers_simulate | apply answers_getTransaction
    | apply answers_ret;
      first [ exact I
            | intros ? Heq; inversion Heq; eexists; reflexivity
            | intros ? Heq; discriminate Heq ]
    | apply answers_try_catch
    | eapply (answers_bind (fun _ => True))
    | match goal with
      | |- forall _, _ => intro
      | |- answers_with _ (if ?b then _ else _) => destruct b
      | |- answers_with _ (match ?x with _ => _ end) => destruct x
      end ].
Qed.

Ltac answers_steps :=
  repeat first
    [ apply answers_throw
    | apply answers_lift | apply answers_simulate | apply answers_getTransaction
    | apply answers_ret;
      first [ exact I
            | left; eexists; reflexivity
            | right; eexists _, _; reflexivity
            | match goal with
              | H : forall r, Some _ = Some r -> _ |- _ => left; apply H; reflexivity
              end
            | intros ? Heq; inversion Heq; eexists; reflexivity
            | intros ? Heq; discriminate Heq ]
    | apply answers_try_catch
    | eapply answers_bind; [ apply verify_checks_answers | ]
    | eapply (answers_bind (fun _ => True))
    | match goal with
      | |- forall _, _ => intro
      | |- answers_with _ (if ?b then _ else _) => destruct b
      | |- answers_with _ (match ?x with _ => _ end) => destruct x
      end ].


(** A settle request that does carry a [paymentPayload] never throws:
    every failure becomes the 400 response. *)
Lemma settle_never_throws_with_payload (fuel : nat) (req_body : JValue) (st : St World) :
  req_body <> JUndefined -> req_body <> JNull ->
  field req_body "paymentPayload" <> JUndefined ->
  field req_body "paymentPayload" <> JNull ->
  match fst (settle_ fuel req_body st) with
  | Returns r =>
      (status r = 200 /\ field (body r) "success" = JBool true)
      \/ (status r = 400 /\ exists message network, r = settle_failed message network)
  | Throws _ => False
  | OutOfFuel => True
  end.
Proof.
  intros Hu Hn Hpu Hpn.
  assert (Hd : forall k, destructure req_body k = Ok (field req_body k))
    by (destruct req_body; try reflexivity; congruence).
  assert (Hm : member (field req_body "paymentPayload") "network"
               = Ok (field (field req_body "paymentPayload") "network"))
    by (destruct (field req_body "paymentPayload"); try reflexivity; congruence).
  unfold settle. rewrite !Hd. unfold bind at 1 2. cbn [lift ret].
  match goal with
  | |- context [try_catch ?m ?h st] =>
      assert (Hbody : match fst (m st) with
                      | Returns r => status r = 200 /\ field (body r) "success" = JBool true
                      | _ => True
                      end);
        [| unfold try_catch at 1; destruct (m st) as [[r|e|] st1] ]
  end; cbn [fst] in *.
  { unfold bind, lift, ret, throw. rewrite Hm.
    destruct (ToString _) as [key|]; [| exact I].
    destruct (connections key) as [c|]; [| exact I].
    destruct (extractTransactionData _) as [d|]; [| exact I].
    destruct (settle_result_ fuel c d st) as [[result|e|] st1]; cbn; auto. }
  - left. exact Hbody.
  - unfold bind, lift. rewrite Hm. cbn. right. split; [reflexivity |].
    eexists _, _. reflexivity.
  - exact I.
Qed.
End HandlerProperties.

(** ** The sponsored-transaction builder *)

(** *** Signer slots of a compiled message *)

Definition signers_at (u : PublicKey) (l : list AccountMeta) : Prop :=
  forall m, In m l -> isSigner m = true -> pubkey m = u.

Definition signer_present (u : PublicKey) (l : list AccountMeta) : Prop :=
  exists m, In m l /\ pubkey m = u /\ isSigner m = true.

(** Keys are distinct and exactly one account, the one with key [u], is a
    signer. *)
Definition sole_signer (u : PublicKey) (l : list AccountMeta) : Prop :=
  NoDup (map pubkey l) /\ signers_at u l /\ signer_present u l.

Lemma PublicKey_equals_eq (a b : PublicKey) : PublicKey_equals a b = true <-> a = b.
Proof. apply String.eqb_eq. Qed.

Lemma PublicKey_equals_neq (a b : PublicKey) : PublicKey_equals a b = false <-> a <> b.
Proof. apply String.eqb_neq. Qed.

Lemma PublicKey_equals_refl (a : PublicKey) : PublicKey_equals a a = true.
Proof. apply String.eqb_refl. Qed.

Lemma merge_meta_keys (acc : list AccountMeta) (m : AccountMeta) :
  map pubkey (merge_meta acc m) = map pubkey acc
  \/ (~ In (pubkey m) (map pubkey acc)
      /\ map pubkey (merge_meta acc m) = (map pubkey acc ++ [pubkey m])%list).
Proof.
  induction acc as [| x rest IH]; cbn [merge_meta map].
  - right. split; [intros [] | reflexivity].
  - destruct (PublicKey_equals (pubkey x) (pubkey m)) eqn:E; cbn [map pubkey].
    + left. reflexivity.
    + apply PublicKey_equals_neq in E.
      destruct IH as [IH | [Hnot IH]].
      * left. rewrite IH. reflexivity.
      * right. split.
        -- intros [H | H]; [congruence | contradiction].
        -- rewrite IH. reflexivity.
Qed.

Lemma merge_meta_nodup (acc : list AccountMeta) (m : AccountMeta) :
  NoDup (map pubkey acc) -> NoDup (map pubkey (merge_meta acc m)).
Proof.
  intros H. destruct (merge_meta_keys acc m) as [E | [Hnot E]]; rewrite E; [exact H |].
  apply (Permutation_NoDup (l := pubkey m :: map pubkey acc)).
  - apply Permutation_cons_append.
  - constructor; assumption.
Qed.

Lemma merge_meta_in (x : AccountMeta) (acc : list AccountMeta) (m : AccountMeta) :
  In x (merge_meta acc m) ->
  In x acc \/ x = m
  \/ exists y, In y acc /\ pubkey y = pubkey m
               /\ x = mkMeta (pubkey y) (isSigner y || isSigner m)
                             (isWritable y || isWritable m).
Proof.
  induction acc as [| a rest IH]; cbn [merge_meta].
  - intros [H | []]. right. left. symmetry. exact H.
  - destruct (PublicKey_equals (pubkey a) (pubkey m)) eqn:E.
    + apply PublicKey_equals_eq in E.
      intros [H | H].
      * right. right. exists a. split; [left; reflexivity |]. split; [exact E |].
        symmetry. exact H.
      * left. right. exact H.
    + intros [H | H].
      * left. left. exact H.
      * destruct (IH H) as [H1 | [H1 | (y & Hy & Hk & Hx)]].
        -- left. right. exact H1.
        -- right. left. exact H1.
        -- right. right. exists y. split; [right; exact Hy | split; assumption].
Qed.

Lemma merge_meta_signers_at (u : PublicKey) (acc : list AccountMeta) (m : AccountMeta) :
  signers_at u acc -> (isSigner m = true -> pubkey m = u) ->
  signers_at u (merge_meta acc m).
Proof.
  intros Hacc Hm x Hx Hs.
  destruct (merge_meta_in x acc m Hx) as [H | [H | (y & Hy & Hk & Hxy)]].
  - apply Hacc; assumption.
  - subst x. apply Hm, Hs.
  - subst x. cbn in *. apply orb_prop in Hs. destruct Hs as [Hs | Hs].
    + apply Hacc; assumption.
    + rewrite Hk. apply Hm, Hs.
Qed.

Lemma merge_meta_present (u : PublicKey) (acc : list AccountMeta) (m : AccountMeta) :
  signer_present u acc \/ (pubkey m = u /\ isSigner m = true) ->
  signer_present u (merge_meta acc m).
Proof.
  induction acc as [| a rest IH]; cbn [merge_meta]; intros H.
  - destruct H as [(y & [] & _) | [Hk Hs]]. exists m. split; [left; reflexivity | auto].
  - destruct (PublicKey_equals (pubkey a) (pubkey m)) eqn:E.
    + apply PublicKey_equals_eq in E.
      destruct H as [(y & [Hy | Hy] & Hk & Hs) | [Hk Hs]].
      * subst y. eexists. split; [left; reflexivity |]. cbn. rewrite Hs. auto.
      * exists y. split; [right; exact Hy | auto].
      * eexists. split; [left; reflexivity |]. cbn. rewrite Hs, orb_true_r.
        split; congruence.
    + destruct H as [(y & [Hy | Hy] & Hk & Hs) | [Hk Hs]].
      * subst y. exists a. split; [left; reflexivity | auto].
      * destruct (IH (or_introl (ex_intro _ y (conj Hy (conj Hk Hs)))))
          as (z & Hz & Hzk & Hzs).
        exists z. split; [right; exact Hz | auto].
      * destruct (IH (or_intror (conj Hk Hs))) as (z & Hz & Hzk & Hzs).
        exists z. split; [right; exact Hz | auto].
Qed.

Lemma fold_merge_sole_signer (u : PublicKey) :
  forall l acc,
    NoDup (map pubkey acc) -> signers_at u acc ->
    (forall m, In m l -> isSigner m = true -> pubkey m = u) ->
    signer_present u acc \/ (exists m, In m l /\ pubkey m = u /\ isSigner m = true) ->
    sole_signer u (fold_left merge_meta l acc).
Proof.
  induction l as [| a l IH]; intros acc Hnd Hat Hl Hp; cbn [fold_left].
  - destruct Hp as [Hp | (m & [] & _)]. split; [exact Hnd | split; assumption].
  - apply IH.
    + apply merge_meta_nodup, Hnd.
    + apply merge_meta_signers_at; [exact Hat |]. apply Hl. left. reflexivity.
    + intros m Hm. apply Hl. right. exact Hm.
    + destruct Hp as [Hp | (m & [Hm | Hm] & Hk & Hs)].
      * left. apply merge_meta_present. left. exact Hp.
      * subst m. left. apply merge_meta_present. right. split; assumption.
      * right. exists m. split; [exact Hm | split; assumption].
Qed.

Lemma sole_signer_perm (u : PublicKey) (l l' : list AccountMeta) :
  Permutation l l' -> sole_signer u l -> sole_signer u l'.
Proof.
  intros Hp (Hnd & Hat & (m & Hm & Hk & Hs)). split; [| split].
  - apply (Permutation_NoDup (l := map pubkey l)); [apply Permutation_map, Hp | exact Hnd].
  - intros x Hx. apply Hat. apply (Permutation_in x (Permutation_sym Hp) Hx).
  - exists m. split; [apply (Permutation_in m Hp Hm) | auto].
Qed.

Lemma filter_none {A} (f : A -> bool) (l : list A) :
  (forall x, In x l -> f x = false) -> filter f l = [].
Proof.
  induction l as [| a l IH]; intros H; [reflexivity |].
  cbn. rewrite (H a (or_introl eq_refl)). apply IH. intros x Hx. apply H. right. exact Hx.
Qed.

Lemma sole_signer_filter (u : PublicKey) (l : list AccountMeta) :
  sole_signer u l -> map pubkey (filter isSigner l) = [u].
Proof.
  induction l as [| a l IH]; intros (Hnd & Hat & (m & Hm & Hk & Hs)).
  - destruct Hm.
  - cbn [map] in Hnd. apply NoDup_cons_iff in Hnd. destruct Hnd as [Hnotin Hnd].
    cbn [filter]. destruct (isSigner a) eqn:Ha.
    + assert (Hau : pubkey a = u) by (apply Hat; [left; reflexivity | exact Ha]).
      rewrite filter_none; [cbn; rewrite Hau; reflexivity |].
      intros x Hx. destruct (isSigner x) eqn:Hxs; [| reflexivity].
      exfalso. apply Hnotin. rewrite Hau.
      rewrite <- (Hat x (or_intror Hx) Hxs). apply in_map. exact Hx.
    + apply IH. split; [exact Hnd | split].
      * intros x Hx. apply Hat. right. exact Hx.
      * destruct Hm as [Hm | Hm]; [subst m; congruence |].
        exists m. split; [exact Hm | auto].
Qed.

Lemma remove_key_in (k : PublicKey) (x : AccountMeta) (l : list AccountMeta) :
  In x (remove_key k l) -> In x l.
Proof.
  induction l as [| a l IH]; cbn [remove_key]; [auto |].
  destruct (PublicKey_equals (pubkey a) k); intros H.
  - right. exact H.
  - destruct H as [H | H]; [left; exact H | right; apply IH, H].
Qed.

Lemma remove_key_keeps (k : PublicKey) (x : AccountMeta) (l : list AccountMeta) :
  In x l -> pubkey x <> k -> In x (remove_key k l).
Proof.
  induction l as [| a l IH]; cbn [remove_key]; [auto |].
  intros [H | H] Hk.
  - subst a. apply PublicKey_equals_neq in Hk. rewrite Hk. left. reflexivity.
  - destruct (PublicKey_equals (pubkey a) k); [exact H | right; apply IH; assumption].
Qed.

Lemma remove_key_nodup (k : PublicKey) (l : list AccountMeta) :
  NoDup (map pubkey l) -> NoDup (map pubkey (remove_key k l)).
Proof.
  induction l as [| a l IH]; cbn [remove_key map]; [auto |].
  intros H. apply NoDup_cons_iff in H. destruct H as [Hnotin Hnd].
  destruct (PublicKey_equals (pubkey a) k); [exact Hnd |].
  cbn [map]. constructor; [| apply IH, Hnd].
  intros Hin. apply Hnotin. apply in_map_iff in Hin. destruct Hin as (x & Hx & Hin).
  rewrite <- Hx. apply in_map. apply (remove_key_in k x l Hin).
Qed.

Lemma remove_key_gone (k : PublicKey) (x : AccountMeta) (l : list AccountMeta) :
  NoDup (map pubkey l) -> In x (remove_key k l) -> pubkey x <> k.
Proof.
  induction l as [| a l IH]; cbn [remove_key map]; [intros _ [] |].
  intros H. apply NoDup_cons_iff in H. destruct H as [Hnotin Hnd].
  destruct (PublicKey_equals (pubkey a) k) eqn:E.
  - apply PublicKey_equals_eq in E. intros Hin Hk. apply Hnotin.
    rewrite E, <- Hk. apply in_map. exact Hin.
  - apply PublicKey_equals_neq in E. intros [Hin | Hin]; [subst x; exact E | auto].
Qed.

Lemma mark_signer_fixed (pk : PublicKey) (l : list AccountMeta) :
  (forall x, In x l -> pubkey x = pk -> isSigner x = true) ->
  (exists x, In x l /\ pubkey x = pk) ->
  mark_signer pk l = Some l.
Proof.
  induction l as [| a l IH]; intros Hs (x & Hx & Hk); [destruct Hx |].
  cbn [mark_signer]. destruct (PublicKey_equals (pubkey a) pk) eqn:E.
  - apply PublicKey_equals_eq in E.
    rewrite <- (Hs a (or_introl eq_refl) E). destruct a; reflexivity.
  - apply PublicKey_equals_neq in E.
    destruct Hx as [Hx | Hx]; [subst x; contradiction |].
    rewrite IH; [reflexivity | |].
    + intros y Hy. apply Hs. right. exact Hy.
    + exists x. split; assumption.
Qed.

Lemma known_signers_fixed (sigs : list SignaturePubkeyPair) (metas : list AccountMeta) :
  (forall s, In s sigs -> mark_signer (sp_publicKey s) metas = Some metas) ->
  known_signers sigs metas = Ok metas.
Proof.
  induction sigs as [| s sigs IH]; intros H; cbn [known_signers]; [reflexivity |].
  rewrite (H s (or_introl eq_refl)). apply IH. intros s' Hs'. apply H. right. exact Hs'.
Qed.

Lemma nodup_key_inj (l : list AccountMeta) (x y : AccountMeta) :
  NoDup (map pubkey l) -> In x l -> In y l -> pubkey x = pubkey y -> x = y.
Proof.
  induction l as [| a l IH]; intros Hnd Hx Hy Hk; [destruct Hx |].
  cbn [map] in Hnd. apply NoDup_cons_iff in Hnd. destruct Hnd as [Hnotin Hnd].
  destruct Hx as [Hx | Hx], Hy as [Hy | Hy].
  - congruence.
  - subst a. exfalso. apply Hnotin. rewrite Hk. apply in_map, Hy.
  - subst a. exfalso. apply Hnotin. rewrite <- Hk. apply in_map, Hx.
  - apply IH; assumption.
Qed.

(** What the builder needs of a request to get as far as signing: keys
    that parse, token accounts that derive, and an amount that converts and
    that a u64 holds. *)
Record build_inputs (lib : Lib) (userPublicKey paymentRequirements : JValue)
       (user mint payTo source destination : PublicKey) (amount : Z) : Prop := {
  bi_user : PublicKey_new lib userPublicKey = Ok user;
  bi_mint : PublicKey_new lib (field paymentRequirements "asset") = Ok mint;
  bi_payTo : PublicKey_new lib (field paymentRequirements "payTo") = Ok payTo;
  bi_source : getAssociatedTokenAddress lib mint user = Ok source;
  bi_destination : getAssociatedTokenAddress lib mint payTo = Ok destination;
  bi_amount : BigInt lib (field paymentRequirements "maxAmountRequired") = Ok amount;
  bi_range : 0 <= amount < 2 ^ 64
}.

Section BuilderProperties.
Context {World : Type}.
Variable lib : Lib.
Variable L : Ledger World.
Variable facilitatorKeypair : Keypair.

Local Abbreviation facilitator := (publicKey facilitatorKeypair).

Lemma insert_meta_perm (m : AccountMeta) (l : list AccountMeta) :
  Permutation (insert_meta lib m l) (m :: l).
Proof.
  induction l as [| a l IH]; cbn [insert_meta]; [reflexivity |].
  destruct (meta_leb lib a m); [| reflexivity].
  rewrite IH. apply perm_swap.
Qed.

Lemma sort_metas_perm (l : list AccountMeta) : Permutation (sort_metas lib l) l.
Proof.
  unfold sort_metas.
  assert (H : forall acc,
             Permutation (fold_left (fun sorted m => insert_meta lib m sorted) l acc)
                         (l ++ acc)).
  { induction l as [| a l IH]; intros acc; cbn [fold_left app]; [reflexivity |].
    rewrite IH, insert_meta_perm. symmetry. apply Permutation_middle. }
  rewrite (H []), app_nil_r. reflexivity.
Qed.

Section Transfer.
Variables source destination user : PublicKey.
Variable amount : Z.
Variable blockhash : Blockhash.

Let transfer : TransactionInstruction :=
  transfer_instruction source destination user amount TOKEN_PROGRAM_ID.

(** The accounts of the one-instruction transaction as [compileMessage]
    orders them, and its message. *)
Definition transfer_metas : list AccountMeta :=
  fee_payer_first facilitator (sort_metas lib (uniqueMetas (accountMetas [transfer]))).

Definition transfer_message : Message :=
  build_message transfer_metas blockhash [transfer].

Lemma sorted_transfer_sole_signer :
  sole_signer user (sort_metas lib (uniqueMetas (accountMetas [transfer]))).
Proof.
  apply (sole_signer_perm user _ _ (Permutation_sym (sort_metas_perm _))).
  unfold uniqueMetas. apply fold_merge_sole_signer.
  - constructor.
  - intros m [].
  - cbn. intros m [H | [H | [H | [H | []]]]]; subst m; cbn; intros; congruence.
  - right. exists (mkMeta user true false). cbn. auto.
Qed.

Lemma transfer_signed_keys :
  map pubkey (signed_metas transfer_metas)
  = facilitator :: (if PublicKey_equals user facilitator then [] else [user]).
Proof.
  destruct sorted_transfer_sole_signer as (Hnd & Hat & (m & Hm & Hk & Hs)).
  unfold transfer_metas, fee_payer_first, signed_metas. cbn [filter isSigner map pubkey].
  f_equal.
  destruct (PublicKey_equals user facilitator) eqn:E.
  - apply PublicKey_equals_eq in E.
    rewrite filter_none; [reflexivity |].
    intros x Hx. destruct (isSigner x) eqn:Hxs; [| reflexivity].
    exfalso. apply (remove_key_gone _ _ _ Hnd Hx).
    rewrite <- E. apply Hat; [apply (remove_key_in _ _ _ Hx) | exact Hxs].
  - apply PublicKey_equals_neq in E.
    apply sole_signer_filter. split; [apply remove_key_nodup, Hnd | split].
    + intros x Hx. apply Hat. apply (remove_key_in _ _ _ Hx).
    + exists m. split; [apply remove_key_keeps; congruence | auto].
Qed.

Lemma transfer_marks (pk : PublicKey) :
  pk = facilitator \/ pk = user -> mark_signer pk transfer_metas = Some transfer_metas.
Proof.
  intros Hpk.
  destruct sorted_transfer_sole_signer as (Hnd & Hat & (m & Hm & Hk & Hs)).
  unfold transfer_metas, fee_payer_first. cbn [mark_signer pubkey isWritable].
  destruct (PublicKey_equals facilitator pk) eqn:E; [reflexivity |].
  apply PublicKey_equals_neq in E.
  destruct Hpk as [Hpk | Hpk]; [congruence | subst pk].
  rewrite mark_signer_fixed; [reflexivity | |].
  - intros x Hx Hxk.
    rewrite (nodup_key_inj _ x m Hnd (remove_key_in _ _ _ Hx) Hm); congruence.
  - exists m. split; [apply remove_key_keeps; congruence | exact Hk].
Qed.

Lemma compileMessage_transfer (sigs : list SignaturePubkeyPair) :
  (forall s, In s sigs -> sp_publicKey s = facilitator \/ sp_publicKey s = user) ->
  compileMessage lib (mkTransaction sigs (Some facilitator) [transfer] (Some blockhash) None)
  = Ok transfer_message.
Proof.
  intros Hsigs. unfold compileMessage.
  cbn [cached recentBlockhash feePayer signatures instructions rbind].
  fold transfer_metas.
  rewrite known_signers_fixed; [reflexivity |].
  intros s Hs. apply transfer_marks, Hsigs, Hs.
Qed.

Lemma transfer_required_signers :
  firstn (numRequiredSignatures transfer_message) (accountKeys transfer_message)
  = facilitator :: (if PublicKey_equals user facilitator then [] else [user]).
Proof.
  unfold transfer_message, build_message.
  cbn [numRequiredSignatures accountKeys].
  rewrite <- transfer_signed_keys.
  rewrite <- (length_map pubkey (signed_metas transfer_metas)).
  rewrite firstn_app, Nat.sub_diag, firstn_all. cbn [firstn]. apply app_nil_r.
Qed.

Let facilitator_signature : SigBytes :=
  nacl_sign lib transfer_message (secretKey facilitatorKeypair).

(** What [partialSign(facilitatorKeypair)] makes of the transaction the
    builder has assembled, with the payer's empty slot pushed. *)
Lemma partialSign_transfer :
  partialSign lib
    (mkTransaction [mkSigPair None user] (Some facilitator) [transfer]
                   (Some blockhash) None)
    facilitatorKeypair
  = Ok (mkTransaction
          (mkSigPair (Some facilitator_signature) facilitator
             :: (if PublicKey_equals user facilitator then []
                 else [mkSigPair None user]))
          (Some facilitator) [transfer] (Some blockhash) None).
Proof.
  unfold partialSign, compile.
  rewrite compileMessage_transfer
    by (intros s [H | []]; subst s; right; reflexivity).
  cbn [rbind]. rewrite transfer_required_signers.
  destruct (PublicKey_equals user facilitator) eqn:E.
  - apply PublicKey_equals_eq in E.
    cbn [same_keys sp_publicKey signatures]. rewrite E, PublicKey_equals_refl.
    cbn [andb rbind signatures addSignature sp_publicKey].
    rewrite PublicKey_equals_refl. reflexivity.
  - cbn [same_keys sp_publicKey signatures]. rewrite andb_false_r.
    cbn [map rbind signatures addSignature sp_publicKey].
    rewrite PublicKey_equals_refl. reflexivity.
Qed.

(** Serialising the partially signed transaction, given that the
    facilitator's signature verifies. *)
Lemma serialize_transfer (requireAllSignatures : bool) :
  nacl_verify lib facilitator_signature transfer_message facilitator = true ->
  serialize lib requireAllSignatures
    (mkTransaction
       (mkSigPair (Some facilitator_signature) facilitator
          :: (if PublicKey_equals user facilitator then []
              else [mkSigPair None user]))
       (Some facilitator) [transfer] (Some blockhash) None)
  = if PublicKey_equals user facilitator
    then Ok (mkWire [Some facilitator_signature] transfer_message)
    else if requireAllSignatures then Throw "Signature verification failed."
         else Ok (mkWire [Some facilitator_signature; None] transfer_message).
Proof.
  intros Hverify. unfold serialize, compile.
  rewrite compileMessage_transfer.
  2: { intros s Hs. destruct (PublicKey_equals user facilitator);
       [destruct Hs as [Hs | []] | destruct Hs as [Hs | [Hs | []]]];
       subst s; cbn; auto. }
  cbn [rbind]. rewrite transfer_required_signers.
  destruct (PublicKey_equals user facilitator) eqn:E;
    cbn [same_keys sp_publicKey signatures];
    rewrite !PublicKey_equals_refl;
    cbn [andb rbind signatures]; unfold signature_ok;
    cbn [forallb sp_signature sp_publicKey map];
    rewrite Hverify; cbn [andb negb].
  - reflexivity.
  - destruct requireAllSignatures; reflexivity.
Qed.
End Transfer.

(** *** What the builder returns *)

Definition facilitator_signs (source destination user : PublicKey) (amount : Z)
           (blockhash : Blockhash) : SigBytes :=
  nacl_sign lib (transfer_message source destination user amount blockhash)
            (secretKey facilitatorKeypair).

(** The signature slots after [partialSign]: the facilitator's, signed,
    and the payer's, empty, unless the payer is the facilitator. *)
Definition built_signatures (source destination user : PublicKey) (amount : Z)
           (blockhash : Blockhash) : list SignaturePubkeyPair :=
  mkSigPair (Some (facilitator_signs source destination user amount blockhash)) facilitator
    :: (if PublicKey_equals user facilitator then [] else [mkSigPair None user]).

Definition built_transaction (source destination user : PublicKey) (amount : Z)
           (blockhash : Blockhash) : Transaction :=
  mkTransaction (built_signatures source destination user amount blockhash)
                (Some facilitator)
                [transfer_instruction source destination user amount TOKEN_PROGRAM_ID]
                (Some blockhash) None.

Lemma createFacilitatorPaidTransaction_builds
      (n : Network) (userPublicKey paymentRequirements : JValue)
      (user mint payTo source destination : PublicKey) (amount : Z)
      (blockhash : Blockhash) (st : St World) (w1 : World) :
  build_inputs lib userPublicKey paymentRequirements user mint payTo source destination
               amount ->
  rpc_getLatestBlockhash L n (world st) = (Ok blockhash, w1) ->
  createFacilitatorPaidTransaction lib L facilitatorKeypair (Conn n)
                                   userPublicKey paymentRequirements st
  = (Returns (built_transaction source destination user amount blockhash),
     mkSt w1 (EvLatestBlockhash n (Ok blockhash) :: trace st)).
Proof.
  intros [Huser Hmint HpayTo Hsrc Hdst Hamount [Hlow Hhigh]] Hbh.
  assert (Hencode : forall owner,
             createTransferInstruction source destination owner amount TOKEN_PROGRAM_ID
             = Ok (transfer_instruction source destination owner amount TOKEN_PROGRAM_ID)).
  { intros owner. unfold createTransferInstruction, u64_encode.
    destruct (Z.ltb_spec amount 0); [lia |].
    destruct (Z.ltb_spec amount (2 ^ 64)); [reflexivity | lia]. }
  unfold createFacilitatorPaidTransaction.
  unfold bind at 1. cbn [getLatestBlockhash]. unfold await. rewrite Hbh. cbn [lift ret].
  rewrite Hmint, Huser, HpayTo, Hamount.
  unfold bind, lift, ret. rewrite Hsrc, Hdst, Hencode.
  cbn [new_Transaction Transaction_add signatures feePayer instructions recentBlockhash
                       cached existsb app].
  rewrite partialSign_transfer. reflexivity.
Qed.

Definition build_response (wire : WireTransaction) (blockhash : Blockhash) : Response :=
  mkResponse 200
    (JObj [("success", JBool true);
           ("transaction", JStr (base64_of_wire lib wire));
           ("facilitatorPublicKey", JStr facilitator);
           ("message", JStr "Transaction created with facilitator as fee payer. User needs to sign for token transfer authority.");
           ("blockhash", JStr blockhash);
           ("feePaidBy", JStr "facilitator")]).

Lemma create_sponsored_transaction_responds
      (n : Network) (req_body : JValue)
      (user mint payTo source destination : PublicKey) (amount : Z)
      (blockhash : Blockhash) (st : St World) (w1 : World) :
  let userPublicKey := field req_body "userPublicKey" in
  let paymentRequirements := field req_body "paymentRequirements" in
  let message := transfer_message source destination user amount blockhash in
  let signature := facilitator_signs source destination user amount blockhash in
  truthy userPublicKey = true ->
  truthy paymentRequirements = true ->
  ToString (field paymentRequirements "network") = Ok (network_key n) ->
  build_inputs lib userPublicKey paymentRequirements user mint payTo source destination
               amount ->
  rpc_getLatestBlockhash L n (world st) = (Ok blockhash, w1) ->
  nacl_verify lib signature message facilitator = true ->
  create_sponsored_transaction lib L facilitatorKeypair req_body st
  = (Returns
       (build_response
          (mkWire (Some signature
                     :: (if PublicKey_equals user facilitator then [] else [None]))
                  message)
          blockhash),
     mkSt w1 (EvLatestBlockhash n (Ok blockhash) :: trace st)).
Proof.
  intros userPublicKey paymentRequirements message signature
         Huser Hreq Hnet Hinputs Hbh Hverify.
  subst userPublicKey paymentRequirements message signature.
  unfold create_sponsored_transaction.
  rewrite (destructure_field req_body "userPublicKey" "userPublicKey" Huser).
  rewrite (destructure_field req_body "paymentRequirements" "userPublicKey" Huser).
  unfold bind at 1 2. cbn [lift ret]. unfold try_catch.
  rewrite Huser, Hreq. cbn [negb].
  unfold bind at 1. rewrite Hnet. cbn [lift ret].
  rewrite connections_network_key.
  unfold bind at 1.
  rewrite (createFacilitatorPaidTransaction_builds _ _ _ _ _ _ _ _ _ _ _ _ Hinputs Hbh).
  unfold bind at 1. unfold built_transaction, built_signatures, facilitator_signs.
  rewrite (serialize_transfer _ _ _ _ _ false Hverify).
  destruct (PublicKey_equals user facilitator); reflexivity.
Qed.


(** C8, where the code departs from it: when the payer key of the
    request is the facilitator's own key, and [BigInt(maxAmountRequired)]
    is an amount a u64 holds ([0 <= amount < 2^64], part of
    [build_inputs]), the one signature slot is the facilitator's and
    [partialSign] fills it, so no slot is left for a payer to sign; the
    transaction serialises with all signatures required and moves the
    amount out of the facilitator's token account. *)
Theorem sponsored_transaction_for_facilitator_as_payer
        (n : Network) (userPublicKey paymentRequirements : JValue)
        (mint payTo source destination : PublicKey) (amount : Z)
        (blockhash : Blockhash) (st : St World) (w1 : World) :
  let message := transfer_message source destination facilitator amount blockhash in
  let signature := facilitator_signs source destination facilitator amount blockhash in
  build_inputs lib userPublicKey paymentRequirements facilitator mint payTo
               source destination amount ->
  rpc_getLatestBlockhash L n (world st) = (Ok blockhash, w1) ->
  nacl_verify lib signature message facilitator = true ->
  exists tx,
    createFacilitatorPaidTransaction lib L facilitatorKeypair (Conn n)
                                     userPublicKey paymentRequirements st
    = (Returns tx, mkSt w1 (EvLatestBlockhash n (Ok blockhash) :: trace st))
    /\ instructions tx
       = [mkInstruction [mkMeta source false true; mkMeta destination false true;
                         mkMeta facilitator true false]
                        TOKEN_PROGRAM_ID (TokenTransfer amount)]
    /\ signatures tx = [mkSigPair (Some signature) facilitator]
    /\ existsb (fun s => match sp_signature s with None => true | Some _ => false end)
               (signatures tx) = false
    /\ serialize lib true tx = Ok (mkWire [Some signature] message).
Proof.
  intros message signature Hinputs Hbh Hverify.
  exists (built_transaction source destination facilitator amount blockhash).
  split; [apply (createFacilitatorPaidTransaction_builds _ _ _ _ _ _ _ _ _ _ _ _
                   Hinputs Hbh) |].
  pose proof (serialize_transfer source destination facilitator amount blockhash true
                                 Hverify) as Hall.
  unfold built_transaction, built_signatures in *. fold signature in Hall |- *.
  rewrite PublicKey_equals_refl in *.
  repeat split; assumption.
Qed.
End BuilderProperties.

(** * Concrete runs *)

Definition LIB : Lib := test_lib test_txs.
Definition KEYS : Keypair := test_keypair FACILITATOR.

Definition minimal_request : JValue :=
  request "solana-devnet" [("signature", JStr "S1"); ("transaction", JStr "c2VsZnBhaWQ=")].

Definition minimal_data : TransactionData := MinimalData (JStr "S1") (JStr "c2VsZnBhaWQ=").

(** A sponsored payload whose transaction has the user as fee payer. *)
Definition misdirected_request : JValue :=
  request "solana-devnet"
          [("userSignature", JStr "U5"); ("facilitatorTransaction", JStr "c2VsZnBhaWQ=");
           ("userPublicKey", JStr "User1")].

Definition misdirected_data : TransactionData :=
  SponsoredData (JStr "U5") (JStr "c2VsZnBhaWQ=") (JStr "User1").

Definition authorization_request : JValue :=
  request "solana-devnet"
          [("signature", JStr "S1");
           ("authorization", JObj [("from", JStr "User1"); ("to", JStr "Shop1");
                                   ("value", JStr "10000"); ("nonce", JStr "n-1")])].

Definition authorization_data : TransactionData :=
  AuthorizationData (JStr "S1") (JStr "User1") (JStr "Shop1") (JStr "10000") (JStr "n-1").

Definition build_requirements : JValue :=
  JObj [("network", JStr "solana-devnet"); ("asset", JStr "Mint1");
        ("payTo", JStr "Shop1"); ("maxAmountRequired", JStr "10000")].

Lemma build_amount_in_range : 0 <= 10000 < 2 ^ 64.
Proof. lia. Qed.

Lemma test_ledger_read_only :
  ReadOnlyLookups test_ledger (fun w => (simulation w, lookup w)).
Proof.
  constructor; intros; cbn in *; congruence.
Qed.

Lemma test_ledger_clock : ClockAdvances test_ledger.
Proof.
  constructor; intros; cbn.
  - destruct (statuses w) as [| a [| b rest]]; cbn; lia.
  - lia.
  - lia.
Qed.

Lemma sponsored_wrong_fee_payer_rejected_witness :
  verify LIB test_ledger KEYS misdirected_request (start_of quiet_world)
  = (Returns (reject "Transaction fee payer is not the facilitator"), start_of quiet_world).
Proof.
  destruct (sponsored_wrong_fee_payer_rejected
              LIB test_ledger KEYS misdirected_request misdirected_data
              (wire_tx ["User1"]) (start_of quiet_world) eq_refl eq_refl eq_refl)
    as (reason & Hrun & _ & Hreason).
  - discriminate.
  - rewrite Hrun.
    rewrite (Hreason solana_devnet "User1"
                     (Build_verify_request misdirected_request solana_devnet
                                           misdirected_data eq_refl eq_refl eq_refl)
                     eq_refl).
    reflexivity.
Defined.

Lemma verify_never_broadcasts_and_repeats_witness :
  fst (verify LIB test_ledger KEYS minimal_request
              (snd (verify LIB test_ledger KEYS minimal_request (start_of quiet_world))))
  = fst (verify LIB test_ledger KEYS minimal_request (start_of quiet_world)).
Proof.
  exact (proj2 (proj2 (verify_never_broadcasts_and_repeats
                         LIB test_ledger KEYS minimal_request (start_of quiet_world))
                      _ _ test_ledger_read_only)).
Defined.

Lemma verify_embedded_transaction_witness :
  exists r,
    verify LIB test_ledger KEYS minimal_request (start_of quiet_world)
    = (Returns r,
       mkSt (tick (tick quiet_world))
            [EvGetTransaction solana_devnet (JStr "S1") (Ok None);
             EvSimulate solana_devnet (wire_tx ["User1"]) (Ok JNull)])
    /\ accepts r.
Proof.
  destruct (verify_embedded_transaction
              LIB test_ledger KEYS minimal_request solana_devnet minimal_data
              (start_of quiet_world)
              (Build_verify_request minimal_request solana_devnet minimal_data
                                    eq_refl eq_refl eq_refl) (or_introl eq_refl))
    as [_ Hdecoded].
  destruct (Hdecoded (wire_tx ["User1"]) eq_refl) as (_ & _ & _ & Habsent).
  exact (Habsent JNull eq_refl eq_refl eq_refl).
Defined.

Lemma replay_lookup_failure_accepts_witness :
  fst (verify LIB test_ledger KEYS minimal_request (start_of unreachable_world))
  = Returns (accept KEYS minimal_data (field minimal_request "paymentPayload")).
Proof.
  destruct (replay_lookup_failure_accepts
              LIB test_ledger KEYS minimal_request solana_devnet minimal_data
              (wire_tx ["User1"]) (start_of unreachable_world) JNull "fetch failed"
              (Build_verify_request minimal_request solana_devnet minimal_data
                                    eq_refl eq_refl eq_refl) (or_introl eq_refl)
              eq_refl eq_refl eq_refl eq_refl)
    as [Hrun _].
  rewrite Hrun. reflexivity.
Defined.

Lemma settle_authorization_only_witness :
  exists r,
    settle LIB test_ledger KEYS 0 authorization_request (start_of landed_world)
    = (Returns r,
       mkSt (tick landed_world)
            [EvGetTransaction solana_devnet (JStr "S1") (Ok (Some landed))])
    /\ status r = 200
    /\ field (body r) "success" = JBool true
    /\ field (body r) "transaction" = JStr "S1"
    /\ field (body r) "confirmationStatus" = JStr "confirmed"
    /\ field (body r) "slot" = JNum 4242
    /\ field (body r) "blockTime" = JNum 1700000000
    /\ field (body r) "fees" = JNum 5000.
Proof.
  destruct (settle_authorization_only
              LIB test_ledger KEYS 0 authorization_request authorization_data
              (start_of landed_world) eq_refl eq_refl)
    as [_ Hsupported].
  destruct (Hsupported solana_devnet (Build_settle_request authorization_request solana_devnet
                                              authorization_data eq_refl eq_refl))
    as [Hfound _].
  exact (Hfound landed eq_refl eq_refl).
Defined.

Definition self_paid : JValue := JStr "c2VsZnBhaWQ=".

(** Settling against a ledger that reports the transaction confirmed, and
    failed. *)
Definition failed_on_chain_run : Outcome Receipt * St TestWorld :=
  settleSolanaTransaction LIB test_ledger 100 (Conn solana_devnet) self_paid
                          settle_options (start_of failed_on_chain_world).

(** Every poll of this run observed the status confirmed, yet the
    returned record has [confirmed = false]: the status came with an
    execution error. *)
Example failed_on_chain_record :
  exists receipt,
    fst failed_on_chain_run = Returns receipt
    /\ started_in_time 6000 30000 (rev (trace (snd failed_on_chain_run))) = true
    /\ existsb shows_terminal (polls (rev (trace (snd failed_on_chain_run)))) = true
    /\ r_confirmed receipt = false
    /\ r_confirmationStatus receipt = confirmed.
Proof.
  eexists. split; [vm_compute; reflexivity |].
  repeat split; vm_compute; reflexivity.
Qed.

Example settlement_record_run :
  (forall fuel,
      (Z.to_nat 30000 < fuel)%nat ->
      fst (settleSolanaTransaction LIB test_ledger fuel (Conn solana_devnet) self_paid
                                   settle_options (start_of confirming_world))
      <> OutOfFuel)
  /\ exists receipt st',
      settleSolanaTransaction LIB test_ledger 100 (Conn solana_devnet) self_paid
                              settle_options (start_of confirming_world)
      = (Returns receipt, st')
      /\ r_confirmed receipt = true
      /\ r_confirmationStatus receipt = finalized
      /\ r_signature receipt = JStr "5igNature".
Proof.
  pose proof (settlement_record
                LIB test_ledger solana_devnet self_paid settle_options
                (start_of confirming_world)) as [Hends Hrecord].
  split.
  - intros fuel Hfuel. apply (Hends test_ledger_clock fuel). exact Hfuel.
  - eexists _, _. split; [vm_compute; reflexivity |].
    edestruct (Hrecord 100%nat)
      as (raw & signature & startTime & chron & _ & Hsig & _ & Hiff & _);
      [vm_compute; reflexivity |].
    repeat split; reflexivity.
Qed.

Definition timed_out_run : Outcome Response * St TestWorld :=
  settle LIB test_ledger KEYS 100 minimal_request (start_of quiet_world).

(** C5 as stated fails: the broadcast answered with a signature, the poll
    timed out, and the 400 response has [transaction: null] and mentions
    the signature nowhere. *)
Lemma timeout_response_drops_signature_counterexample :
  exists response,
    fst timed_out_run = Returns response
    /\ existsb (fun e => match e with
                         | EvBroadcast _ _ _ (Ok s) => String.eqb s "5igNature"
                         | _ => false
                         end) (trace (snd timed_out_run)) = true
    /\ status response = 400
    /\ field (body response) "errorReason"
       = JStr "Settlement failed: Transaction not confirmed within timeout. Status: processed"
    /\ field (body response) "transaction" = JNull
    /\ mentions "5igNature" (body response) = false.
Proof.
  eexists. split; [vm_compute; reflexivity |].
  repeat split; vm_compute; reflexivity.
Qed.

Lemma settle_unconfirmed_response_witness :
  fst (settle LIB test_ledger KEYS 100 minimal_request (start_of quiet_world))
  = Returns (settle_failed "Transaction not confirmed within timeout. Status: processed"
                           (JStr "solana-devnet")).
Proof.
  edestruct (settle_unconfirmed_response
               LIB test_ledger KEYS 100 minimal_request solana_devnet minimal_data
               (start_of quiet_world))
    as (Hrun & _).
  - exact (Build_settle_request minimal_request solana_devnet minimal_data
                                eq_refl eq_refl).
  - discriminate.
  - vm_compute. reflexivity.
  - reflexivity.
  - rewrite Hrun. reflexivity.
Defined.

Lemma sponsored_transaction_for_facilitator_as_payer_witness :
  exists tx,
    createFacilitatorPaidTransaction LIB test_ledger KEYS (Conn solana_devnet)
                                     (JStr FACILITATOR) build_requirements
                                     (start_of quiet_world)
    = (Returns tx,
       mkSt (tick quiet_world) [EvLatestBlockhash solana_devnet (Ok "blockhash-1")])
    /\ signatures tx
       = [mkSigPair (Some "signed-with-secret-of-FaciLitator1111") FACILITATOR]
    /\ match serialize LIB true tx with
       | Ok wire => wire_signatures wire = [Some "signed-with-secret-of-FaciLitator1111"]
       | Throw _ => False
       end.
Proof.
  destruct (sponsored_transaction_for_facilitator_as_payer
              LIB test_ledger KEYS solana_devnet (JStr FACILITATOR) build_requirements
              "Mint1" "Shop1" "ata(Mint1,FaciLitator1111)" "ata(Mint1,Shop1)" 10000
              "blockhash-1" (start_of quiet_world) (tick quiet_world)
              (Build_build_inputs LIB (JStr FACILITATOR) build_requirements
                                  FACILITATOR "Mint1" "Shop1"
                                  "ata(Mint1,FaciLitator1111)" "ata(Mint1,Shop1)" 10000
                                  eq_refl eq_refl eq_refl eq_refl eq_refl eq_refl
                                  build_amount_in_range)
              eq_refl eq_refl)
    as (tx & Hrun & _ & Hsigs & _ & Hwire).
  exists tx. split; [exact Hrun |]. split; [exact Hsigs |].
  rewrite Hwire. reflexivity.
Defined.

(** The builder asked for a payer of its own: the response of the
    handler, and the two slots. *)
Example sponsored_transaction_for_other_payer_run :
  exists tx,
    fst (createFacilitatorPaidTransaction LIB test_ledger KEYS (Conn solana_devnet)
                                          (JStr "User1") build_requirements
                                          (start_of quiet_world))
    = Returns tx
    /\ signatures tx
       = [mkSigPair (Some "signed-with-secret-of-FaciLitator1111") FACILITATOR;
          mkSigPair None "User1"]
    /\ serialize LIB true tx = Throw "Signature verification failed.".
Proof. eexists. repeat split; vm_compute; reflexivity. Qed.

(** Scenario 4 of the specification. *)
Example unrecognized_payload_is_rejected :
  fst (verify LIB test_ledger KEYS (request "solana-devnet" [("foo", JStr "bar")])
              (start_of quiet_world))
  = Returns (reject "Invalid payload format: Unrecognized payload format. Available fields: foo. Expected: signature + transaction (+ optional payer, amount, etc.)").
Proof. reflexivity. Qed.


(** * Further properties of the handlers *)

(** A network key that resolves to one of the three connections is that
    connection's own name. *)
Lemma connections_conn_key (key : string) (n : Network) :
  connections key = Some (Conn n) -> key = network_key n.
Proof.
  unfold connections.
  destruct (String.eqb key "solana-devnet") eqn:E1;
    [apply String.eqb_eq in E1; intros H; inversion H; subst; reflexivity |].
  destruct (String.eqb key "solana-mainnet") eqn:E2;
    [apply String.eqb_eq in E2; intros H; inversion H; subst; reflexivity |].
  destruct (String.eqb key "solana-testnet") eqn:E3;
    [apply String.eqb_eq in E3; intros H; inversion H; subst; reflexivity |].
  destruct (existsb _ _); discriminate.
Qed.

(** No member inherited from [Object.prototype] has a name that passes the
    prefix test of the verify handler. *)
Lemma inherited_not_solana (key name : string) :
  connections key = Some (Inherited name) -> String.prefix "solana-" key = false.
Proof.
  unfold connections.
  destruct (String.eqb key "solana-devnet"); [discriminate |].
  destruct (String.eqb key "solana-mainnet"); [discriminate |].
  destruct (String.eqb key "solana-testnet"); [discriminate |].
  destruct (existsb (String.eqb key) Object_prototype_names) eqn:E; [| discriminate].
  intros _. apply existsb_exists in E. destruct E as (x & Hin & Hx).
  apply String.eqb_eq in Hx. subst x.
  cbn in Hin.
  repeat (destruct Hin as [Hin | Hin]; [subst key; reflexivity |]).
  destruct Hin.
Qed.

Definition not_broadcast (e : Event) : Prop := is_broadcast e = false.

Section MoreProperties.
Context {World : Type}.
Variable lib : Lib.
Variable L : Ledger World.
Variable facilitatorKeypair : Keypair.

Local Abbreviation verify' := (verify lib L facilitatorKeypair).
Local Abbreviation settle' := (settle lib L facilitatorKeypair).
Local Abbreviation create' := (create_sponsored_transaction lib L facilitatorKeypair).

(** *** Events a computation adds to the trace *)

Definition adds (P : Event -> Prop) {A} (m : M World A) : Prop :=
  forall st, exists new,
    trace (snd (m st)) = (new ++ trace st)%list /\ Forall P new.

Lemma adds_ret (P : Event -> Prop) {A} (a : A) : adds P (ret a).
Proof. intros st. exists []. split; [reflexivity | constructor]. Qed.

Lemma adds_throw (P : Event -> Prop) {A} (e : Error) : adds P (@throw World A e).
Proof. intros st. exists []. split; [reflexivity | constructor]. Qed.

Lemma adds_lift (P : Event -> Prop) {A} (r : Result A) : adds P (@lift World A r).
Proof. destruct r; [apply adds_ret | apply adds_throw]. Qed.

Lemma adds_bind (P : Event -> Prop) {A B} (m : M World A) (k : A -> M World B) :
  adds P m -> (forall a, adds P (k a)) -> adds P (bind m k).
Proof.
  intros Hm Hk st. unfold bind.
  destruct (Hm st) as (new1 & Htrace1 & Hp1).
  destruct (m st) as [[a|e|] st1]; cbn [snd] in *; try (exists new1; split; assumption).
  destruct (Hk a st1) as (new2 & Htrace2 & Hp2).
  exists (new2 ++ new1)%list. rewrite Htrace2, Htrace1, app_assoc.
  split; [reflexivity | apply Forall_app; split; assumption].
Qed.

Lemma adds_try_catch (P : Event -> Prop) {A} (m : M World A) (handler : Error -> M World A) :
  adds P m -> (forall e, adds P (handler e)) -> adds P (try_catch m handler).
Proof.
  intros Hm Hh st. unfold try_catch.
  destruct (Hm st) as (new1 & Htrace1 & Hp1).
  destruct (m st) as [[a|e|] st1]; cbn [snd] in *; try (exists new1; split; assumption).
  destruct (Hh e st1) as (new2 & Htrace2 & Hp2).
  exists (new2 ++ new1)%list. rewrite Htrace2, Htrace1, app_assoc.
  split; [reflexivity | apply Forall_app; split; assumption].
Qed.

Lemma adds_attempt (P : Event -> Prop) {A} (m : M World A) : adds P m -> adds P (attempt m).
Proof.
  intros Hm st. unfold attempt. destruct (Hm st) as (new & Htrace & Hp).
  destruct (m st) as [[a|e|] st1]; exists new; split; assumption.
Qed.

Lemma adds_await (P : Event -> Prop) {A} (op : World -> Result A * World)
      (log : Result A -> Event) :
  (forall answer, P (log answer)) -> adds P (await op log).
Proof.
  intros Hlog st. unfold await. destruct (op (world st)) as [answer w].
  exists [log answer]. destruct answer; cbn; split; try reflexivity; repeat constructor;
    apply Hlog.
Qed.

Lemma adds_now (P : Event -> Prop) : (forall t, P (EvNow t)) -> adds P (Date_now_ L).
Proof.
  intros H st. exists [EvNow (Date_now L (world st))].
  split; [reflexivity | repeat constructor; apply H].
Qed.

Lemma adds_sleep (P : Event -> Prop) (ms : Z) : P (EvSleep ms) -> adds P (sleep L ms).
Proof. intros H st. exists [EvSleep ms]. split; [reflexivity | repeat constructor; exact H]. Qed.

Lemma adds_getSignatureStatus (c : Connection) (sig : Signature) :
  adds not_broadcast (getSignatureStatus L c sig).
Proof. destruct c; [apply adds_await; reflexivity | apply adds_throw]. Qed.

Lemma adds_getTransaction (c : Connection) (sig : JValue) :
  adds not_broadcast (getTransaction L c sig).
Proof. destruct c; [apply adds_await; reflexivity | apply adds_throw]. Qed.

Lemma adds_simulateTransaction (c : Connection) (tx : Transaction) :
  adds not_broadcast (simulateTransaction L c tx).
Proof. destruct c; [apply adds_await; reflexivity | apply adds_throw]. Qed.

Ltac adds_steps :=
  repeat first
    [ apply adds_ret | apply adds_throw | apply adds_lift
    | apply adds_getSignatureStatus | apply adds_getTransaction
    | apply adds_simulateTransaction
    | apply adds_now; reflexivity | apply adds_sleep; reflexivity
    | apply adds_attempt | apply adds_bind | apply adds_try_catch
    | progress cbv beta
    | match goal with
      | |- forall _, _ => intro
      | |- adds _ (if ?b then _ else _) => destruct b
      | |- adds _ (match ?x with _ => _ end) => destruct x
      | |- adds _ ((if ?b then _ else _) _) => destruct b
      | |- adds _ ((match ?x with _ => _ end) _) => destruct x
      end ].

Lemma poll_turn_not_broadcast (c : Connection) (sig : Signature) (v : PollVars) :
  adds not_broadcast (poll_turn lib L c sig v).
Proof.
  unfold poll_turn, body_try_catch, body_bind, awaited, assign, read, body_ret, body_throw.
  adds_steps.
Qed.

Lemma poll_not_broadcast (c : Connection) (sig : Signature) (startTime timeout : Z) :
  forall fuel v, adds not_broadcast (poll lib L fuel c sig startTime timeout v).
Proof.
  induction fuel as [| fuel IH]; intros v; cbn [poll].
  - intros st. exists []. split; [reflexivity | constructor].
  - apply adds_bind; [apply adds_now; reflexivity |]. intros now.
    destruct ((now - startTime <? timeout) && negb (pv_confirmed v)); [| apply adds_ret].
    apply adds_bind; [apply poll_turn_not_broadcast |]. intros turn.
    destruct (fst turn) as [[|]|e]; [apply adds_ret | apply IH | apply adds_throw].
Qed.

Lemma not_broadcast_filter (new : list Event) :
  Forall not_broadcast new -> filter is_broadcast new = [].
Proof.
  intros H. apply filter_none. intros x Hx.
  rewrite Forall_forall in H. apply (H x Hx).
Qed.

Definition at_most_one_broadcast {A} (m : M World A) : Prop :=
  forall st, exists new,
    trace (snd (m st)) = (new ++ trace st)%list
    /\ (List.length (filter is_broadcast new) <= 1)%nat.

Lemma adds_at_most_one {A} (m : M World A) :
  adds not_broadcast m -> at_most_one_broadcast m.
Proof.
  intros H st. destruct (H st) as (new & Htrace & Hq). exists new.
  split; [exact Htrace |]. rewrite (not_broadcast_filter new Hq). cbn. lia.
Qed.

Lemma settleSolanaTransaction_at_most_one (fuel : nat) (c : Connection)
      (transactionBase64 : JValue) (options : SettleOptions) :
  at_most_one_broadcast (settleSolanaTransaction lib L fuel c transactionBase64 options).
Proof.
  intros st. unfold settleSolanaTransaction.
  unfold bind at 1. unfold lift at 1.
  destruct (Transaction_from lib transactionBase64) as [tx|];
    [| exists []; split; [reflexivity | cbn; lia]]. cbn [ret].
  unfold bind at 1. unfold lift at 1.
  destruct (feePayer_for "toBase58" tx); [| exists []; split; [reflexivity | cbn; lia]].
  cbn [ret]. unfold bind at 1. unfold lift at 1.
  destruct (serialize lib true tx) as [raw|]; [| exists []; split; [reflexivity | cbn; lia]].
  cbn [ret]. unfold bind at 1.
  destruct c as [n | name]; [| exists []; split; [reflexivity | cbn; lia]].
  cbn [sendRawTransaction]. unfold await.
  destruct (rpc_sendRawTransaction L n raw _ (world st)) as [[signature|e] w1];
    cbn [lift ret throw].
  2: { eexists [_]. split; [reflexivity | cbn; lia]. }
  match goal with
  | |- context [bind (Date_now_ L) ?k ?st1] =>
      assert (Hrest : adds not_broadcast (bind (Date_now_ L) k));
        [| destruct (Hrest st1) as (new & Htrace & Hq) ]
  end.
  { apply adds_bind; [apply adds_now; reflexivity |]. intros startTime.
    apply adds_bind; [apply poll_not_broadcast | intros v; apply adds_ret]. }
  cbn [trace] in Htrace.
  eexists (new ++ [_])%list. rewrite <- app_assoc. split; [exact Htrace |].
  rewrite filter_app, (not_broadcast_filter new Hq). cbn. lia.
Qed.

Lemma settle_result_at_most_one (fuel : nat) (c : Connection) (d : TransactionData) :
  at_most_one_broadcast (settle_result lib L fuel c d).
Proof.
  assert (Hsend : forall t,
             at_most_one_broadcast
               (result <- settleSolanaTransaction lib L fuel c t settle_options ;;
                if negb (r_confirmed result) then
                  throw ("Transaction not confirmed within timeout. Status: "
                           ++ status_name (r_confirmationStatus result))
                else ret result)%js
             /\ at_most_one_broadcast
                  (result <- settleSolanaTransaction lib L fuel c t settle_options ;;
                   if negb (r_confirmed result) then
                     throw ("Facilitator-sponsored transaction not confirmed within timeout. Status: "
                              ++ status_name (r_confirmationStatus result))
                   else ret result)%js).
  { intros t; split; intros st; unfold bind;
      destruct (settleSolanaTransaction_at_most_one fuel c t settle_options st)
        as (new & Htrace & Hcount);
      destruct (settleSolanaTransaction lib L fuel c t settle_options st)
        as [[result|e|] st1]; cbn [snd] in *;
      try destruct (negb (r_confirmed result)); exists new; split; assumption. }
  unfold settle_result. destruct (td_format d).
  - apply Hsend.
  - destruct (negb (truthy (td_transaction d)));
      [apply adds_at_most_one, adds_throw | apply Hsend].
  - destruct (negb (truthy (td_transaction d)));
      [apply adds_at_most_one, adds_throw | apply Hsend].
  - apply adds_at_most_one. adds_steps.
Qed.

(** Where the settle handler leaves the state: as it found it, or as
    [settle_result] leaves it for the connection and payload it resolved. *)
Lemma settle_state (fuel : nat) (req_body : JValue) (st : St World) :
  snd (settle' fuel req_body st) = st
  \/ exists key c d,
      ToString (field (field req_body "paymentPayload") "network") = Ok key
      /\ connections key = Some c
      /\ extractTransactionData (field req_body "paymentPayload") = Ok d
      /\ snd (settle' fuel req_body st) = snd (settle_result lib L fuel c d st).
Proof.
  unfold settle.
  destruct (destructure req_body "paymentPayload") as [pp|] eqn:Hd1; [| left; reflexivity].
  assert (Hpp : pp = field req_body "paymentPayload")
    by (destruct req_body; cbn in Hd1; inversion Hd1; reflexivity).
  assert (Hd2 : destructure req_body "paymentRequirements"
                = Ok (field req_body "paymentRequirements"))
    by (destruct req_body; cbn in Hd1 |- *; try discriminate; reflexivity).
  rewrite Hd2. subst pp.
  unfold bind, lift, try_catch, ret, throw.
  destruct (member (field req_body "paymentPayload") "network") as [network|] eqn:Hm;
    [| left; reflexivity].
  assert (Hn : network = field (field req_body "paymentPayload") "network")
    by (destruct (field req_body "paymentPayload"); cbn in Hm; inversion Hm; reflexivity).
  subst network.
  destruct (ToString _) as [key|] eqn:Hkey; [| left; reflexivity].
  destruct (connections key) as [c|] eqn:Hc; [| left; reflexivity].
  destruct (extractTransactionData _) as [d|] eqn:He; [| left; reflexivity].
  right. exists key, c, d. repeat split; try assumption.
  destruct (settle_result lib L fuel c d st) as [[result|e|] st1]; reflexivity.
Qed.

(** X7: whatever the request, one call of the settle handler makes at most
    one [sendRawTransaction] call. *)
Theorem settle_broadcasts_at_most_once (fuel : nat) (req_body : JValue) (st : St World) :
  exists new,
    trace (snd (settle' fuel req_body st)) = (new ++ trace st)%list
    /\ (List.length (filter is_broadcast new) <= 1)%nat.
Proof.
  destruct (settle_state fuel req_body st) as [Hsame | (key & c & d & _ & _ & _ & Hc)].
  - exists []. rewrite Hsame. split; [reflexivity | cbn; lia].
  - rewrite Hc. apply settle_result_at_most_one.
Qed.

(** *** Settling a payload that embeds a transaction *)

Lemma settle_result_embedded (fuel : nat) (c : Connection) (pp : JValue)
      (d : TransactionData) (st : St World) :
  extractTransactionData pp = Ok d ->
  td_format d <> authorization_only ->
  settle_result lib L fuel c d st
  = (result <- settleSolanaTransaction lib L fuel c (embedded_transaction d)
                 settle_options ;;
     if negb (r_confirmed result) then
       throw (not_confirmed_message d (r_confirmationStatus result))
     else ret result)%js st.
Proof.
  intros Hpay Hf.
  unfold settle_result, embedded_transaction, not_confirmed_message.
  destruct (td_format d) eqn:Hfmt; try congruence; try reflexivity.
  - rewrite (extract_embedded_truthy _ _ Hpay (or_introl Hfmt)). reflexivity.
  - rewrite (extract_embedded_truthy _ _ Hpay (or_intror Hfmt)). reflexivity.
Qed.

(** X6: when the broadcast transaction is confirmed, the settle response
    is the 200 response that carries the signature the broadcast returned,
    the status reached and the details fetched, and says who paid the
    gas. *)
Theorem settle_confirmed_response
        (fuel : nat) (req_body : JValue) (n : Network) (d : TransactionData)
        (st st' : St World) (receipt : Receipt) :
  settle_request req_body n d ->
  td_format d <> authorization_only ->
  settleSolanaTransaction lib L fuel (Conn n) (embedded_transaction d) settle_options st
  = (Returns receipt, st') ->
  r_confirmed receipt = true ->
  exists response,
    settle' fuel req_body st = (Returns response, st')
    /\ status response = 200
    /\ field (body response) "success" = JBool true
    /\ field (body response) "transaction" = r_signature receipt
    /\ (exists raw signature,
           In (EvBroadcast n raw (mkSendOptions false 3) (Ok signature)) (trace st')
           /\ r_signature receipt = JStr signature)
    /\ field (body response) "confirmationStatus"
       = JStr (status_name (r_confirmationStatus receipt))
    /\ is_terminal (r_confirmationStatus receipt) = true
    /\ field (body response) "slot" = r_slot receipt
    /\ field (body response) "fees" = r_fees receipt
    /\ field (body response) "gasSponsoredByFacilitator"
       = JBool (Format_eqb (td_format d) facilitator_sponsored)
    /\ field (body response) "userPaidGas"
       = JBool (negb (Format_eqb (td_format d) facilitator_sponsored)).
Proof.
  intros Hgates Hf Hrun Hconf.
  eexists. split.
  - rewrite (settle_after_gates _ _ _ _ _ _ _ _ Hgates).
    rewrite (settle_result_embedded _ _ _ _ _ (sr_payload _ _ _ Hgates) Hf).
    unfold bind. rewrite Hrun, Hconf. reflexivity.
  - destruct (settlement_returns _ _ _ _ _ _ _ _ _ Hrun)
      as (raw & signature & startTime & chron & Htrace & Hsig & _ & _ & Hterm & _).
    repeat split; try reflexivity; [| apply Hterm, Hconf].
    exists raw, signature. split; [| exact Hsig].
    rewrite Htrace. apply in_or_app. right. right. left. reflexivity.
Qed.

(** The trace of a settlement attempt whose transaction decodes and
    serialises: the broadcast, then no further broadcast. *)
Lemma settleSolanaTransaction_trace
      (fuel : nat) (n : Network) (transactionBase64 : JValue) (options : SettleOptions)
      (tx : Transaction) (payer : PublicKey) (raw : WireTransaction) (st : St World) :
  Transaction_from lib transactionBase64 = Ok tx ->
  feePayer tx = Some payer ->
  serialize lib true tx = Ok raw ->
  let opts := mkSendOptions (skipPreflight options) (maxRetries options) in
  exists new,
    trace (snd (settleSolanaTransaction lib L fuel (Conn n) transactionBase64 options st))
    = (new ++ EvBroadcast n raw opts (fst (rpc_sendRawTransaction L n raw opts (world st)))
           :: trace st)%list
    /\ Forall not_broadcast new.
Proof.
  intros Htx Hpayer Hraw opts. subst opts.
  unfold settleSolanaTransaction.
  unfold bind at 1. rewrite Htx. cbn [lift ret].
  unfold bind at 1. unfold feePayer_for. rewrite Hpayer. cbn [lift ret].
  unfold bind at 1. rewrite Hraw. cbn [lift ret].
  unfold bind at 1. cbn [sendRawTransaction]. unfold await.
  destruct (rpc_sendRawTransaction L n raw _ (world st)) as [[signature|e] w1];
    cbn [lift ret throw fst snd trace].
  2: { exists []. split; [reflexivity | constructor]. }
  match goal with
  | |- context [bind (Date_now_ L) ?k ?st1] =>
      assert (Hrest : adds not_broadcast (bind (Date_now_ L) k));
        [| destruct (Hrest st1) as (new & Htrace & Hq) ]
  end.
  { apply adds_bind; [apply adds_now; reflexivity |]. intros startTime.
    apply adds_bind; [apply poll_not_broadcast | intros v; apply adds_ret]. }
  exists new. split; [exact Htrace | exact Hq].
Qed.

(** X10: the settle handler makes no fee-payer comparison: a sponsored
    payload whose transaction decodes and is fully signed is broadcast
    whoever its fee payer is. *)
Theorem settle_sponsored_broadcasts_any_fee_payer
        (fuel : nat) (req_body : JValue) (n : Network) (d : TransactionData)
        (tx : Transaction) (payer : PublicKey) (raw : WireTransaction) (st : St World) :
  settle_request req_body n d ->
  td_format d = facilitator_sponsored ->
  Transaction_from lib (td_facilitatorTransaction d) = Ok tx ->
  feePayer tx = Some payer ->
  serialize lib true tx = Ok raw ->
  let opts := mkSendOptions false 3 in
  exists new,
    trace (snd (settle' fuel req_body st))
    = (new ++ EvBroadcast n raw opts (fst (rpc_sendRawTransaction L n raw opts (world st)))
           :: trace st)%list
    /\ Forall not_broadcast new.
Proof.
  intros Hgates Hf Htx Hpayer Hraw opts.
  destruct (settleSolanaTransaction_trace fuel n (td_facilitatorTransaction d)
              settle_options tx payer raw st Htx Hpayer Hraw) as (new & Htrace & Hq).
  exists new. split; [| exact Hq].
  change (mkSendOptions (skipPreflight settle_options) (maxRetries settle_options))
    with opts in Htrace.
  rewrite <- Htrace.
  rewrite (settle_after_gates _ _ _ _ _ _ _ _ Hgates).
  unfold settle_result. rewrite Hf. unfold bind.
  destruct (settleSolanaTransaction lib L fuel (Conn n) (td_facilitatorTransaction d)
                                    settle_options st) as [[result|e|] st1];
    try destruct (negb (r_confirmed result)); reflexivity.
Qed.

(** X12: when the ledger rejects the broadcast, the attempt ends there:
    the settle response is the 400 response with the ledger's message, and
    the trace shows the one broadcast and no status poll. *)
Theorem settle_broadcast_rejected
        (fuel : nat) (req_body : JValue) (n : Network) (d : TransactionData)
        (tx : Transaction) (payer : PublicKey) (raw : WireTransaction)
        (st : St World) (e : Error) :
  settle_request req_body n d ->
  td_format d <> authorization_only ->
  Transaction_from lib (embedded_transaction d) = Ok tx ->
  feePayer tx = Some payer ->
  serialize lib true tx = Ok raw ->
  let opts := mkSendOptions false 3 in
  fst (rpc_sendRawTransaction L n raw opts (world st)) = Throw e ->
  settle' fuel req_body st
  = (Returns (settle_failed e (field (field req_body "paymentPayload") "network")),
     mkSt (snd (rpc_sendRawTransaction L n raw opts (world st)))
          (EvBroadcast n raw opts (Throw e) :: trace st)).
Proof.
  intros Hgates Hf Htx Hpayer Hraw opts Hsend. subst opts.
  rewrite (settle_after_gates _ _ _ _ _ _ _ _ Hgates).
  rewrite (settle_result_embedded _ _ _ _ _ (sr_payload _ _ _ Hgates) Hf).
  unfold settleSolanaTransaction.
  unfold bind at 2. rewrite Htx. cbn [lift ret].
  unfold bind at 2. unfold feePayer_for. rewrite Hpayer. cbn [lift ret].
  unfold bind at 2. rewrite Hraw. cbn [lift ret].
  unfold bind, lift, ret, throw. cbn [sendRawTransaction]. unfold await.
  cbn [skipPreflight maxRetries settle_options].
  destruct (rpc_sendRawTransaction L n raw _ (world st)) as [answer w1].
  cbn [fst snd] in *. subst answer. reflexivity.
Qed.

(** *** Requests that reach no connection *)

Lemma settleSolanaTransaction_inherited (fuel : nat) (name : string)
      (transactionBase64 : JValue) (options : SettleOptions) (st : St World) :
  exists e,
    settleSolanaTransaction lib L fuel (Inherited name) transactionBase64 options st
    = (Throws e, st).
Proof.
  unfold settleSolanaTransaction, bind, lift, ret, throw.
  destruct (Transaction_from lib transactionBase64) as [tx|]; [| eexists; reflexivity].
  destruct (feePayer_for "toBase58" tx); [| eexists; reflexivity].
  destruct (serialize lib true tx); eexists; reflexivity.
Qed.

Lemma settle_result_inherited (fuel : nat) (name : string) (d : TransactionData)
      (st : St World) :
  exists e, settle_result lib L fuel (Inherited name) d st = (Throws e, st).
Proof.
  unfold settle_result.
  destruct (td_format d).
  - unfold bind.
    destruct (settleSolanaTransaction_inherited fuel name (td_facilitatorTransaction d)
                                                settle_options st) as [e He].
    rewrite He. eexists; reflexivity.
  - destruct (negb (truthy (td_transaction d))); [eexists; reflexivity |].
    unfold bind.
    destruct (settleSolanaTransaction_inherited fuel name (td_transaction d)
                                                settle_options st) as [e He].
    rewrite He. eexists; reflexivity.
  - destruct (negb (truthy (td_transaction d))); [eexists; reflexivity |].
    unfold bind.
    destruct (settleSolanaTransaction_inherited fuel name (td_transaction d)
                                                settle_options st) as [e He].
    rewrite He. eexists; reflexivity.
  - eexists. reflexivity.
Qed.

(** X8: a settle request whose network names none of the three
    connections, or whose payload the normaliser refuses, is answered
    without any call on the ledger; when a response is sent it is the 400
    failure response. *)
Theorem settle_untouched_without_connection
        (fuel : nat) (req_body : JValue) (st : St World) :
  (forall n, ToString (field (field req_body "paymentPayload") "network")
             <> Ok (network_key n))
  \/ (exists e, extractTransactionData (field req_body "paymentPayload") = Throw e) ->
  snd (settle' fuel req_body st) = st
  /\ match fst (settle' fuel req_body st) with
     | Returns r =>
         exists message,
           r = settle_failed message (field (field req_body "paymentPayload") "network")
     | Throws _ => True
     | OutOfFuel => False
     end.
Proof.
  intros Hno. unfold settle.
  destruct (destructure req_body "paymentPayload") as [pp|] eqn:Hd1;
    [| split; [reflexivity | exact I]].
  assert (Hpp : pp = field req_body "paymentPayload")
    by (destruct req_body; cbn in Hd1; inversion Hd1; reflexivity).
  assert (Hd2 : destructure req_body "paymentRequirements"
                = Ok (field req_body "paymentRequirements"))
    by (destruct req_body; cbn in Hd1 |- *; try discriminate; reflexivity).
  rewrite Hd2. subst pp.
  unfold bind, lift, try_catch, ret, throw.
  destruct (member (field req_body "paymentPayload") "network") as [network|] eqn:Hm;
    [| split; [reflexivity | exact I]].
  assert (Hn : network = field (field req_body "paymentPayload") "network")
    by (destruct (field req_body "paymentPayload"); cbn in Hm; inversion Hm; reflexivity).
  subst network.
  destruct (ToString _) as [key|] eqn:Hkey;
    [| split; [reflexivity | eexists; reflexivity]].
  destruct (connections key) as [c|] eqn:Hc;
    [| split; [reflexivity | eexists; reflexivity]].
  destruct (extractTransactionData _) as [d|] eqn:He;
    [| split; [reflexivity | eexists; reflexivity]].
  destruct Hno as [Hno | [e Hno]]; [| discriminate].
  destruct c as [n | name].
  - exfalso. apply (Hno n). rewrite (connections_conn_key key n Hc). reflexivity.
  - destruct (settle_result_inherited fuel name d st) as [e Hr]. rewrite Hr.
    split; [reflexivity | eexists; reflexivity].
Qed.

(** *** What is broadcast *)

(** A broadcast as the settle handler makes it: every signature slot of
    the wire transaction is filled, preflight is on and the node may retry
    three times. *)
Definition signed_broadcast (e : Event) : Prop :=
  match e with
  | EvBroadcast _ raw opts _ =>
      Forall (fun slot => slot <> None) (wire_signatures raw)
      /\ opts = mkSendOptions false 3
  | _ => True
  end.

Lemma serialize_fully_signed (tx : Transaction) (wire : WireTransaction) :
  serialize lib true tx = Ok wire ->
  Forall (fun slot => slot <> None) (wire_signatures wire).
Proof.
  unfold serialize, rbind.
  destruct (compile lib tx) as [[message tx']|]; [| discriminate].
  destruct (forallb _ _) eqn:Hall; [| discriminate].
  intros Hwire. inversion Hwire; subst. cbn [wire_signatures].
  rewrite forallb_forall in Hall.
  apply Forall_forall. intros slot Hin.
  apply in_map_iff in Hin. destruct Hin as (s & Hs & Hin).
  specialize (Hall s Hin). unfold signature_ok in Hall.
  rewrite Hs in Hall. destruct slot; [discriminate | discriminate].
Qed.

Lemma adds_weaken (P Q : Event -> Prop) {A} (m : M World A) :
  (forall e, P e -> Q e) -> adds P m -> adds Q m.
Proof.
  intros HPQ Hm st. destruct (Hm st) as (new & Htrace & HP).
  exists new. split; [exact Htrace |].
  eapply Forall_impl; [exact HPQ | exact HP].
Qed.

Lemma not_broadcast_signed (e : Event) : not_broadcast e -> signed_broadcast e.
Proof. destruct e; cbn; try (intros; exact I). unfold not_broadcast. cbn. discriminate. Qed.

Lemma settleSolanaTransaction_signed (fuel : nat) (c : Connection)
      (transactionBase64 : JValue) :
  adds signed_broadcast
       (settleSolanaTransaction lib L fuel c transactionBase64 settle_options).
Proof.
  intros st. unfold settleSolanaTransaction.
  unfold bind at 1. unfold lift at 1.
  destruct (Transaction_from lib transactionBase64) as [tx|];
    [| exists []; split; [reflexivity | constructor]]. cbn [ret].
  unfold bind at 1. unfold lift at 1.
  destruct (feePayer_for "toBase58" tx); [| exists []; split; [reflexivity | constructor]].
  cbn [ret]. unfold bind at 1. unfold lift at 1.
  destruct (serialize lib true tx) as [raw|] eqn:Hraw;
    [| exists []; split; [reflexivity | constructor]].
  cbn [ret]. unfold bind at 1.
  destruct c as [n | name]; [| exists []; split; [reflexivity | constructor]].
  assert (Hsigned : forall answer,
             signed_broadcast
               (EvBroadcast n raw (mkSendOptions (skipPreflight settle_options)
                                                 (maxRetries settle_options)) answer)).
  { intros answer. split; [exact (serialize_fully_signed tx raw Hraw) | reflexivity]. }
  cbn [sendRawTransaction]. unfold await.
  destruct (rpc_sendRawTransaction L n raw _ (world st)) as [[signature|e] w1];
    cbn [lift ret throw].
  2: { eexists [_]. split; [reflexivity | constructor; [apply Hsigned | constructor]]. }
  match goal with
  | |- context [bind (Date_now_ L) ?k ?st1] =>
      assert (Hrest : adds not_broadcast (bind (Date_now_ L) k));
        [| destruct (Hrest st1) as (new & Htrace & Hq) ]
  end.
  { apply adds_bind; [apply adds_now; reflexivity |]. intros startTime.
    apply adds_bind; [apply poll_not_broadcast | intros v; apply adds_ret]. }
  cbn [trace] in Htrace.
  eexists (new ++ [_])%list. rewrite <- app_assoc. split; [exact Htrace |].
  apply Forall_app. split.
  - eapply Forall_impl; [exact not_broadcast_signed | exact Hq].
  - constructor; [apply Hsigned | constructor].
Qed.

Lemma settle_result_signed (fuel : nat) (c : Connection) (d : TransactionData) :
  adds signed_broadcast (settle_result lib L fuel c d).
Proof.
  unfold settle_result. destruct (td_format d).
  - apply adds_bind; [apply settleSolanaTransaction_signed |].
    intros result. destruct (negb (r_confirmed result)); [apply adds_throw | apply adds_ret].
  - destruct (negb (truthy (td_transaction d))); [apply adds_throw |].
    apply adds_bind; [apply settleSolanaTransaction_signed |].
    intros result. destruct (negb (r_confirmed result)); [apply adds_throw | apply adds_ret].
  - destruct (negb (truthy (td_transaction d))); [apply adds_throw |].
    apply adds_bind; [apply settleSolanaTransaction_signed |].
    intros result. destruct (negb (r_confirmed result)); [apply adds_throw | apply adds_ret].
  - apply (adds_weaken not_broadcast); [exact not_broadcast_signed |]. adds_steps.
Qed.

(** X11: whatever the request, a transaction the settle handler hands to
    [sendRawTransaction] passed [serialize] with all signatures required:
    every signature slot of the broadcast bytes is filled, and the call is
    made with preflight on and three retries. *)
Theorem settle_broadcasts_only_signed (fuel : nat) (req_body : JValue) (st : St World) :
  exists new,
    trace (snd (settle' fuel req_body st)) = (new ++ trace st)%list
    /\ Forall signed_broadcast new.
Proof.
  destruct (settle_state fuel req_body st) as [Hsame | (key & c & d & _ & _ & _ & Hc)].
  - exists []. rewrite Hsame. split; [reflexivity | constructor].
  - rewrite Hc. apply settle_result_signed.
Qed.

(** *** The verify handler, format by format *)

Local Abbreviation accept' := (accept facilitatorKeypair).

(** X1: a payload that carries only an authorization is verified by one
    lookup of its signature: a transaction found without error accepts, an
    absent one, one that failed on the ledger and a failed lookup each
    reject with their own reason. *)
Theorem verify_authorization_only
        (req_body : JValue) (n : Network) (d : TransactionData) (st : St World) :
  verify_request req_body n d ->
  td_format d = authorization_only ->
  let look := rpc_getTransaction L n (td_signature d) (world st) in
  verify' req_body st
  = (Returns
       match fst look with
       | Ok (Some found) =>
           if truthy (err_of found) then
             reject ("Transaction failed on blockchain: "
                       ++ JSON_stringify lib (err_of found))
           else accept' d (field req_body "paymentPayload")
       | Ok None =>
           reject "Transaction not found on blockchain - payment may not have been submitted yet"
       | Throw _ => reject "Unable to verify transaction on blockchain"
       end,
     mkSt (snd look) (EvGetTransaction n (td_signature d) (fst look) :: trace st)).
Proof.
  intros Hgates Hf look. subst look.
  rewrite (verify_after_gates _ _ _ _ _ _ _ Hgates).
  unfold verify_checks. rewrite Hf.
  unfold try_catch, bind. cbn [getTransaction]. unfold await.
  destruct (rpc_getTransaction L n (td_signature d) (world st)) as [[[found|]|e] w1];
    cbn [fst snd lift ret throw]; try reflexivity.
  destruct (truthy (err_of found)); reflexivity.
Qed.

(** X2: a sponsored payload whose transaction names the facilitator as fee
    payer is simulated once and judged by the simulation alone: no lookup
    of a signature follows, so a transaction that has already landed is
    accepted again. *)
Theorem verify_sponsored_by_facilitator
        (req_body : JValue) (n : Network) (d : TransactionData)
        (tx : Transaction) (st : St World) :
  verify_request req_body n d ->
  td_format d = facilitator_sponsored ->
  Transaction_from lib (td_facilitatorTransaction d) = Ok tx ->
  feePayer tx = Some (publicKey facilitatorKeypair) ->
  let sim := rpc_simulateTransaction L n tx (world st) in
  verify' req_body st
  = (Returns
       match fst sim with
       | Ok err =>
           if truthy err then
             reject ("Transaction simulation failed: " ++ JSON_stringify lib err)
           else accept' d (field req_body "paymentPayload")
       | Throw e => reject ("Transaction validation failed: " ++ e)
       end,
     mkSt (snd sim) (EvSimulate n tx (fst sim) :: trace st)).
Proof.
  intros Hgates Hf Htx Hpayer sim. subst sim.
  rewrite (verify_after_gates _ _ _ _ _ _ _ Hgates).
  unfold verify_checks. rewrite Hf.
  unfold bind at 1. rewrite Htx. cbn [lift ret].
  unfold bind at 1. unfold feePayer_for. rewrite Hpayer. cbn [lift ret].
  rewrite PublicKey_equals_refl. cbn [negb].
  unfold bind. cbn [simulateTransaction]. unfold await.
  destruct (rpc_simulateTransaction L n tx (world st)) as [[err|e] w1];
    cbn [fst snd lift ret throw]; try reflexivity.
  destruct (truthy err); reflexivity.
Qed.

(** X3: a verify request whose network is not the name of one of the
    three connections, or whose payload the normaliser refuses, is rejected
    without any call on the ledger. *)
Theorem verify_rejects_untouched (req_body : JValue) (st : St World) :
  req_body <> JUndefined -> req_body <> JNull ->
  (forall n, field (field req_body "paymentPayload") "network" <> JStr (network_key n))
  \/ (exists e, extractTransactionData (field req_body "paymentPayload") = Throw e) ->
  exists reason, verify' req_body st = (Returns (reject reason), st).
Proof.
  intros Hu Hn Hno.
  assert (Hd : forall k, destructure req_body k = Ok (field req_body k))
    by (destruct req_body; try reflexivity; congruence).
  unfold verify. rewrite !Hd. unfold bind at 1 2. cbn [lift ret].
  unfold try_catch.
  destruct (negb (truthy (field req_body "paymentPayload"))
            || negb (truthy (field req_body "paymentRequirements")));
    [eexists; reflexivity |].
  unfold bind at 1.
  destruct (truthy (field (field req_body "paymentPayload") "network")) eqn:Ht;
    cbn [negb ret]; [| eexists; reflexivity].
  destruct (field (field req_body "paymentPayload") "network") as [| | | | |key| |] eqn:Hnet;
    try (eexists; reflexivity).
  unfold bind, lift, ret. cbn [startsWith ToString].
  destruct (String.prefix "solana-" key) eqn:Hprefix; cbn [negb];
    [| eexists; reflexivity].
  destruct (connections key) as [[n | name]|] eqn:Hc.
  - destruct (extractTransactionData _) as [d|] eqn:He; [| eexists; reflexivity].
    destruct Hno as [Hno | [e Hno]]; [| discriminate].
    exfalso. apply (Hno n). rewrite (connections_conn_key key n Hc). reflexivity.
  - rewrite (inherited_not_solana key name Hc) in Hprefix. discriminate.
  - eexists. reflexivity.
Qed.

(** *** A guard that never fires *)

Definition missing_transaction : Response :=
  reject "Missing transaction data for full verification".

Lemma verify_checks_not_missing (c : Connection) (pp : JValue) (d : TransactionData) :
  extractTransactionData pp = Ok d ->
  answers_with (fun early => early <> Some missing_transaction)
               (verify_checks lib L facilitatorKeypair c d).
Proof.
  intros Hpay. unfold verify_checks, missing_transaction.
  destruct (td_format d) eqn:Hfmt.
  2: rewrite (extract_embedded_truthy _ _ Hpay (or_introl Hfmt)); cbn [negb].
  3: rewrite (extract_embedded_truthy _ _ Hpay (or_intror Hfmt)); cbn [negb].
  all: repeat first
    [ apply answers_throw
    | apply answers_lift | apply answers_simulate | apply answers_getTransaction
    | apply answers_ret; first [ exact I | unfold reject; discriminate ]
    | apply answers_try_catch
    | eapply (answers_bind (fun _ => True))
    | match goal with
      | |- forall _, _ => intro
      | |- answers_with _ (if ?b then _ else _) => destruct b
      | |- answers_with _ (match ?x with _ => _ end) => destruct x
      end ].
Qed.

(** X4: the verify handler never answers that transaction data is
    missing: a payload the normaliser files as minimal or full always
    carries a transaction, so that guard of the handler cannot fire. *)
Theorem verify_never_misses_transaction
        (req_body : JValue) (st : St World) (r : Response) :
  fst (verify' req_body st) = Returns r ->
  r <> reject "Missing transaction data for full verification".
Proof.
  unfold verify.
  destruct (destructure req_body "paymentPayload") as [pp|] eqn:Hd1; [| discriminate].
  assert (Hpp : pp = field req_body "paymentPayload")
    by (destruct req_body; cbn in Hd1; inversion Hd1; reflexivity).
  assert (Hd2 : destructure req_body "paymentRequirements"
                = Ok (field req_body "paymentRequirements"))
    by (destruct req_body; cbn in Hd1 |- *; try discriminate; reflexivity).
  rewrite Hd2. subst pp. unfold bind at 1 2. cbn [lift ret].
  match goal with
  | |- fst (try_catch ?m ?h st) = _ -> _ =>
      assert (Hm : answers_with (fun r => r <> missing_transaction) m);
        [| unfold try_catch at 1; specialize (Hm st); destruct (m st) as [[r'|e|] st1] ]
  end; cbn [fst] in *.
  - unfold missing_transaction.
    destruct (negb _ || negb _); [apply answers_ret; unfold reject; discriminate |].
    eapply (answers_bind (fun _ => True)).
    { destruct (negb _); [apply answers_ret; exact I |].
      eapply (answers_bind (fun _ => True)); [apply answers_lift |].
      intros; apply answers_ret; exact I. }
    intros unsupported _.
    destruct unsupported; [apply answers_ret; unfold reject; discriminate |].
    eapply (answers_bind (fun _ => True)); [apply answers_lift |]. intros key _.
    destruct (connections key) as [c|];
      [| apply answers_ret; unfold reject; discriminate].
    destruct (extractTransactionData _) as [d|] eqn:Hpay;
      [| apply answers_ret; unfold reject; discriminate].
    apply answers_try_catch;
      [| intros e; apply answers_ret; unfold reject; discriminate].
    eapply answers_bind; [exact (verify_checks_not_missing c _ d Hpay) |].
    intros [response|] Hearly; apply answers_ret.
    + intros Heq. apply Hearly. rewrite Heq. reflexivity.
    + unfold accept, reject. discriminate.
  - intros Heq. inversion Heq; subst. exact Hm.
  - intros Heq. inversion Heq; subst. unfold reject. discriminate.
  - discriminate.
Qed.

(** *** The settle handler comes back *)

Lemma settle_result_terminates (fuel : nat) (c : Connection) (d : TransactionData)
      (st : St World) :
  ClockAdvances L ->
  (Z.to_nat 30000 < fuel)%nat ->
  fst (settle_result lib L fuel c d st) <> OutOfFuel.
Proof.
  intros Hclock Hfuel.
  destruct c as [n | name].
  2: { destruct (settle_result_inherited fuel name d st) as [e He].
       rewrite He. discriminate. }
  assert (Hsend : forall t message,
             fst ((result <- settleSolanaTransaction lib L fuel (Conn n) t settle_options ;;
                   if negb (r_confirmed result) then
                     throw (message (r_confirmationStatus result))
                   else ret result)%js st) <> OutOfFuel).
  { intros t message. unfold bind.
    pose proof (settlement_terminates lib L n t settle_options st Hclock fuel Hfuel)
      as Hterm.
    destruct (settleSolanaTransaction lib L fuel (Conn n) t settle_options st)
      as [[result|e|] st1]; cbn [fst] in *;
      [destruct (negb (r_confirmed result)); discriminate | discriminate | contradiction]. }
  unfold settle_result. destruct (td_format d).
  - apply (Hsend _ (fun s => "Facilitator-sponsored transaction not confirmed within timeout. Status: " ++ status_name s)).
  - destruct (negb (truthy (td_transaction d))); [discriminate |].
    apply (Hsend _ (fun s => "Transaction not confirmed within timeout. Status: "
                               ++ status_name s)).
  - destruct (negb (truthy (td_transaction d))); [discriminate |].
    apply (Hsend _ (fun s => "Transaction not confirmed within timeout. Status: "
                               ++ status_name s)).
  - unfold try_catch, bind. cbn [getTransaction]. unfold await.
    destruct (rpc_getTransaction L n (td_signature d) (world st)) as [[[t|]|e] w1];
      cbn [fst snd lift ret throw]; try discriminate.
    destruct (truthy (err_of t)); discriminate.
Qed.


(** *** The details of a receipt *)

(** [slot], [blockTime] and [fees] as the loop leaves them after the
    details lookup: read off the transaction found, undefined when none is
    found, and still [null] when the lookup fails. *)
Definition details_from (answer : Result (option TransactionResponse))
  : JValue * JValue * JValue :=
  match answer with
  | Ok txInfo => (slot_of txInfo, blockTime_of txInfo, fee_of txInfo)
  | Throw _ => (JNull, JNull, JNull)
  end.

Definition details_of (v : PollVars) : JValue * JValue * JValue :=
  (pv_slot v, pv_blockTime v, pv_fees v).

Lemma poll_details (n : Network) (sig : Signature) (startTime timeout : Z) :
  forall fuel v st v' st',
    poll lib L fuel (Conn n) sig startTime timeout v st = (Returns v', st') ->
    pv_confirmed v = false ->
    details_of v = (JNull, JNull, JNull) ->
    if pv_confirmed v' then
      exists details rest,
        trace st' = EvGetTransaction n (JStr sig) details :: rest
        /\ details_of v' = details_from details
    else details_of v' = (JNull, JNull, JNull).
Proof.
  induction fuel as [| fuel IH]; intros v st v' st' Hrun Hv Hnull.
  { discriminate Hrun. }
  cbn [poll] in Hrun. unfold bind at 1 in Hrun. unfold Date_now_ at 1 in Hrun.
  rewrite Hv in Hrun. cbn [negb] in Hrun. rewrite andb_true_r in Hrun.
  destruct (_ <? timeout).
  2: { inversion Hrun; subst. rewrite Hv. exact Hnull. }
  unfold bind at 1 in Hrun. rewrite poll_turn_conn in Hrun. cbn [world trace] in Hrun.
  destruct (rpc_getSignatureStatus L n sig (world st)) as [[[value|]|e] w1];
    cbv zeta in Hrun.
  - destruct (truthy (ss_err value)).
    + cbn [fst snd] in Hrun. apply IH in Hrun; [exact Hrun | exact Hv | exact Hnull].
    + destruct (is_terminal (reported value)).
      * destruct (rpc_getTransaction L n (JStr sig) w1) as [[txInfo|detailError] w2];
          cbn [fst snd ret] in Hrun; inversion Hrun; subst;
          cbn [pv_confirmed set_details set_confirmed set_confirmationStatus].
        -- eexists _, _. split; reflexivity.
        -- eexists _, _. split; [reflexivity | exact Hnull].
      * cbn [fst snd] in Hrun. apply IH in Hrun; [exact Hrun | exact Hv | exact Hnull].
  - cbn [fst snd] in Hrun. apply IH in Hrun; [exact Hrun | exact Hv | exact Hnull].
  - cbn [fst snd] in Hrun. apply IH in Hrun; [exact Hrun | exact Hv | exact Hnull].
Qed.

(** X14: the details of a receipt are best effort.  A confirmed receipt
    ends with the lookup of its transaction and carries the slot, block
    time and fee of what the lookup found, undefined values when it found
    nothing, and [null] when the lookup failed; an unconfirmed receipt
    carries [null] for all three. *)
Theorem settlement_details
        (fuel : nat) (n : Network) (transactionBase64 : JValue) (options : SettleOptions)
        (st st' : St World) (receipt : Receipt) :
  settleSolanaTransaction lib L fuel (Conn n) transactionBase64 options st
  = (Returns receipt, st') ->
  if r_confirmed receipt then
    exists details rest,
      trace st' = EvGetTransaction n (r_signature receipt) details :: rest
      /\ (r_slot receipt, r_blockTime receipt, r_fees receipt) = details_from details
  else (r_slot receipt, r_blockTime receipt, r_fees receipt) = (JNull, JNull, JNull).
Proof.
  unfold settleSolanaTransaction.
  unfold bind at 1. unfold lift at 1.
  destruct (Transaction_from lib transactionBase64) as [tx|]; [| discriminate].
  cbn [ret]. unfold bind at 1. unfold lift at 1.
  destruct (feePayer_for "toBase58" tx); [| discriminate].
  cbn [ret]. unfold bind at 1. unfold lift at 1.
  destruct (serialize lib true tx) as [raw|]; [| discriminate].
  cbn [ret]. unfold bind at 1. cbn [sendRawTransaction]. unfold await.
  destruct (rpc_sendRawTransaction L n raw _ (world st)) as [[signature|e] w1];
    cbn [lift ret throw]; [| discriminate].
  unfold bind at 1. unfold Date_now_ at 1. unfold bind at 1.
  destruct (poll lib L fuel (Conn n) signature _ (timeout options) initial_vars _)
    as [[v|e|] st1] eqn:Hpoll; try discriminate.
  intros Hrun. inversion Hrun; subst. cbn [r_confirmed r_signature r_slot r_blockTime r_fees].
  exact (poll_details n signature _ _ _ _ _ _ _ Hpoll eq_refl eq_refl).
Qed.

(** *** The builder and the ledger *)

(** The one call the builder makes: the fetch of a recent blockhash. *)
Definition blockhash_fetched (n : Network) (st : St World) : St World :=
  let answer := rpc_getLatestBlockhash L n (world st) in
  mkSt (snd answer) (EvLatestBlockhash n (fst answer) :: trace st).

Lemma createFacilitatorPaidTransaction_touch
      (c : Connection) (userPublicKey paymentRequirements : JValue) (st : St World) :
  let run := createFacilitatorPaidTransaction lib L facilitatorKeypair c
               userPublicKey paymentRequirements st in
  fst run <> OutOfFuel
  /\ (snd run = st \/ exists n, c = Conn n /\ snd run = blockhash_fetched n st).
Proof.
  cbv zeta. unfold createFacilitatorPaidTransaction.
  unfold bind, lift, ret, throw.
  destruct c as [n | name]; cbn [getLatestBlockhash]; [| split; [discriminate | left; reflexivity]].
  unfold await, lift, ret, throw.
  assert (Hfetch : forall answer w1,
             rpc_getLatestBlockhash L n (world st) = (answer, w1) ->
             mkSt w1 (EvLatestBlockhash n answer :: trace st) = blockhash_fetched n st).
  { intros answer w1 Hrpc. unfold blockhash_fetched. rewrite Hrpc. reflexivity. }
  destruct (rpc_getLatestBlockhash L n (world st)) as [[blockhash|e] w1];
    specialize (Hfetch _ _ eq_refl); cbn [fst snd];
    [| split; [discriminate | right; exists n; split; [reflexivity | exact Hfetch]]].
  repeat match goal with
         | |- context [match ?x with Ok _ => _ | Throw _ => _ end] =>
             destruct x; cbn [fst snd]
         end;
    (split; [discriminate | right; exists n; split; [reflexivity | exact Hfetch]]).
Qed.


(** *** What the facilitator advertises *)

Definition supported_kind (network : string) : JValue :=
  JObj [("x402Version", JNum 1);
        ("scheme", JStr "exact");
        ("network", JStr network);
        ("facilitatorPaysGas", JBool true);
        ("facilitatorPublicKey", JStr (publicKey facilitatorKeypair))].

(** [app.get('/supported')] *)
Definition supported : Response :=
  mkResponse 200
    (JObj [("kinds", JArr [supported_kind "solana-devnet";
                           supported_kind "solana-mainnet";
                           supported_kind "solana-testnet"])]).

(** [app.get('/health')]; [timestamp] is [new Date().toISOString()]. *)
Definition health (timestamp : string) : Response :=
  mkResponse 200
    (JObj [("status", JStr "healthy");
           ("service", JStr "real-solana-x402-facilitator");
           ("timestamp", JStr timestamp);
           ("supportedNetworks",
            JArr [JStr "solana-devnet"; JStr "solana-mainnet"; JStr "solana-testnet"]);
           ("mode", JStr "REAL_SETTLEMENT_WITH_GAS_SPONSORSHIP");
           ("facilitatorPublicKey", JStr (publicKey facilitatorKeypair));
           ("features",
            JArr [JStr "transaction broadcasting";
                  JStr "facilitator gas sponsorship";
                  JStr "authorization format support";
                  JStr "full payload support"]);
           ("note", JStr "This facilitator can pay gas fees for users via sponsored transactions");
           ("payloadFormats",
            JArr [JStr "minimal (signature + transaction)";
                  JStr "full (with payer, amount, etc.)";
                  JStr "authorization_only (from middleware)";
                  JStr "facilitator_sponsored (facilitator pays gas)"]);
           ("endpoints",
            JObj [("/create-sponsored-transaction",
                   JStr "Create transaction with facilitator as fee payer");
                  ("/verify", JStr "Verify payment (supports gas sponsorship)");
                  ("/settle", JStr "Settle payment (facilitator can pay gas)");
                  ("/supported", JStr "Get supported payment types")])]).

Definition items (v : JValue) : list JValue :=
  match v with
  | JArr l => l
  | _ => []
  end.

(** X15: the networks listed by [/supported] and by [/health] are exactly
    the names under which the handlers find a connection of their own. *)
Theorem advertised_networks_are_served (timestamp key : string) :
  (In (JStr key)
      (map (fun kind => field kind "network") (items (field (body supported) "kinds")))
   <-> exists n, connections key = Some (Conn n))
  /\ (In (JStr key) (items (field (body (health timestamp)) "supportedNetworks"))
      <-> exists n, connections key = Some (Conn n)).
Proof.
  assert (Hserved : (exists n, connections key = Some (Conn n))
                    <-> In (JStr key) [JStr "solana-devnet"; JStr "solana-mainnet";
                                       JStr "solana-testnet"]).
  { split.
    - intros [n Hc]. rewrite (connections_conn_key key n Hc).
      destruct n; cbn; auto.
    - intros [H | [H | [H | []]]]; inversion H; subst.
      + exists solana_devnet. reflexivity.
      + exists solana_mainnet. reflexivity.
      + exists solana_testnet. reflexivity. }
  split; rewrite Hserved; reflexivity.
Qed.
End MoreProperties.

(** ** Concrete runs of the further properties *)

(** A sponsored payload whose transaction has the facilitator as fee
    payer and carries both signatures. *)
Definition sponsored_request : JValue :=
  request "solana-devnet"
          [("userSignature", JStr "U5"); ("facilitatorTransaction", JStr "c3BvbnNvcmVk");
           ("userPublicKey", JStr "User1")].

Definition sponsored_data : TransactionData :=
  SponsoredData (JStr "U5") (JStr "c3BvbnNvcmVk") (JStr "User1").

(** The node refuses the broadcast. *)
Definition refusing_world : TestWorld :=
  mkTestWorld 1000 50 (Ok JNull) (Ok None) (Throw "Blockhash not found") [].

(** A request for a network the facilitator does not serve. *)
Definition foreign_request : JValue :=
  request "base-sepolia" [("signature", JStr "S1"); ("transaction", JStr "c2VsZnBhaWQ=")].

Lemma verify_authorization_only_witness :
  verify LIB test_ledger KEYS authorization_request (start_of landed_world)
  = (Returns (accept KEYS authorization_data (field authorization_request "paymentPayload")),
     mkSt (tick landed_world)
          [EvGetTransaction solana_devnet (JStr "S1") (Ok (Some landed))]).
Proof.
  exact (verify_authorization_only
           LIB test_ledger KEYS authorization_request solana_devnet authorization_data
           (start_of landed_world)
           (Build_verify_request authorization_request solana_devnet authorization_data
                                 eq_refl eq_refl eq_refl)
           eq_refl).
Defined.

Lemma verify_sponsored_by_facilitator_witness :
  verify LIB test_ledger KEYS sponsored_request (start_of landed_world)
  = (Returns (accept KEYS sponsored_data (field sponsored_request "paymentPayload")),
     mkSt (tick landed_world)
          [EvSimulate solana_devnet (wire_tx [FACILITATOR; "User1"]) (Ok JNull)]).
Proof.
  exact (verify_sponsored_by_facilitator
           LIB test_ledger KEYS sponsored_request solana_devnet sponsored_data
           (wire_tx [FACILITATOR; "User1"]) (start_of landed_world)
           (Build_verify_request sponsored_request solana_devnet sponsored_data
                                 eq_refl eq_refl eq_refl)
           eq_refl eq_refl eq_refl).
Defined.

Lemma verify_rejects_untouched_witness :
  exists reason,
    verify LIB test_ledger KEYS foreign_request (start_of quiet_world)
    = (Returns (reject reason), start_of quiet_world).
Proof.
  apply (verify_rejects_untouched LIB test_ledger KEYS foreign_request
                                  (start_of quiet_world)).
  - discriminate.
  - discriminate.
  - left. intros n. destruct n; discriminate.
Defined.

Lemma verify_never_misses_transaction_witness :
  exists r,
    fst (verify LIB test_ledger KEYS
                (request "solana-devnet"
                         [("signature", JStr "S1"); ("transaction", JStr EmptyString)])
                (start_of quiet_world))
    = Returns r
    /\ r <> reject "Missing transaction data for full verification".
Proof.
  eexists. split; [vm_compute; reflexivity |].
  apply (verify_never_misses_transaction
           LIB test_ledger KEYS
           (request "solana-devnet"
                    [("signature", JStr "S1"); ("transaction", JStr EmptyString)])
           (start_of quiet_world)).
  vm_compute. reflexivity.
Defined.

Lemma settle_confirmed_response_witness :
  exists response,
    fst (settle LIB test_ledger KEYS 100 minimal_request (start_of confirming_world))
    = Returns response
    /\ status response = 200
    /\ field (body response) "transaction" = JStr "5igNature"
    /\ field (body response) "confirmationStatus" = JStr "finalized"
    /\ field (body response) "userPaidGas" = JBool true.
Proof.
  edestruct (settle_confirmed_response
               LIB test_ledger KEYS 100 minimal_request solana_devnet minimal_data
               (start_of confirming_world))
    as (response & Hrun & Hstatus & _ & Htx & _ & Hconf & _ & _ & _ & _ & Hgas).
  - exact (Build_settle_request minimal_request solana_devnet minimal_data
                                eq_refl eq_refl).
  - discriminate.
  - vm_compute. reflexivity.
  - reflexivity.
  - exists response. rewrite Hrun.
    split; [reflexivity |]. split; [exact Hstatus |].
    split; [exact Htx |]. split; [exact Hconf | exact Hgas].
Defined.

Lemma settle_untouched_without_connection_witness :
  settle LIB test_ledger KEYS 100 foreign_request (start_of quiet_world)
  = (Returns (settle_failed "Invalid settlement request: unsupported network"
                            (JStr "base-sepolia")),
     start_of quiet_world).
Proof.
  destruct (settle_untouched_without_connection
              LIB test_ledger KEYS 100 foreign_request (start_of quiet_world))
    as [Hstate Hanswer].
  - left. intros n. destruct n; discriminate.
  - destruct (settle LIB test_ledger KEYS 100 foreign_request (start_of quiet_world))
      as [[r|e|] st1] eqn:Hrun; cbn [fst snd] in *.
    + subst st1. destruct Hanswer as [message Hr]. rewrite <- Hrun. reflexivity.
    + rewrite <- Hrun. reflexivity.
    + contradiction.
Defined.


Lemma settle_sponsored_broadcasts_any_fee_payer_witness :
  exists new,
    trace (snd (settle LIB test_ledger KEYS 100 misdirected_request
                       (start_of confirming_world)))
    = (new ++ [EvBroadcast solana_devnet
                           (mkWire [Some "signed-with-secret-of-User1"]
                                   (mkMessage 1 0 1 ["User1"; TOKEN_PROGRAM_ID]
                                              "blockhash-0" []))
                           (mkSendOptions false 3) (Ok "5igNature")])%list
    /\ Forall not_broadcast new.
Proof.
  exact (settle_sponsored_broadcasts_any_fee_payer
           LIB test_ledger KEYS 100 misdirected_request solana_devnet misdirected_data
           (wire_tx ["User1"]) "User1"
           (mkWire [Some "signed-with-secret-of-User1"]
                   (mkMessage 1 0 1 ["User1"; TOKEN_PROGRAM_ID] "blockhash-0" []))
           (start_of confirming_world)
           (Build_settle_request misdirected_request solana_devnet misdirected_data
                                 eq_refl eq_refl)
           eq_refl eq_refl eq_refl eq_refl).
Defined.

Lemma settle_broadcast_rejected_witness :
  settle LIB test_ledger KEYS 100 minimal_request (start_of refusing_world)
  = (Returns (settle_failed "Blockhash not found" (JStr "solana-devnet")),
     mkSt (tick refusing_world)
          [EvBroadcast solana_devnet
                       (mkWire [Some "signed-with-secret-of-User1"]
                               (mkMessage 1 0 1 ["User1"; TOKEN_PROGRAM_ID]
                                          "blockhash-0" []))
                       (mkSendOptions false 3) (Throw "Blockhash not found")]).
Proof.
  apply (settle_broadcast_rejected
           LIB test_ledger KEYS 100 minimal_request solana_devnet minimal_data
           (wire_tx ["User1"]) "User1"
           (mkWire [Some "signed-with-secret-of-User1"]
                   (mkMessage 1 0 1 ["User1"; TOKEN_PROGRAM_ID] "blockhash-0" []))
           (start_of refusing_world) "Blockhash not found"
           (Build_settle_request minimal_request solana_devnet minimal_data
                                 eq_refl eq_refl)).
  - discriminate.
  - reflexivity.
  - reflexivity.
  - reflexivity.
  - reflexivity.
Defined.


Lemma settlement_details_witness :
  exists details rest,
    trace (snd (settleSolanaTransaction LIB test_ledger 100 (Conn solana_devnet) self_paid
                                        settle_options (start_of confirming_world)))
    = EvGetTransaction solana_devnet (JStr "5igNature") details :: rest
    /\ (JNum 4242, JNum 1700000000, JNum 5000) = details_from details.
Proof.
  pose proof (settlement_details
                LIB test_ledger 100 solana_devnet self_paid settle_options
                (start_of confirming_world)
                (snd (settleSolanaTransaction LIB test_ledger 100 (Conn solana_devnet)
                        self_paid settle_options (start_of confirming_world)))
                (mkReceipt (JStr "5igNature") true finalized
                           (JNum 4242) (JNum 1700000000) (JNum 5000)))
    as Hdetails.
  apply Hdetails. vm_compute. reflexivity.
Defined.



(** ** What the handlers read of a request *)

Section RequestProperties.
Context {World : Type}.
Variable lib : Lib.
Variable L : Ledger World.
Variable facilitatorKeypair : Keypair.

(** X18: the verify handler reads of the payment requirements only
    whether they are there: two requests with the same payload, each with
    requirements of some kind, get the same verdict and make the same
    calls, whatever amount, asset and recipient the requirements name. *)
Theorem verify_ignores_requirements (req_body req_body' : JValue) (st : St World) :
  req_body <> JUndefined -> req_body <> JNull ->
  req_body' <> JUndefined -> req_body' <> JNull ->
  field req_body "paymentPayload" = field req_body' "paymentPayload" ->
  truthy (field req_body "paymentRequirements") = true ->
  truthy (field req_body' "paymentRequirements") = true ->
  verify lib L facilitatorKeypair req_body st
  = verify lib L facilitatorKeypair req_body' st.
Proof.
  intros Hu Hn Hu' Hn' Hpayload Hreq Hreq'.
  assert (Hd : forall k, destructure req_body k = Ok (field req_body k))
    by (destruct req_body; try reflexivity; congruence).
  assert (Hd' : forall k, destructure req_body' k = Ok (field req_body' k))
    by (destruct req_body'; try reflexivity; congruence).
  unfold verify. rewrite !Hd, !Hd'. unfold bind at 1 2 8 9. cbn [lift ret].
  rewrite Hpayload, Hreq, Hreq'. reflexivity.
Qed.

(** X5: the settle handler does not read the payment requirements at
    all: two requests with the same payload are settled alike. *)
Theorem settle_ignores_requirements
        (fuel : nat) (req_body req_body' : JValue) (st : St World) :
  req_body <> JUndefined -> req_body <> JNull ->
  req_body' <> JUndefined -> req_body' <> JNull ->
  field req_body "paymentPayload" = field req_body' "paymentPayload" ->
  settle lib L facilitatorKeypair fuel req_body st
  = settle lib L facilitatorKeypair fuel req_body' st.
Proof.
  intros Hu Hn Hu' Hn' Hpayload.
  assert (Hd : forall k, destructure req_body k = Ok (field req_body k))
    by (destruct req_body; try reflexivity; congruence).
  assert (Hd' : forall k, destructure req_body' k = Ok (field req_body' k))
    by (destruct req_body'; try reflexivity; congruence).
  unfold settle. rewrite !Hd, !Hd'. unfold bind at 1 2. cbn [lift ret].
  rewrite Hpayload. reflexivity.
Qed.
End RequestProperties.

(** The minimal request again, with requirements that ask for another
    amount on another network. *)
Definition repriced_request : JValue :=
  JObj [("paymentPayload", field minimal_request "paymentPayload");
        ("paymentRequirements",
         JObj [("network", JStr "solana-mainnet"); ("asset", JStr "Mint2");
               ("payTo", JStr "Shop2"); ("maxAmountRequired", JStr "999999999")])].

Lemma verify_ignores_requirements_witness :
  verify LIB test_ledger KEYS minimal_request (start_of quiet_world)
  = verify LIB test_ledger KEYS repriced_request (start_of quiet_world).
Proof.
  apply (verify_ignores_requirements LIB test_ledger KEYS minimal_request repriced_request
                                     (start_of quiet_world));
    first [discriminate | reflexivity].
Defined.

Lemma settle_ignores_requirements_witness :
  settle LIB test_ledger KEYS 100 minimal_request (start_of confirming_world)
  = settle LIB test_ledger KEYS 100 repriced_request (start_of confirming_world).
Proof.
  apply (settle_ignores_requirements LIB test_ledger KEYS 100 minimal_request
                                     repriced_request (start_of confirming_world));
    first [discriminate | reflexivity].
Defined.

(** ** A transaction that fails on the ledger *)

(** The ledger of the concrete runs, but for a transaction that reached
    confirmed and failed: every status answer says so. *)
Definition failing_ledger : Ledger TestWorld :=
  {| Date_now := Date_now test_ledger;
     setTimeout := setTimeout test_ledger;
     rpc_getLatestBlockhash := rpc_getLatestBlockhash test_ledger;
     rpc_simulateTransaction := rpc_simulateTransaction test_ledger;
     rpc_getTransaction := rpc_getTransaction test_ledger;
     rpc_sendRawTransaction := rpc_sendRawTransaction test_ledger;
     rpc_getSignatureStatus := fun _ _ w =>
       (Ok (Some (mkStatus (Some confirmed) (JStr "InstructionError"))), tick w) |}.

(** An answer of [getSignatureStatus] for a transaction that reached [s]
    and failed there: the status carries an execution error. *)
Definition failed_at (s : ConfirmationStatus) (answer : StatusAnswer) : Prop :=
  exists value,
    answer = Ok (Some value) /\ truthy (ss_err value) = true /\ reported value = s.

(** What a turn of the loop adds that neither waits nor looks anything
    up: a reading of the clock, a status poll. *)
Definition hurried (e : Event) : Prop :=
  match e with
  | EvNow _ | EvSignatureStatus _ _ _ => True
  | _ => False
  end.

Section SwallowedFailure.
Context {World : Type}.
Variable lib : Lib.
Variable L : Ledger World.
Variable facilitatorKeypair : Keypair.

(** The loop on a ledger that reports the transaction failed: the throw
    of the loop body is caught by the loop itself, the wait is skipped, and
    the loop runs until the clock has passed the timeout. *)
Lemma poll_failed (n : Network) (sig : Signature) (startTime timeout : Z)
      (s : ConfirmationStatus) :
  (forall w, failed_at s (fst (rpc_getSignatureStatus L n sig w))) ->
  forall fuel v st v' st',
    poll lib L fuel (Conn n) sig startTime timeout v st = (Returns v', st') ->
    pv_confirmed v = false ->
    exists new,
      trace st' = (new ++ trace st)%list
      /\ Forall hurried new
      /\ pv_confirmed v' = false
      /\ details_of v' = details_of v
      /\ timeout <= Date_now L (world st') - startTime
      /\ (pv_confirmationStatus v' = s \/ (v' = v /\ world st' = world st)).
Proof.
  intros Hfail.
  induction fuel as [| fuel IH]; intros v st v' st' Hrun Hv.
  { discriminate Hrun. }
  cbn [poll] in Hrun. unfold bind at 1 in Hrun. unfold Date_now_ at 1 in Hrun.
  rewrite Hv in Hrun. cbn [negb] in Hrun. rewrite andb_true_r in Hrun.
  destruct (Z.ltb_spec (Date_now L (world st) - startTime) timeout) as [Hin | Hout].
  2: { inversion Hrun; subst. exists [EvNow (Date_now L (world st))].
       cbn [world trace]. repeat split; auto.
       constructor; [exact I | constructor]. }
  unfold bind at 1 in Hrun. rewrite poll_turn_conn in Hrun. cbn [world trace] in Hrun.
  destruct (Hfail (world st)) as (value & Hanswer & Herr & Hstatus).
  destruct (rpc_getSignatureStatus L n sig (world st)) as [answer w1].
  cbn [fst] in Hanswer. subst answer. cbv zeta in Hrun. rewrite Herr in Hrun.
  cbn [fst snd] in Hrun.
  apply IH in Hrun; [| exact Hv].
  destruct Hrun as (new & Htrace & Hhurried & Hconf & Hdetails & Htime & Hlast).
  cbn [trace world] in *.
  exists (new ++ [EvSignatureStatus n sig (Ok (Some value));
                  EvNow (Date_now L (world st))])%list.
  rewrite <- app_assoc. split; [exact Htrace |].
  split.
  { apply Forall_app. split; [exact Hhurried |].
    constructor; [exact I | constructor; [exact I | constructor]]. }
  split; [exact Hconf |]. split; [exact Hdetails |]. split; [exact Htime |].
  left. destruct Hlast as [Hs | [Hsame _]]; [exact Hs |].
  rewrite Hsame. cbn [set_confirmationStatus pv_confirmationStatus]. exact Hstatus.
Qed.

(** C4, where the code departs from it: a transaction that the ledger
    took at broadcast and then reports as failed, whatever status it
    reached.  The loop body throws 'Transaction failed' for such a status,
    and the loop's own [catch] swallows the throw: the loop polls on
    without waiting until thirty seconds are over, the record returned has
    [confirmed = false] next to the status every poll observed, and the
    settle handler answers that the transaction was not confirmed within
    the timeout. *)
Theorem failed_transaction_reported_as_timeout
        (fuel : nat) (req_body : JValue) (n : Network) (d : TransactionData)
        (tx : Transaction) (payer : PublicKey) (raw : WireTransaction)
        (sig : Signature) (s : ConfirmationStatus) (st : St World) :
  ClockAdvances L ->
  (Z.to_nat 30000 < fuel)%nat ->
  settle_request req_body n d ->
  td_format d <> authorization_only ->
  Transaction_from lib (embedded_transaction d) = Ok tx ->
  feePayer tx = Some payer ->
  serialize lib true tx = Ok raw ->
  let sent := rpc_sendRawTransaction L n raw (mkSendOptions false 3) (world st) in
  fst sent = Ok sig ->
  (forall w, failed_at s (fst (rpc_getSignatureStatus L n sig w))) ->
  exists st' new,
    settleSolanaTransaction lib L fuel (Conn n) (embedded_transaction d) settle_options st
    = (Returns (mkReceipt (JStr sig) false s JNull JNull JNull), st')
    /\ trace st'
       = (new ++ EvBroadcast n raw (mkSendOptions false 3) (Ok sig) :: trace st)%list
    /\ Forall hurried new
    /\ (exists answer, In (EvSignatureStatus n sig answer) new /\ failed_at s answer)
    /\ 30000 <= Date_now L (world st') - Date_now L (snd sent)
    /\ exists r,
        settle lib L facilitatorKeypair fuel req_body st = (Returns r, st')
        /\ settle_fails_with r (not_confirmed_message d s).
Proof.
  intros Hclock Hfuel Hgates Hf Htx Hpayer Hraw sent Hsent Hfail. subst sent.
  assert (Hrun : exists st' new,
             settleSolanaTransaction lib L fuel (Conn n) (embedded_transaction d)
                                     settle_options st
             = (Returns (mkReceipt (JStr sig) false s JNull JNull JNull), st')
             /\ trace st'
                = (new ++ EvBroadcast n raw (mkSendOptions false 3) (Ok sig)
                       :: trace st)%list
             /\ Forall hurried new
             /\ (exists answer,
                    In (EvSignatureStatus n sig answer) new /\ failed_at s answer)
             /\ 30000 <= Date_now L (world st')
                         - Date_now L (snd (rpc_sendRawTransaction
                                              L n raw (mkSendOptions false 3) (world st)))).
  { unfold settleSolanaTransaction.
    unfold bind at 1. rewrite Htx. cbn [lift ret].
    unfold bind at 1. unfold feePayer_for. rewrite Hpayer. cbn [lift ret].
    unfold bind at 1. rewrite Hraw. cbn [lift ret].
    unfold bind at 1. cbn [sendRawTransaction]. unfold await.
    cbn [skipPreflight maxRetries timeout settle_options].
    destruct (rpc_sendRawTransaction L n raw (mkSendOptions false 3) (world st))
      as [answer w1].
    cbn [fst snd] in *. subst answer. cbn [lift ret].
    unfold bind at 1. unfold Date_now_ at 1. cbn [world trace].
    unfold bind at 1.
    match goal with
    | |- context [poll lib L fuel (Conn n) sig ?t0 ?bound ?v ?st0] =>
        destruct (poll_terminates lib L n sig t0 bound Hclock fuel v st0)
          as (v' & st' & Hp);
          [cbn [world];
           replace (t0 + bound - t0) with bound by lia; exact Hfuel |];
          rewrite Hp;
          destruct (poll_failed n sig t0 bound s Hfail fuel v st0 v' st' Hp eq_refl)
            as (new & Htrace & Hhurried & Hconf & Hdetails & Htime & Hlast)
    end.
    cbn [trace world ret] in *.
    destruct Hlast as [Hs | [_ Hworld]]; [| rewrite Hworld in Htime; lia].
    assert (Hpolled : exists answer,
               In (EvSignatureStatus n sig answer) new /\ failed_at s answer).
    { clear - Hp Hfail Htrace Hfuel.
      destruct fuel as [| fuel']; [discriminate Hp |].
      cbn [poll] in Hp. unfold bind at 1 in Hp. unfold Date_now_ at 1 in Hp.
      cbn [world trace pv_confirmed initial_vars negb] in Hp.
      replace (Date_now L w1 - Date_now L w1) with 0 in Hp by lia.
      cbn [Z.ltb Z.compare andb] in Hp.
      unfold bind at 1 in Hp. rewrite poll_turn_conn in Hp. cbn [world trace] in Hp.
      pose proof (Hfail w1) as Hfirst.
      destruct (rpc_getSignatureStatus L n sig w1) as [answer w2].
      cbn [fst] in Hfirst. destruct Hfirst as (value & Hanswer & Herr & Hstatus).
      subst answer. cbv zeta in Hp. rewrite Herr in Hp. cbn [fst snd] in Hp.
      destruct (poll_failed n sig (Date_now L w1) 30000 s Hfail _ _ _ _ _ Hp eq_refl)
        as (rest & Hrest & _).
      cbn [trace] in Hrest. rewrite Hrest in Htrace.
      exists (Ok (Some value)). split; [| exists value; repeat split; assumption].
      assert (Hnew : new
                     = (rest ++ [EvSignatureStatus n sig (Ok (Some value));
                                 EvNow (Date_now L w1)])%list).
      { apply (app_inv_tail (EvNow (Date_now L w1)
                               :: EvBroadcast n raw (mkSendOptions false 3) (Ok sig)
                               :: trace st)).
        rewrite <- Htrace, <- app_assoc. reflexivity. }
      rewrite Hnew. apply in_or_app. right. left. reflexivity. }
    exists st', (new ++ [EvNow (Date_now L w1)])%list.
    rewrite <- app_assoc. cbn [app].
    split.
    { destruct v' as [c cs sl bt fe]. unfold details_of in Hdetails.
      cbn [pv_confirmed pv_confirmationStatus pv_slot pv_blockTime pv_fees initial_vars]
        in *.
      inversion Hdetails; subst. reflexivity. }
    split; [exact Htrace |].
    split.
    { apply Forall_app. split; [exact Hhurried | constructor; [exact I | constructor]]. }
    split; [| exact Htime].
    destruct Hpolled as (answer & Hin & Hfailed).
    exists answer. split; [apply in_or_app; left; exact Hin | exact Hfailed]. }
  destruct Hrun as (st' & new & Hrun & Htrace & Hhurried & Hpolled & Htime).
  exists st', new.
  split; [exact Hrun |]. split; [exact Htrace |]. split; [exact Hhurried |].
  split; [exact Hpolled |]. split; [exact Htime |].
  eexists. split.
  - rewrite (settle_after_gates _ _ _ _ _ _ _ _ Hgates).
    rewrite (settle_result_embedded _ _ _ _ _ _ _ (sr_payload _ _ _ Hgates) Hf).
    unfold bind. rewrite Hrun. cbn [r_confirmed negb throw r_confirmationStatus].
    reflexivity.
  - repeat split.
Qed.
End SwallowedFailure.

Lemma failing_ledger_clock : ClockAdvances failing_ledger.
Proof. constructor; intros; cbn; lia. Qed.

Lemma failed_transaction_reported_as_timeout_witness :
  exists st' new,
    settleSolanaTransaction LIB failing_ledger (S (Z.to_nat 30000)) (Conn solana_devnet)
                            self_paid settle_options (start_of quiet_world)
    = (Returns (mkReceipt (JStr "5igNature") false confirmed JNull JNull JNull), st')
    /\ trace st'
       = (new ++ [EvBroadcast solana_devnet
                              (mkWire [Some "signed-with-secret-of-User1"]
                                      (mkMessage 1 0 1 ["User1"; TOKEN_PROGRAM_ID]
                                                 "blockhash-0" []))
                              (mkSendOptions false 3) (Ok "5igNature")])%list
    /\ Forall hurried new
    /\ (exists answer,
           In (EvSignatureStatus solana_devnet "5igNature" answer) new
           /\ failed_at confirmed answer)
    /\ 30000 <= clock (world st') - clock (tick quiet_world)
    /\ exists r,
        settle LIB failing_ledger KEYS (S (Z.to_nat 30000)) minimal_request
               (start_of quiet_world)
        = (Returns r, st')
        /\ settle_fails_with r "Transaction not confirmed within timeout. Status: confirmed".
Proof.
  apply (failed_transaction_reported_as_timeout
           LIB failing_ledger KEYS (S (Z.to_nat 30000)) minimal_request solana_devnet
           minimal_data (wire_tx ["User1"]) "User1"
           (mkWire [Some "signed-with-secret-of-User1"]
                   (mkMessage 1 0 1 ["User1"; TOKEN_PROGRAM_ID] "blockhash-0" []))
           "5igNature" confirmed (start_of quiet_world) failing_ledger_clock).
  - apply Nat.lt_succ_diag_r.
  - exact (Build_settle_request minimal_request solana_devnet minimal_data
                                eq_refl eq_refl).
  - discriminate.
  - reflexivity.
  - reflexivity.
  - reflexivity.
  - reflexivity.
  - intros w. eexists. repeat split.
Defined.
